(** * The task-loop controller [AutonomousAgent]

    A shallow embedding of the class [AutonomousAgent] (components/AutonomousAgent)
    and of the properties its specification states about it.

    The controller is a JavaScript object whose methods mutate its own fields,
    call two callbacks supplied by the caller ([renderMessage], [shutdown]),
    call an execution capability (in process, or through [axios.post]) and
    suspend at [await] points, where other code of the page (the Stop button's
    handler) may run.  The embedding is by explicit state passing:

    - a [World] holds the object's fields, the log of everything the object did
      to its collaborators, and a counter of the suspension points passed;
    - an [Environment] answers for everything outside the object: what the
      execution capability returns at a given suspension point and how many
      calls of [stopAgent] arrive while the object is suspended there; the
      suspension points are the [await]s that give control back to the event
      loop, that is the pacing delays and the execution call;
    - a method that cannot throw is a function [World -> World]; one that can is
      a function [World -> Outcome A * World]; the self-recursive [loop] takes
      fuel, and is shown to need no more than one unit per pending task. *)

From Stdlib Require Import String Ascii List ZArith Bool Lia PeanoNat.
Import ListNotations.
Open Scope string_scope.

(** ** JavaScript values *)

(** Truthiness of an optional string ([!!s]): defined and not empty. *)
Definition truthy_string (s : option string) : bool :=
  match s with
  | Some (String _ _) => true
  | _ => false
  end.

(** Truthiness of an optional number: defined and not zero. *)
Definition truthy_number (n : option Z) : bool :=
  match n with
  | Some k => negb (k =? 0)%Z
  | None => false
  end.

(** [n || d] on an optional number. *)
Definition number_or (n : option Z) (d : Z) : Z :=
  match n with
  | Some k => if truthy_number n then k else d
  | None => d
  end.

(** [s || d] on an optional string. *)
Definition string_or (s : option string) (d : string) : string :=
  match s with
  | Some t => if truthy_string s then t else d
  | None => d
  end.

(** [x as string], where [x] comes from [Array.prototype.shift]; the template
    literal prints an undefined value as the word. *)
Definition as_string (s : option string) : string :=
  match s with
  | Some t => t
  | None => "undefined"
  end.

Definition quote : string := String (ascii_of_nat 34) EmptyString.

(** What a rejected promise carries.  [axios.isAxiosError] holds of the first
    constructor only; [status] is [e.response?.status]. *)
Inductive JsError : Type :=
| AxiosError (status : option Z)
| OtherError (description : string).

(** [axios.isAxiosError(e)]. *)
Definition isAxiosError (e : JsError) : bool :=
  match e with
  | AxiosError _ => true
  | OtherError _ => false
  end.

(** [e.response?.status === code]. *)
Definition status_is (e : JsError) (code : Z) : bool :=
  match e with
  | AxiosError (Some s) => (s =? code)%Z
  | _ => false
  end.

(** How a call that may throw ends. *)
Inductive Outcome (A : Type) : Type :=
| Returned (a : A)
| Thrown (e : JsError).
Arguments Returned {A} a.
Arguments Thrown {A} e.

(** ** The types the controller imports *)

(** Modelled from the spec: the declaration of [ModelSettings] (utils/types) is
    not among the sources; section 6 lists the recognised options. *)
Record ModelSettings : Type := {
  customApiKey : option string;
  customModelName : string;
  customMaxLoops : option Z
}.

(** Modelled from the spec: next-auth's [Session], of which the controller
    reads [user.subscriptionId] only. *)
Record User : Type := { subscriptionId : option string }.
Record Session : Type := { user : User }.

(** Modelled from the spec: the declaration of [Message] (types/agentTypes) is
    not among the sources; section 6 lists the kinds and their payload. *)
Inductive MessageType : Type := goal_t | thinking_t | task_t | action_t | system_t.

Record Message : Type := {
  type : MessageType;
  info : option string;
  value : string
}.

(** What [axios.post] resolves to: the controller reads [res.data.response]. *)
Record ResponseData : Type := { response : string }.
Record AxiosResponse : Type := { res_data : ResponseData }.

(** The body of the request to the execution endpoint (utils/interfaces). *)
Record RequestBody : Type := {
  rb_modelSettings : ModelSettings;
  rb_goal : string;
  rb_task : string
}.

(** Modelled from the spec: the three constants of utils/constants, whose
    values are not among the sources. *)
Record Constants : Type := {
  DEFAULT_MAX_LOOPS_CUSTOM_API_KEY : Z;
  DEFAULT_MAX_LOOPS_FREE : Z;
  DEFAULT_MAX_LOOPS_PAID : Z
}.

(** ** The object, its collaborators and the world *)

Record AutonomousAgent : Type := {
  name : string;
  goal : string;
  tasks : list string;
  completedTasks : list string;
  runningTasks : list string;
  modelSettings : ModelSettings;
  isRunning : bool;
  numLoops : Z;
  session : option Session;
  _id : string
}.

(** What the object does to the outside, in order.  A call of the shutdown hook
    records the value of the public field [isRunning] the hook can read. *)
Inductive Event : Type :=
| Rendered (m : Message)
| ShutdownCalled (running : bool)
| ExecuteTaskAgentCalled (settings : ModelSettings) (goal task : string)
| AxiosPosted (url : string) (data : RequestBody).

Record World : Type := {
  self : AutonomousAgent;
  log : list Event;
  now : nat
}.

(** Everything outside the object.  The first argument of the two capabilities
    is the suspension point at which the call is awaited. *)
Record Environment : Type := {
  executeTaskAgent : nat -> ModelSettings -> string -> string -> Outcome string;
  axios_post : nat -> string -> RequestBody -> Outcome AxiosResponse;
  stop_requests : nat -> nat
}.

(** The constructor: [new AutonomousAgent(name, goal, renderMessage, shutdown,
    modelSettings, session)], with the identifier [v4()] returned. *)
Definition new_agent (name goal : string) (settings : ModelSettings)
    (session : option Session) (id : string) : AutonomousAgent :=
  {| name := name; goal := goal; tasks := []; completedTasks := [];
     runningTasks := []; modelSettings := settings; isRunning := true;
     numLoops := 0%Z; session := session; _id := id |}.

Definition new_world (a : AutonomousAgent) : World :=
  {| self := a; log := []; now := 0 |}.

(** Field updates. *)
Definition with_self (f : AutonomousAgent -> AutonomousAgent) (w : World) : World :=
  {| self := f (self w); log := log w; now := now w |}.

Definition emit (e : Event) (w : World) : World :=
  {| self := self w; log := log w ++ [e]; now := now w |}.

Definition tick_clock (w : World) : World :=
  {| self := self w; log := log w; now := S (now w) |}.

Definition set_tasks (ts : list string) (a : AutonomousAgent) : AutonomousAgent :=
  {| name := name a; goal := goal a; tasks := ts;
     completedTasks := completedTasks a; runningTasks := runningTasks a;
     modelSettings := modelSettings a; isRunning := isRunning a;
     numLoops := numLoops a; session := session a; _id := _id a |}.

Definition set_completedTasks (ts : list string) (a : AutonomousAgent) : AutonomousAgent :=
  {| name := name a; goal := goal a; tasks := tasks a;
     completedTasks := ts; runningTasks := runningTasks a;
     modelSettings := modelSettings a; isRunning := isRunning a;
     numLoops := numLoops a; session := session a; _id := _id a |}.

Definition set_runningTasks (ts : list string) (a : AutonomousAgent) : AutonomousAgent :=
  {| name := name a; goal := goal a; tasks := tasks a;
     completedTasks := completedTasks a; runningTasks := ts;
     modelSettings := modelSettings a; isRunning := isRunning a;
     numLoops := numLoops a; session := session a; _id := _id a |}.

Definition set_isRunning (b : bool) (a : AutonomousAgent) : AutonomousAgent :=
  {| name := name a; goal := goal a; tasks := tasks a;
     completedTasks := completedTasks a; runningTasks := runningTasks a;
     modelSettings := modelSettings a; isRunning := b;
     numLoops := numLoops a; session := session a; _id := _id a |}.

Definition set_numLoops (n : Z) (a : AutonomousAgent) : AutonomousAgent :=
  {| name := name a; goal := goal a; tasks := tasks a;
     completedTasks := completedTasks a; runningTasks := runningTasks a;
     modelSettings := modelSettings a; isRunning := isRunning a;
     numLoops := n; session := session a; _id := _id a |}.

(** ** The messages *)

Definition MANUAL_SHUTDOWN_TEXT : string :=
  "The agent has been manually shutdown.".

Definition COMPLETED_TEXT : string :=
  "All tasks completed. Shutting down.".

Definition RATE_LIMIT_TEXT : string :=
  "Rate limit exceeded. Please slow down. 😅".

Definition LOOP_TEXT_CUSTOM_KEY : string :=
  "This agent has maxed out on loops. To save your wallet, this agent is shutting down. You can configure the number of loops in the advanced settings.".

Definition LOOP_TEXT_DEMO : string :=
  "We're sorry, because this is a demo, we cannot have our agents running for too long. Note, if you desire longer runs, please provide your own API key in Settings. Shutting down.".

Definition goalMessage (g : string) : Message :=
  {| type := goal_t; info := None; value := g |}.

Definition thinkingMessage : Message :=
  {| type := thinking_t; info := None; value := EmptyString |}.

Definition taskMessage (task : string) : Message :=
  {| type := task_t; info := None; value := task |}.

Definition systemMessage (text : string) : Message :=
  {| type := system_t; info := None; value := text |}.

Definition executionMessage (task execution : string) : Message :=
  {| type := action_t;
     info := Some ("Executing " ++ quote ++ task ++ quote);
     value := execution |}.

Definition loopMessageText (settings : ModelSettings) : string :=
  if truthy_string (customApiKey settings)
  then LOOP_TEXT_CUSTOM_KEY else LOOP_TEXT_DEMO.

(** [getMessageFromError]. *)
Definition getMessageFromError (e : JsError) : string :=
  let message :=
    "ERROR accessing OpenAI APIs. Please check your API key or try again later" in
  if isAxiosError e then
    let message :=
      if status_is e 429
      then "ERROR using your OpenAI API key. You've exceeded your current quota, please check your plan and billing details."
      else message in
    let message :=
      if status_is e 404
      then "ERROR your API key does not have GPT-4 access. You must first join OpenAI's wait-list. (This is different from ChatGPT Plus)"
      else message in
    message
  else
    "ERROR retrieving initial tasks array. Retry, make your goal more clear, or revise your goal such that it is within our model's policies to run. Shutting Down.".

(** ** The methods *)

(** The task list of [run] (the array literal assigned to [this.tasks]). *)
Definition INITIAL_TASKS : list string :=
  ["Introduction"; "Concept"; "Problem it aims to solve"; "Target audience";
   "Unique selling point"; "Competitors"; "Market fit";
   "Specific details to consider"].

Definition EXECUTE_URL : string := "/api/agent/execute".

(** [sendMessage]: the sink is called only while [isRunning] holds. *)
Definition sendMessage (m : Message) (w : World) : World :=
  if isRunning (self w) then emit (Rendered m) w else w.

(** [this.shutdown()]: the hook is called, and can read [isRunning]. *)
Definition shutdown (w : World) : World :=
  emit (ShutdownCalled (isRunning (self w))) w.

Definition sendGoalMessage (w : World) : World :=
  sendMessage (goalMessage (goal (self w))) w.

Definition sendLoopMessage (w : World) : World :=
  sendMessage (systemMessage (loopMessageText (modelSettings (self w)))) w.

Definition sendManualShutdownMessage (w : World) : World :=
  sendMessage (systemMessage MANUAL_SHUTDOWN_TEXT) w.

Definition sendCompletedMessage (w : World) : World :=
  sendMessage (systemMessage COMPLETED_TEXT) w.

Definition sendThinkingMessage (w : World) : World :=
  sendMessage thinkingMessage w.

Definition sendTaskMessage (task : string) (w : World) : World :=
  sendMessage (taskMessage task) w.

Definition sendErrorMessage (error : string) (w : World) : World :=
  sendMessage (systemMessage error) w.

Definition sendExecutionMessage (task execution : string) (w : World) : World :=
  sendMessage (executionMessage task execution) w.

(** [stopAgent]. *)
Definition stopAgent (w : World) : World :=
  let w := sendManualShutdownMessage w in
  let w := with_self (set_isRunning false) w in
  shutdown w.

(** [shouldRunClientSide]. *)
Definition shouldRunClientSide (a : AutonomousAgent) : bool :=
  truthy_string (customApiKey (modelSettings a)).

(** [this.tasks.shift()]. *)
Definition shift (w : World) : option string * World :=
  match tasks (self w) with
  | [] => (None, w)
  | t :: rest => (Some t, with_self (set_tasks rest) w)
  end.

(** [this.tasks[0]]. *)
Definition first_task (a : AutonomousAgent) : option string :=
  match tasks a with
  | [] => None
  | t :: _ => Some t
  end.

Section Controller.

Variable consts : Constants.
Variable env : Environment.

(** [maxLoops]. *)
Definition maxLoops (a : AutonomousAgent) : Z :=
  let defaultLoops :=
    if truthy_string
         (match session a with
          | Some s => subscriptionId (user s)
          | None => None
          end)
    then DEFAULT_MAX_LOOPS_PAID consts
    else DEFAULT_MAX_LOOPS_FREE consts in
  if truthy_string (customApiKey (modelSettings a))
  then number_or (customMaxLoops (modelSettings a))
                 (DEFAULT_MAX_LOOPS_CUSTOM_API_KEY consts)
  else defaultLoops.

(** An [await]: the object is suspended, the calls of [stopAgent] that the
    environment makes meanwhile take effect, and the object resumes. *)
Definition suspend (w : World) : World :=
  tick_clock (Nat.iter (stop_requests env (now w)) stopAgent w).

(** [post]: the request is sent and awaited; the handler of a failure calls
    the shutdown hook, reports a rate limit, and throws the failure again. *)
Definition post (url : string) (data : RequestBody) (w : World)
    : Outcome AxiosResponse * World :=
  let answer := axios_post env (now w) url data in
  let w := suspend (emit (AxiosPosted url data) w) in
  match answer with
  | Returned res => (Returned res, w)
  | Thrown e =>
      let w := shutdown w in
      let w :=
        if isAxiosError e && status_is e 429
        then sendErrorMessage RATE_LIMIT_TEXT w
        else w in
      (Thrown e, w)
  end.

(** [executeTask]. *)
Definition executeTask (task : string) (w : World) : Outcome string * World :=
  if shouldRunClientSide (self w) then
    let answer :=
      executeTaskAgent env (now w) (modelSettings (self w)) (goal (self w)) task in
    let w :=
      suspend (emit (ExecuteTaskAgentCalled (modelSettings (self w))
                                            (goal (self w)) task) w) in
    (answer, w)
  else
    let data :=
      {| rb_modelSettings := modelSettings (self w);
         rb_goal := goal (self w);
         rb_task := task |} in
    let (res, w) := post EXECUTE_URL data w in
    match res with
    | Returned res => (Returned (response (res_data res)), w)
    | Thrown e => (Thrown e, w)
    end.

(** The part of a tick of [loop] between the first pacing delay and the call
    of [executeTask]: the task is recorded as completed, taken off the queue
    and announced. *)
Definition dispatch (w : World) : option string * World :=
  let w :=
    with_self (fun a =>
      set_completedTasks
        (completedTasks a ++ [string_or (first_task a) EmptyString]) a) w in
  let (currentTask, w) := shift w in
  (currentTask, sendThinkingMessage w).

(** The part of a tick of [loop] after [executeTask] has returned, up to the
    recursive call. *)
Definition report (currentTask : option string) (result : string) (w : World)
    : World :=
  let w := sendExecutionMessage (as_string currentTask) result w in
  let w :=
    with_self (fun a =>
      set_runningTasks (runningTasks a ++ [as_string currentTask]) a) w in
  suspend w.

(** [loop].  Each unit of fuel pays for one call. *)
Fixpoint loop (fuel : nat) (w : World) : option (Outcome unit * World) :=
  match fuel with
  | O => None
  | S fuel' =>
      if negb (isRunning (self w)) then Some (Returned tt, w)
      else if (List.length (tasks (self w)) =? 0)%nat then
        Some (Returned tt, shutdown (sendCompletedMessage w))
      else
        let w := with_self (fun a => set_numLoops (numLoops a + 1)%Z a) w in
        let maxLoops := maxLoops (self w) in
        if (numLoops (self w) >? maxLoops)%Z then
          Some (Returned tt, shutdown (sendLoopMessage w))
        else
          let w := suspend w in
          let (currentTask, w) := dispatch w in
          match executeTask (as_string currentTask) w with
          | (Thrown e, w) => Some (Thrown e, w)
          | (Returned result, w) => loop fuel' (report currentTask result w)
          end
  end.

(** The [try] block of [run], for the task list [decomposed]: the list is
    stored, and each task is announced after a pacing delay.  This is the
    block of an object whose sink does not throw; [Sink.run_try] below is the
    block for a sink that may. *)
Definition run_try (decomposed : list string) (w : World)
    : Outcome unit * World :=
  let w := with_self (set_tasks decomposed) w in
  (Returned tt,
   fold_left (fun w task => sendTaskMessage task (suspend w))
             (tasks (self w)) w).

(** [run], with the task list of its [try] block as a parameter. *)
Definition run_from (decomposed : list string) (fuel : nat) (w : World)
    : option (Outcome unit * World) :=
  let w := sendGoalMessage w in
  let w := sendThinkingMessage w in
  match run_try decomposed w with
  | (Thrown e, w) =>
      let w := sendErrorMessage (getMessageFromError e) w in
      Some (Returned tt, shutdown w)
  | (Returned _, w) => loop fuel w
  end.

(** [run]. *)
Definition run (fuel : nat) (w : World) : option (Outcome unit * World) :=
  run_from INITIAL_TASKS fuel w.

End Controller.

(** ** Reading a log *)

Definition rendered (l : list Event) : list Message :=
  flat_map (fun e => match e with Rendered m => [m] | _ => [] end) l.

Definition is_action (m : Message) : bool :=
  match type m with action_t => true | _ => false end.

Definition is_system (m : Message) : bool :=
  match type m with system_t => true | _ => false end.

Definition is_system_text (text : string) (m : Message) : bool :=
  is_system m && String.eqb (value m) text.

Definition actions (l : list Event) : list Message :=
  filter is_action (rendered l).

Definition system_messages (l : list Event) : list Message :=
  filter is_system (rendered l).

Definition count_system_text (text : string) (l : list Event) : nat :=
  List.length (filter (is_system_text text) (rendered l)).

Definition is_shutdown (e : Event) : bool :=
  match e with ShutdownCalled _ => true | _ => false end.

Definition is_execution (e : Event) : bool :=
  match e with
  | ExecuteTaskAgentCalled _ _ _ | AxiosPosted _ _ => true
  | _ => false
  end.

Definition count_shutdown (l : list Event) : nat :=
  List.length (filter is_shutdown l).

(** The hook's call that follows the first [stopAgent] is the first one that
    reads [isRunning] as false. *)
Definition is_stop_mark (e : Event) : bool :=
  match e with ShutdownCalled false => true | _ => false end.

(** What the log holds after the first [stopAgent] ([[]] when there was none). *)
Fixpoint after_stop (l : list Event) : list Event :=
  match l with
  | [] => []
  | e :: l' => if is_stop_mark e then l' else after_stop l'
  end.

(** ** What a run without interference does *)

Definition text_of (o : Outcome string) : string :=
  match o with
  | Returned s => s
  | Thrown _ => EmptyString
  end.

(** The answer [executeTask] gets for [task] when it suspends at point [k]. *)
Definition execution_answer (env : Environment) (settings : ModelSettings)
    (g : string) (k : nat) (task : string) : Outcome string :=
  if truthy_string (customApiKey settings)
  then executeTaskAgent env k settings g task
  else
    match axios_post env k EXECUTE_URL
            {| rb_modelSettings := settings; rb_goal := g; rb_task := task |}
    with
    | Returned res => Returned (response (res_data res))
    | Thrown e => Thrown e
    end.

(** The call [executeTask] makes for [task]. *)
Definition execution_event (settings : ModelSettings) (g task : string) : Event :=
  if truthy_string (customApiKey settings)
  then ExecuteTaskAgentCalled settings g task
  else AxiosPosted EXECUTE_URL
         {| rb_modelSettings := settings; rb_goal := g; rb_task := task |}.

(** The log of a tick that starts at point [k] and executes [task]. *)
Definition tick_events (env : Environment) (settings : ModelSettings)
    (g : string) (k : nat) (task : string) : list Event :=
  [Rendered thinkingMessage;
   execution_event settings g task;
   Rendered (executionMessage task
               (text_of (execution_answer env settings g (S k) task)))].

(** The log of the ticks of [loop] from point [k] on, with [budget] iterations
    left under the cap and the queue [ts]. *)
Fixpoint loop_events (env : Environment) (settings : ModelSettings)
    (g : string) (k budget : nat) (ts : list string) {struct ts} : list Event :=
  match ts with
  | [] => [Rendered (systemMessage COMPLETED_TEXT); ShutdownCalled true]
  | t :: rest =>
      match budget with
      | O => [Rendered (systemMessage (loopMessageText settings));
              ShutdownCalled true]
      | S budget' =>
          tick_events env settings g k t
          ++ loop_events env settings g (3 + k) budget' rest
      end
  end.

(** The action messages of the tasks [ts], executed from point [k] on. *)
Fixpoint expected_actions (env : Environment) (settings : ModelSettings)
    (g : string) (k : nat) (ts : list string) : list Message :=
  match ts with
  | [] => []
  | t :: rest =>
      executionMessage t (text_of (execution_answer env settings g (S k) t))
      :: expected_actions env settings g (3 + k) rest
  end.

(** No call of [stopAgent] arrives from point [k] on. *)
Definition undisturbed_from (env : Environment) (k : nat) : Prop :=
  forall j, k <= j -> stop_requests env j = 0.

(** The execution capability answers every call. *)
Definition never_fails (env : Environment) : Prop :=
  (forall k s g t, exists r, executeTaskAgent env k s g t = Returned r) /\
  (forall k u d, exists r, axios_post env k u d = Returned r).

(** Every request to the execution endpoint is answered with status 429. *)
Definition always_rate_limited (env : Environment) : Prop :=
  forall k u d, axios_post env k u d = Thrown (AxiosError (Some 429%Z)).

(** What [n] calls of [stopAgent] in a row add to the log, and do to the
    object, when the first one finds [isRunning] equal to [running]. *)
Definition stopped_log (running : bool) (n : nat) : list Event :=
  match n with
  | O => []
  | S _ =>
      (if running then [Rendered (systemMessage MANUAL_SHUTDOWN_TEXT)] else [])
      ++ repeat (ShutdownCalled false) n
  end.

Definition stopped_self (n : nat) (a : AutonomousAgent) : AutonomousAgent :=
  match n with
  | O => a
  | S _ => set_isRunning false a
  end.

(** ** Sample collaborators *)

Definition sample_constants : Constants :=
  {| DEFAULT_MAX_LOOPS_CUSTOM_API_KEY := 50;
     DEFAULT_MAX_LOOPS_FREE := 4;
     DEFAULT_MAX_LOOPS_PAID := 16 |}.

Definition demo_settings : ModelSettings :=
  {| customApiKey := None; customModelName := "gpt-3.5-turbo";
     customMaxLoops := None |}.

Definition key_settings (override : option Z) : ModelSettings :=
  {| customApiKey := Some "sk-key"; customModelName := "gpt-3.5-turbo";
     customMaxLoops := override |}.

Definition paid_session : Session :=
  {| user := {| subscriptionId := Some "sub_1" |} |}.

Definition sample_agent (settings : ModelSettings) (s : option Session)
    : AutonomousAgent :=
  new_agent "startright-agent" "a marketplace for clothes" settings s "id-1".

(** The capability answers every call and nobody presses Stop. *)
Definition calm_env : Environment :=
  {| executeTaskAgent := fun _ _ _ t => Returned ("local: " ++ t);
     axios_post := fun _ _ d =>
       Returned {| res_data := {| response := "remote: " ++ rb_task d |} |};
     stop_requests := fun _ => 0 |}.

(** As [calm_env], with [n] calls of [stopAgent] at point [k]. *)
Definition stop_env (k n : nat) : Environment :=
  {| executeTaskAgent := executeTaskAgent calm_env;
     axios_post := axios_post calm_env;
     stop_requests := fun j => if (j =? k)%nat then n else 0 |}.

(** Every request fails with the given error and nobody presses Stop. *)
Definition failing_env (e : JsError) : Environment :=
  {| executeTaskAgent := fun _ _ _ _ => Thrown e;
     axios_post := fun _ _ _ => Thrown e;
     stop_requests := fun _ => 0 |}.

(** ** What may follow a call of [stopAgent] *)

Definition has_stop_mark (l : list Event) : bool := existsb is_stop_mark l.

Definition executions (l : list Event) : list Event := filter is_execution l.

(** [advances e w w']: the object went from [w] to [w'], it did not come back
    to life, it sent nothing to the sink after it was stopped, and it started
    at most [e] executions after it was stopped. *)
Definition advances (e : nat) (w w' : World) : Prop :=
  exists ext,
    log w' = (log w ++ ext)%list /\
    (isRunning (self w) = true ->
     if isRunning (self w') then has_stop_mark ext = false
     else has_stop_mark ext = true /\
          rendered (after_stop ext) = [] /\
          List.length (executions (after_stop ext)) <= e) /\
    (isRunning (self w) = false ->
     isRunning (self w') = false /\
     rendered ext = [] /\
     List.length (executions ext) <= e).

(** ** A stop before the first action message *)

Definition manual_notices (l : list Event) : nat :=
  count_system_text MANUAL_SHUTDOWN_TEXT l.

(** [stopped_early k w]: the sink has received no action message, it has
    received the notice of the manual shutdown exactly if the object is
    stopped, and the object is stopped if it has resumed from point [k]. *)
Definition stopped_early (k : nat) (w : World) : Prop :=
  actions (log w) = [] /\
  manual_notices (log w) = (if isRunning (self w) then 0 else 1) /\
  (k < now w -> isRunning (self w) = false).

(** ** The inputs of the cap *)

(** A custom credential is configured. *)
Definition has_custom_key (a : AutonomousAgent) : bool :=
  truthy_string (customApiKey (modelSettings a)).

(** The session is that of a paying identity. *)
Definition paid_identity (a : AutonomousAgent) : bool :=
  truthy_string
    (match session a with
     | Some s => subscriptionId (user s)
     | None => None
     end).

(** ** The moment of the call *)

(** The world in which a tick of [loop] that started in [w] calls
    [executeTask], and the task it calls it for. *)
Definition world_at_call (env : Environment) (w : World) : World :=
  snd (dispatch (suspend env
         (with_self (fun a => set_numLoops (numLoops a + 1)%Z a) w))).

Definition task_at_call (env : Environment) (w : World) : option string :=
  fst (dispatch (suspend env
         (with_self (fun a => set_numLoops (numLoops a + 1)%Z a) w))).

(** A fresh object whose queue has been filled, as [run] leaves it for
    [loop]. *)
Definition queued_world (settings : ModelSettings) (ts : list string) : World :=
  with_self (set_tasks ts) (new_world (sample_agent settings None)).

(** ** Reading the result of a run *)

(** How the run ended, and what [f] reads in the world it left. *)
Definition ending (r : option (Outcome unit * World)) : option (Outcome unit) :=
  option_map fst r.

Definition observe {A : Type} (f : World -> A)
    (r : option (Outcome unit * World)) : option A :=
  option_map (fun p => f (snd p)) r.

(** ** The anatomy of a tick *)

(** The counter is incremented ([this.numLoops += 1]). *)
Definition counted (w : World) : World :=
  with_self (fun a => set_numLoops (numLoops a + 1)%Z a) w.

(** What the failure handler of [post] adds to the log after the request of
    the agent [a], when the object is [alive] at that moment; an execution in
    process has no handler. *)
Definition failure_events (a : AutonomousAgent) (alive : bool)
    (o : Outcome string) : list Event :=
  match o with
  | Returned _ => []
  | Thrown e =>
      if shouldRunClientSide a then []
      else ShutdownCalled alive
           :: (if alive && (isAxiosError e && status_is e 429)
               then [Rendered (systemMessage RATE_LIMIT_TEXT)] else [])
  end.

(** The flag after a suspension at point [k]. *)
Definition survives (env : Environment) (k : nat) (alive : bool) : bool :=
  alive && (stop_requests env k =? 0)%nat.

(** The log of a tick that starts alive at point [k] and calls [executeTask]
    for [t], whatever the environment does meanwhile. *)
Definition tick_log (env : Environment) (a : AutonomousAgent) (k : nat)
    (t : string) : list Event :=
  let a0 := survives env k true in
  let a1 := survives env (S k) a0 in
  let o := execution_answer env (modelSettings a) (goal a) (S k) t in
  stopped_log true (stop_requests env k)
  ++ (if a0 then [Rendered thinkingMessage] else [])
  ++ [execution_event (modelSettings a) (goal a) t]
  ++ stopped_log a0 (stop_requests env (S k))
  ++ failure_events a a1 o
  ++ match o with
     | Returned r =>
         (if a1 then [Rendered (executionMessage t r)] else [])
         ++ stopped_log a1 (stop_requests env (S (S k)))
     | Thrown _ => []
     end.

(** The object after a tick that started in [a] for the task [t] of the queue
    [t :: rest]: [reported] tells whether the execution returned, [alive]
    is the flag at the end. *)
Definition tick_self (a : AutonomousAgent) (t : string) (rest : list string)
    (reported alive : bool) : AutonomousAgent :=
  {| name := name a; goal := goal a; tasks := rest;
     completedTasks := completedTasks a ++ [t];
     runningTasks := if reported then runningTasks a ++ [t] else runningTasks a;
     modelSettings := modelSettings a; isRunning := alive;
     numLoops := (numLoops a + 1)%Z; session := session a; _id := _id a |}.

(** ** The announcements, in every environment *)

(** The log of the announcements of [ts], from point [k] on, when the object
    is [alive] at the start. *)
Fixpoint announce_log (env : Environment) (k : nat) (alive : bool)
    (ts : list string) : list Event :=
  match ts with
  | [] => []
  | t :: rest =>
      stopped_log alive (stop_requests env k)
      ++ (if survives env k alive then [Rendered (taskMessage t)] else [])
      ++ announce_log env (S k) (survives env k alive) rest
  end.

(** The flag after [n] suspensions from point [k] on. *)
Fixpoint survives_all (env : Environment) (k : nat) (alive : bool) (n : nat)
    : bool :=
  match n with
  | O => alive
  | S n' => survives_all env (S k) (survives env k alive) n'
  end.

(** The world in which [run] enters [loop]. *)
Definition entry_world (env : Environment) (ts : list string) (w : World)
    : World :=
  snd (run_try env ts (sendThinkingMessage (sendGoalMessage w))).

(** The number of calls of [stopAgent] that arrive before point [n]. *)
Fixpoint stops_before (env : Environment) (n : nat) : nat :=
  match n with
  | O => 0
  | S m => stops_before env m + stop_requests env m
  end.

(** ** What a log tells *)

(** The task an execution is started for. *)
Definition executed_task (e : Event) : list string :=
  match e with
  | ExecuteTaskAgentCalled _ _ t => [t]
  | AxiosPosted _ d => [rb_task d]
  | _ => []
  end.

Definition executed_tasks (l : list Event) : list string :=
  flat_map executed_task l.

(** The [info] of the action message of a task. *)
Definition label (t : string) : option string :=
  Some ("Executing " ++ quote ++ t ++ quote).

Definition is_task (m : Message) : bool :=
  match type m with task_t => true | _ => false end.

(** ** The page ([pages/index]) as the sink *)




(** ** The notices of a run *)

(** The texts of the system messages the methods of a run send. *)
Definition notices (settings : ModelSettings) : list string :=
  [COMPLETED_TEXT; loopMessageText settings; MANUAL_SHUTDOWN_TEXT;
   RATE_LIMIT_TEXT].

Definition is_notice (settings : ModelSettings) (m : Message) : Prop :=
  In (value m) (notices settings).

(** The shutdown hook is called by the run itself, and not only by
    [stopAgent], when the run ends on the completion, on the cap, or on a
    failure of the remote call. *)
Definition own_shutdown (out : Outcome unit) (w : World) : nat :=
  match out with
  | Returned _ => if isRunning (self w) then 1 else 0
  | Thrown _ => if shouldRunClientSide (self w) then 0 else 1
  end.

Definition only_notices (settings : ModelSettings) (l : list Event) : Prop :=
  Forall (is_notice settings) (system_messages l).


(** Every request fails with [e], and [n] calls of [stopAgent] arrive at
    point [k]. *)
Definition harsh_env (e : JsError) (k n : nat) : Environment :=
  {| executeTaskAgent := fun _ _ _ _ => Thrown e;
     axios_post := fun _ _ _ => Thrown e;
     stop_requests := fun j => if (j =? k)%nat then n else 0 |}.

(** ** A sink that may throw *)

(** [renderMessage] is a callback of the caller, and may throw.  The methods
    above are those of an object whose sink does not; [Sink] gives, for a sink
    that may, the methods [run] goes through before it enters [loop]
    ([sendMessage], the [try] block and its handler), and [stopAgent], which
    the environment calls meanwhile.  The sink is a function of what the
    object has done so far and of the message; [Some e] is a throw of [e]. *)
Module Sink.

Section WithSink.

Variable env : Environment.
Variable renderMessage : list Event -> Message -> option JsError.

(** [sendMessage]: the call of the sink is logged, then its throw, if any,
    leaves the method. *)
Definition sendMessage (m : Message) (w : World) : Outcome unit * World :=
  if isRunning (self w) then
    match renderMessage (log w) m with
    | Some e => (Thrown e, emit (Rendered m) w)
    | None => (Returned tt, emit (Rendered m) w)
    end
  else (Returned tt, w).

(** [stopAgent]: a throw of the sink on the notice leaves the method before
    the flag is cleared and the hook called; it goes to the caller of
    [stopAgent], not to [run]. *)
Definition stopAgent (w : World) : World :=
  match sendMessage (systemMessage MANUAL_SHUTDOWN_TEXT) w with
  | (Thrown _, w) => w
  | (Returned _, w) => shutdown (with_self (set_isRunning false) w)
  end.

(** An [await]. *)
Definition suspend (w : World) : World :=
  tick_clock (Nat.iter (stop_requests env (now w)) stopAgent w).

(** The [for] loop of the [try] block: the first throw ends it. *)
Fixpoint announce (ts : list string) (w : World) : Outcome unit * World :=
  match ts with
  | [] => (Returned tt, w)
  | task :: rest =>
      let w := suspend w in
      match sendMessage (taskMessage task) w with
      | (Thrown e, w) => (Thrown e, w)
      | (Returned _, w) => announce rest w
      end
  end.

(** The [try] block of [run], for the task list [decomposed]. *)
Definition run_try (decomposed : list string) (w : World)
    : Outcome unit * World :=
  let w := with_self (set_tasks decomposed) w in
  announce (tasks (self w)) w.

(** How [run] gets to [await this.loop()], or does not: a throw of the sink
    outside the [try] block, or in its handler, leaves [run]; the handler
    returns without the loop. *)
Inductive Phase : Type :=
| Rejected (e : JsError) (w : World)
| Handled (w : World)
| EntersLoop (w : World).

(** [run], up to the call of [loop]. *)
Definition run_until_loop (decomposed : list string) (w : World) : Phase :=
  match sendMessage (goalMessage (goal (self w))) w with
  | (Thrown e, w) => Rejected e w
  | (Returned _, w) =>
      match sendMessage thinkingMessage w with
      | (Thrown e, w) => Rejected e w
      | (Returned _, w) =>
          match run_try decomposed w with
          | (Thrown e, w) =>
              match sendMessage (systemMessage (getMessageFromError e)) w with
              | (Thrown e', w) => Rejected e' w
              | (Returned _, w) => Handled (shutdown w)
              end
          | (Returned _, w) => EntersLoop w
          end
      end
  end.

End WithSink.

Definition is_handled (p : Phase) : bool :=
  match p with Handled _ => true | _ => false end.

Definition world_of (p : Phase) : World :=
  match p with Rejected _ w | Handled w | EntersLoop w => w end.

End Sink.

(** A sink that does not throw. *)
Definition quiet_sink (renderMessage : list Event -> Message -> option JsError)
    : Prop :=
  forall (h : list Event) (m : Message), renderMessage h m = None.

(** Sample sinks: one that never throws, one that throws on the announcement
    of the task "Concept". *)
Definition patient_sink : list Event -> Message -> option JsError :=
  fun _ _ => None.

Definition picky_sink : list Event -> Message -> option JsError :=
  fun _ m =>
    if is_task m && String.eqb (value m) "Concept"
    then Some (OtherError "the sink threw") else None.

(** * Properties *)

(** ** The guard of [sendMessage] and the effect of [stopAgent] *)

Lemma sendMessage_alive (m : Message) (w : World) :
  isRunning (self w) = true -> sendMessage m w = emit (Rendered m) w.
Proof. intros H. unfold sendMessage. now rewrite H. Qed.

Lemma sendMessage_dead (m : Message) (w : World) :
  isRunning (self w) = false -> sendMessage m w = w.
Proof. intros H. unfold sendMessage. now rewrite H. Qed.

Lemma stopAgent_eq (w : World) :
  stopAgent w =
  {| self := set_isRunning false (self w);
     log := log w ++ stopped_log (isRunning (self w)) 1;
     now := now w |}.
Proof.
  destruct w as [a l k].
  unfold stopAgent, sendManualShutdownMessage, sendMessage, shutdown, with_self, emit.
  cbn [self log now]. destruct (isRunning a) eqn:E; cbn [self log now stopped_log];
    cbn; now rewrite <- ?app_assoc.
Qed.

Lemma repeat_snoc {A : Type} (x : A) (n : nat) :
  (repeat x n ++ [x])%list = x :: repeat x n.
Proof. induction n as [|n IH]; cbn; [reflexivity | now rewrite IH]. Qed.

Lemma iter_stopAgent (n : nat) (w : World) :
  Nat.iter n stopAgent w =
  {| self := stopped_self n (self w);
     log := log w ++ stopped_log (isRunning (self w)) n;
     now := now w |}.
Proof.
  induction n as [|n IH].
  - destruct w; cbn. now rewrite app_nil_r.
  - change (Nat.iter (S n) stopAgent w) with (stopAgent (Nat.iter n stopAgent w)).
    rewrite IH, stopAgent_eq. cbn [self log now].
    destruct n as [|n].
    + cbn. now rewrite app_nil_r.
    + cbn [stopped_self set_isRunning isRunning]. f_equal.
      rewrite <- app_assoc. f_equal.
      unfold stopped_log. rewrite <- app_assoc. f_equal.
      change ([] ++ repeat (ShutdownCalled false) 1)%list with [ShutdownCalled false].
      now rewrite repeat_snoc.
Qed.

Section Facts.

Variable consts : Constants.
Variable env : Environment.

Lemma suspend_eq (w : World) :
  suspend env w =
  {| self := stopped_self (stop_requests env (now w)) (self w);
     log := log w ++ stopped_log (isRunning (self w))
                                 (stop_requests env (now w));
     now := S (now w) |}.
Proof. unfold suspend. now rewrite iter_stopAgent. Qed.

Lemma suspend_quiet (w : World) :
  stop_requests env (now w) = 0 -> suspend env w = tick_clock w.
Proof.
  intros H. rewrite suspend_eq, H. destruct w; cbn. now rewrite app_nil_r.
Qed.

(** *** One tick, and a run nobody interferes with *)

Lemma execution_answer_returns (settings : ModelSettings) (g : string)
    (k : nat) (t : string) :
  never_fails env ->
  exists r, execution_answer env settings g k t = Returned r.
Proof.
  intros [Hl Hr]. unfold execution_answer.
  destruct (truthy_string (customApiKey settings)); [apply Hl|].
  destruct (Hr k EXECUTE_URL
              {| rb_modelSettings := settings; rb_goal := g; rb_task := t |})
    as [res ->].
  eexists; reflexivity.
Qed.

(** [executeTask] when no call of [stopAgent] arrives during the call and
    the capability answers. *)
Lemma executeTask_quiet (t : string) (w : World) (r : string) :
  stop_requests env (now w) = 0 ->
  execution_answer env (modelSettings (self w)) (goal (self w)) (now w) t
    = Returned r ->
  executeTask env t w =
  (Returned r,
   tick_clock (emit (execution_event (modelSettings (self w)) (goal (self w)) t) w)).
Proof.
  intros Hq Ha. unfold executeTask, execution_answer, execution_event,
    shouldRunClientSide, post in *.
  destruct (truthy_string (customApiKey (modelSettings (self w)))).
  - rewrite Ha. now rewrite suspend_quiet.
  - cbn [emit now].
    destruct (axios_post env (now w) _ _) as [res|e]; [|discriminate].
    injection Ha as <-. now rewrite suspend_quiet.
Qed.

Lemma string_or_empty (s : string) : string_or (Some s) EmptyString = s.
Proof. now destruct s. Qed.

Ltac fields :=
  cbn [self log now name goal tasks completedTasks runningTasks modelSettings
       isRunning numLoops session _id].

(** The loop, from a live object with [budget] iterations left under the
    cap, when nobody calls [stopAgent] any more and the capability answers:
    it executes the first [budget] tasks of the queue, in order, and stops
    with the completion notice or the notice of the cap. *)
Lemma loop_undisturbed (ts : list string) :
  forall (budget fuel : nat) (w : World),
    isRunning (self w) = true ->
    tasks (self w) = ts ->
    undisturbed_from env (now w) ->
    never_fails env ->
    (maxLoops consts (self w) - numLoops (self w) = Z.of_nat budget)%Z ->
    List.length ts < fuel ->
    exists w',
      loop consts env fuel w = Some (Returned tt, w') /\
      log w' = (log w ++ loop_events env (modelSettings (self w))
                           (goal (self w)) (now w) budget ts)%list /\
      completedTasks (self w') =
        (completedTasks (self w) ++ firstn budget ts)%list /\
      runningTasks (self w') =
        (runningTasks (self w) ++ firstn budget ts)%list /\
      tasks (self w') = skipn budget ts /\
      isRunning (self w') = true.
Proof.
  induction ts as [|t rest IH]; intros budget fuel w Hrun Hts Hq Hnf Hcap Hfuel.
  - destruct fuel as [|fuel]; [inversion Hfuel|].
    cbn [loop]. rewrite Hrun, Hts. cbn [negb List.length Nat.eqb].
    eexists; split; [reflexivity|].
    unfold shutdown, sendCompletedMessage. rewrite sendMessage_alive by exact Hrun.
    cbn [emit self log now loop_events]. rewrite Hrun, <- app_assoc.
    rewrite firstn_nil, skipn_nil, !app_nil_r. auto.
  - destruct fuel as [|fuel]; [inversion Hfuel|].
    destruct w as [[nm g ts0 cts rts ms running n ss id] l k].
    cbn [self isRunning tasks now goal modelSettings completedTasks runningTasks
         numLoops log] in *. subst ts0 running.
    set (cap := maxLoops consts _) in Hcap.
    cbn [loop self isRunning negb tasks List.length Nat.eqb].
    unfold with_self, set_numLoops; fields.
    change (maxLoops consts _) with cap.
    destruct budget as [|budget].
    + assert (Hgt : (n + 1 >? cap)%Z = true) by (apply Z.gtb_lt; lia).
      rewrite Hgt. eexists; split; [reflexivity|].
      unfold shutdown, sendLoopMessage. rewrite sendMessage_alive by reflexivity.
      unfold emit; fields. cbn [loop_events firstn skipn].
      rewrite <- app_assoc, !app_nil_r. auto.
    + assert (Hgt : (n + 1 >? cap)%Z = false) by (rewrite Z.gtb_ltb; apply Z.ltb_ge; lia).
      rewrite Hgt.
      rewrite suspend_quiet by (apply Hq; fields; lia).
      unfold dispatch, tick_clock, with_self, set_completedTasks, first_task; fields.
      rewrite string_or_empty.
      unfold shift, with_self, set_tasks; fields.
      unfold sendThinkingMessage. rewrite sendMessage_alive by reflexivity.
      unfold emit; fields. cbn [as_string].
      destruct (execution_answer_returns ms g (S k) t Hnf) as [r Hr].
      rewrite (executeTask_quiet t _ r) by (fields; auto; apply Hq; lia).
      unfold report, sendExecutionMessage. cbn [as_string].
      unfold emit at 1, tick_clock at 1; fields.
      rewrite sendMessage_alive by reflexivity.
      unfold emit, with_self, set_runningTasks; fields.
      rewrite suspend_quiet by (apply Hq; fields; lia).
      unfold tick_clock; fields.
      match goal with
      | |- exists w', loop _ _ _ ?w1 = _ /\ _ =>
          destruct (IH budget fuel w1) as (w' & Hl & Hlog & Hc & Hr' & Ht & Hi)
      end; fields; auto.
      { intros j Hj. apply Hq. lia. }
      { change (maxLoops consts _) with cap. lia. }
      { cbn [List.length] in Hfuel. lia. }
      exists w'. split; [exact Hl|].
      fields. rewrite Hlog, Hc, Hr', Ht, Hi. fields.
      cbn [loop_events firstn skipn]. unfold tick_events. rewrite Hr. cbn [text_of].
      rewrite <- !app_assoc. cbn [app]. auto.
Qed.

(** The announcements of the [try] block of [run], undisturbed. *)
Lemma announce_undisturbed (ts : list string) :
  forall w : World,
    isRunning (self w) = true ->
    undisturbed_from env (now w) ->
    fold_left (fun w task => sendTaskMessage task (suspend env w)) ts w =
    {| self := self w;
       log := log w ++ map (fun t => Rendered (taskMessage t)) ts;
       now := List.length ts + now w |}.
Proof.
  induction ts as [|t rest IH]; intros w Hrun Hq.
  - destruct w; cbn. now rewrite app_nil_r.
  - cbn [fold_left]. rewrite suspend_quiet by (apply Hq; lia).
    unfold sendTaskMessage. rewrite sendMessage_alive by exact Hrun.
    rewrite IH.
    + unfold emit, tick_clock; fields. cbn [map List.length].
      rewrite <- app_assoc. cbn [app]. f_equal. lia.
    + exact Hrun.
    + intros j Hj. apply Hq. cbn in Hj. lia.
Qed.

Lemma run_try_undisturbed (ts : list string) (w : World) :
  isRunning (self w) = true ->
  undisturbed_from env (now w) ->
  run_try env ts w =
  (Returned tt,
   {| self := set_tasks ts (self w);
      log := log w ++ map (fun t => Rendered (taskMessage t)) ts;
      now := List.length ts + now w |}).
Proof.
  intros Hrun Hq. unfold run_try. f_equal.
  unfold with_self; fields. cbn [set_tasks tasks].
  now rewrite announce_undisturbed.
Qed.

(** *** Reading logs *)

Lemma rendered_app (l1 l2 : list Event) :
  rendered (l1 ++ l2) = (rendered l1 ++ rendered l2)%list.
Proof. unfold rendered. apply flat_map_app. Qed.

Lemma actions_app (l1 l2 : list Event) :
  actions (l1 ++ l2) = (actions l1 ++ actions l2)%list.
Proof. unfold actions. now rewrite rendered_app, filter_app. Qed.

Lemma rendered_tasks (ts : list string) :
  rendered (map (fun t => Rendered (taskMessage t)) ts) = map taskMessage ts.
Proof. induction ts as [|t r IH]; cbn; [reflexivity | now rewrite <- IH]. Qed.

Lemma actions_tasks (ts : list string) :
  actions (map (fun t => Rendered (taskMessage t)) ts) = [].
Proof.
  unfold actions. rewrite rendered_tasks.
  induction ts as [|t r IH]; cbn; [reflexivity | exact IH].
Qed.

Lemma actions_execution_event (settings : ModelSettings) (g t : string) :
  actions [execution_event settings g t] = [].
Proof. unfold execution_event. now destruct (truthy_string _). Qed.

(** The action messages of the ticks are those of the tasks under the cap. *)
Lemma actions_loop_events (settings : ModelSettings) (g : string)
    (ts : list string) :
  forall k budget : nat,
    actions (loop_events env settings g k budget ts) =
    expected_actions env settings g k (firstn budget ts).
Proof.
  induction ts as [|t rest IH]; intros k budget.
  - now rewrite firstn_nil.
  - destruct budget as [|budget]; [reflexivity|].
    cbn [loop_events firstn expected_actions]. unfold tick_events.
    change [Rendered thinkingMessage; execution_event settings g t;
            Rendered (executionMessage t
               (text_of (execution_answer env settings g (S k) t)))]
      with ([Rendered thinkingMessage] ++ [execution_event settings g t] ++
            [Rendered (executionMessage t
               (text_of (execution_answer env settings g (S k) t)))])%list.
    rewrite !actions_app, actions_execution_event, IH. reflexivity.
Qed.

Lemma expected_actions_info (settings : ModelSettings) (g : string)
    (ts : list string) :
  forall k : nat,
    map info (expected_actions env settings g k ts) =
    map (fun t => Some ("Executing " ++ quote ++ t ++ quote)) ts.
Proof.
  induction ts as [|t rest IH]; intros k; [reflexivity|].
  cbn [expected_actions map]. now rewrite IH.
Qed.

Lemma expected_actions_length (settings : ModelSettings) (g : string)
    (ts : list string) :
  forall k : nat,
    List.length (expected_actions env settings g k ts) = List.length ts.
Proof.
  induction ts as [|t rest IH]; intros k; [reflexivity|].
  cbn [expected_actions List.length]. now rewrite IH.
Qed.

(** How the ticks end: with the completion notice when the cap allows the
    whole queue, with the notice of the cap otherwise; in both cases the
    shutdown hook is called last. *)
Lemma loop_events_end (settings : ModelSettings) (g : string)
    (ts : list string) :
  forall k budget : nat,
    exists body,
      loop_events env settings g k budget ts =
      (body ++
       [Rendered (systemMessage
                    (if (List.length ts <=? budget)%nat then COMPLETED_TEXT
                     else loopMessageText settings));
        ShutdownCalled true])%list /\
      actions body = expected_actions env settings g k (firstn budget ts).
Proof.
  induction ts as [|t rest IH]; intros k budget.
  - exists []. rewrite firstn_nil. split; reflexivity.
  - destruct budget as [|budget].
    + exists []. split; reflexivity.
    + destruct (IH (3 + k) budget) as (body & Hb & Ha).
      exists (tick_events env settings g k t ++ body)%list.
      cbn [loop_events List.length Nat.leb firstn expected_actions].
      rewrite Hb, <- app_assoc. split; [reflexivity|].
      rewrite actions_app, Ha. unfold tick_events.
      change [Rendered thinkingMessage; execution_event settings g t;
              Rendered (executionMessage t
                 (text_of (execution_answer env settings g (S k) t)))]
        with ([Rendered thinkingMessage] ++ [execution_event settings g t] ++
              [Rendered (executionMessage t
                 (text_of (execution_answer env settings g (S k) t)))])%list.
      rewrite !actions_app, actions_execution_event. reflexivity.
Qed.

Lemma count_shutdown_app (l1 l2 : list Event) :
  count_shutdown (l1 ++ l2) = count_shutdown l1 + count_shutdown l2.
Proof. unfold count_shutdown. now rewrite filter_app, length_app. Qed.

Lemma count_shutdown_tasks (ts : list string) :
  count_shutdown (map (fun t => Rendered (taskMessage t)) ts) = 0.
Proof. induction ts as [|t r IH]; [reflexivity | exact IH]. Qed.

Lemma count_shutdown_loop_events (settings : ModelSettings) (g : string)
    (ts : list string) :
  forall k budget : nat,
    count_shutdown (loop_events env settings g k budget ts) = 1.
Proof.
  induction ts as [|t rest IH]; intros k budget; [reflexivity|].
  destruct budget as [|budget]; [reflexivity|].
  cbn [loop_events]. rewrite count_shutdown_app, IH.
  unfold tick_events, execution_event.
  now destruct (truthy_string (customApiKey settings)).
Qed.

(** ** The run, from construction *)

(** What [run_from] does when nobody calls [stopAgent] and the capability
    answers: the announcements, then the ticks the cap allows. *)
Lemma run_from_undisturbed (ts : list string) (nm g : string)
    (settings : ModelSettings) (ss : option Session) (id : string)
    (fuel : nat) :
  undisturbed_from env 0 ->
  never_fails env ->
  (0 <= maxLoops consts (new_agent nm g settings ss id))%Z ->
  List.length ts < fuel ->
  let budget := Z.to_nat (maxLoops consts (new_agent nm g settings ss id)) in
  exists w',
    run_from consts env ts fuel (new_world (new_agent nm g settings ss id))
      = Some (Returned tt, w') /\
    log w' =
      ([Rendered (goalMessage g); Rendered thinkingMessage]
       ++ map (fun t => Rendered (taskMessage t)) ts
       ++ loop_events env settings g (List.length ts) budget ts)%list /\
    completedTasks (self w') = firstn budget ts /\
    runningTasks (self w') = firstn budget ts /\
    tasks (self w') = skipn budget ts /\
    isRunning (self w') = true.
Proof.
  intros Hq Hnf Hcap Hfuel budget.
  set (cap := maxLoops consts (new_agent nm g settings ss id)) in *.
  unfold run_from, sendGoalMessage, sendThinkingMessage, new_world, new_agent.
  rewrite !sendMessage_alive by reflexivity.
  unfold emit; fields. cbn [app].
  rewrite run_try_undisturbed by (fields; auto).
  unfold set_tasks; fields.
  match goal with
  | |- exists w', loop _ _ _ ?w1 = _ /\ _ =>
      destruct (loop_undisturbed ts budget fuel w1)
        as (w' & Hl & Hlog & Hc & Hr & Ht & Hi)
  end; fields; auto.
  { intros j _. apply Hq. lia. }
  { change (maxLoops consts _) with cap. unfold budget. lia. }
  cbn [self log now name goal tasks completedTasks runningTasks modelSettings
       isRunning numLoops session _id app] in Hlog, Hc, Hr, Ht.
  rewrite Nat.add_0_r in Hlog.
  exists w'. split; [exact Hl|].
  rewrite Hlog, Hc, Hr, Ht, Hi. cbn [app]. auto.
Qed.

Lemma actions_prelude (g : string) (ts : list string) (l : list Event) :
  actions ([Rendered (goalMessage g); Rendered thinkingMessage]
           ++ map (fun t => Rendered (taskMessage t)) ts ++ l) = actions l.
Proof.
  rewrite !actions_app, actions_tasks. reflexivity.
Qed.

Lemma actions_notice (text : string) (b : bool) :
  actions [Rendered (systemMessage text); ShutdownCalled b] = [].
Proof. reflexivity. Qed.

(** C1.  When the cap is at least the number [N] of tasks, the capability
    answers every call and nobody calls [stopAgent], [run] returns; the
    sink has then received exactly [N] action messages, one per task and in
    the order of the task list, each with the text the capability returned
    for that task; the last two things the object did are to send the
    completion notice and to call the shutdown hook, which it called once.
    [run] is [run_from INITIAL_TASKS]. *)
Theorem run_completes_all_tasks (ts : list string) (nm g : string)
    (settings : ModelSettings) (ss : option Session) (id : string)
    (fuel : nat) :
  ts <> [] ->
  undisturbed_from env 0 ->
  never_fails env ->
  (Z.of_nat (List.length ts) <= maxLoops consts (new_agent nm g settings ss id))%Z ->
  List.length ts < fuel ->
  exists w' body,
    run_from consts env ts fuel (new_world (new_agent nm g settings ss id))
      = Some (Returned tt, w') /\
    log w' = (body ++ [Rendered (systemMessage COMPLETED_TEXT);
                       ShutdownCalled true])%list /\
    actions body = actions (log w') /\
    actions (log w') = expected_actions env settings g (List.length ts) ts /\
    List.length (actions (log w')) = List.length ts /\
    map info (actions (log w')) =
      map (fun t => Some ("Executing " ++ quote ++ t ++ quote)) ts /\
    count_shutdown (log w') = 1 /\
    tasks (self w') = [] /\
    completedTasks (self w') = ts.
Proof.
  intros _ Hq Hnf Hcap Hfuel.
  destruct (run_from_undisturbed ts nm g settings ss id fuel Hq Hnf)
    as (w' & Hrun & Hlog & Hc & _ & Ht & _); [lia | exact Hfuel |].
  set (budget := Z.to_nat (maxLoops consts (new_agent nm g settings ss id))) in *.
  assert (Hb : List.length ts <= budget) by (unfold budget; lia).
  destruct (loop_events_end settings g ts (List.length ts) budget)
    as (body & Hev & Hact).
  apply Nat.leb_le in Hb as Hb'. rewrite Hb' in Hev.
  rewrite firstn_all2 in Hact, Hc by exact Hb.
  rewrite skipn_all2 in Ht by exact Hb.
  assert (Ha : actions (log w') =
               expected_actions env settings g (List.length ts) ts).
  { rewrite Hlog, actions_prelude, Hev, actions_app, actions_notice, app_nil_r.
    exact Hact. }
  exists w',
    ([Rendered (goalMessage g); Rendered thinkingMessage]
     ++ map (fun t => Rendered (taskMessage t)) ts ++ body)%list.
  split; [exact Hrun|]. split.
  { rewrite Hlog, Hev. now rewrite <- !app_assoc. }
  split; [now rewrite actions_prelude, Hact, Ha|].
  split; [exact Ha|].
  split; [now rewrite Ha, expected_actions_length|].
  split; [now rewrite Ha, expected_actions_info|].
  split; [|split; assumption].
  rewrite Hlog.
  change ([Rendered (goalMessage g); Rendered thinkingMessage] ++
          map (fun t => Rendered (taskMessage t)) ts ++
          loop_events env settings g (List.length ts) budget ts)%list
    with ([Rendered (goalMessage g); Rendered thinkingMessage] ++
          (map (fun t => Rendered (taskMessage t)) ts ++
          loop_events env settings g (List.length ts) budget ts))%list.
  now rewrite !count_shutdown_app, count_shutdown_tasks, count_shutdown_loop_events.
Qed.

(** C2.  When the cap [C] is smaller than the number of tasks (and is a
    count, that is, not negative), the capability answers every call and
    nobody calls [stopAgent], [run] returns; the sink has then received
    exactly [C] action messages, those of the first [C] tasks in order; the
    last two things the object did are to send the notice of the cap and to
    call the shutdown hook; and [completedTasks] holds exactly the first [C]
    tasks. *)
Theorem run_stops_at_cap (ts : list string) (nm g : string)
    (settings : ModelSettings) (ss : option Session) (id : string)
    (fuel : nat) (C : Z) :
  maxLoops consts (new_agent nm g settings ss id) = C ->
  undisturbed_from env 0 ->
  never_fails env ->
  (0 <= C < Z.of_nat (List.length ts))%Z ->
  List.length ts < fuel ->
  exists w' body,
    run_from consts env ts fuel (new_world (new_agent nm g settings ss id))
      = Some (Returned tt, w') /\
    log w' = (body ++ [Rendered (systemMessage (loopMessageText settings));
                       ShutdownCalled true])%list /\
    actions body = actions (log w') /\
    actions (log w') =
      expected_actions env settings g (List.length ts) (firstn (Z.to_nat C) ts) /\
    Z.of_nat (List.length (actions (log w'))) = C /\
    count_shutdown (log w') = 1 /\
    completedTasks (self w') = firstn (Z.to_nat C) ts /\
    Z.of_nat (List.length (completedTasks (self w'))) = C.
Proof.
  intros HC Hq Hnf Hcap Hfuel. subst C.
  set (C := maxLoops consts (new_agent nm g settings ss id)) in *.
  destruct (run_from_undisturbed ts nm g settings ss id fuel Hq Hnf)
    as (w' & Hrun & Hlog & Hc & _ & Ht & _); [fold C; lia | exact Hfuel |].
  fold C in Hlog, Hc, Ht.
  set (budget := Z.to_nat C) in *.
  assert (Hb : budget < List.length ts) by (unfold budget; lia).
  destruct (loop_events_end settings g ts (List.length ts) budget)
    as (body & Hev & Hact).
  assert (Hb' : (List.length ts <=? budget)%nat = false)
    by (apply Nat.leb_gt; exact Hb).
  rewrite Hb' in Hev.
  assert (Ha : actions (log w') =
               expected_actions env settings g (List.length ts) (firstn budget ts)).
  { rewrite Hlog, actions_prelude, Hev, actions_app, actions_notice, app_nil_r.
    exact Hact. }
  assert (Hlen : Z.of_nat (List.length (firstn budget ts)) = C).
  { rewrite length_firstn, Nat.min_l by lia. unfold budget. lia. }
  exists w',
    ([Rendered (goalMessage g); Rendered thinkingMessage]
     ++ map (fun t => Rendered (taskMessage t)) ts ++ body)%list.
  split; [exact Hrun|]. split.
  { rewrite Hlog, Hev. now rewrite <- !app_assoc. }
  split; [now rewrite actions_prelude, Hact, Ha|].
  split; [exact Ha|].
  split; [now rewrite Ha, expected_actions_length|].
  split; [|split; [exact Hc | now rewrite Hc]].
  rewrite Hlog.
  change ([Rendered (goalMessage g); Rendered thinkingMessage] ++
          map (fun t => Rendered (taskMessage t)) ts ++
          loop_events env settings g (List.length ts) budget ts)%list
    with ([Rendered (goalMessage g); Rendered thinkingMessage] ++
          (map (fun t => Rendered (taskMessage t)) ts ++
          loop_events env settings g (List.length ts) budget ts))%list.
  now rewrite !count_shutdown_app, count_shutdown_tasks, count_shutdown_loop_events.
Qed.

(** ** After [stopAgent] *)

Lemma has_stop_mark_app (l1 l2 : list Event) :
  has_stop_mark (l1 ++ l2) = has_stop_mark l1 || has_stop_mark l2.
Proof. apply existsb_app. Qed.

Lemma after_stop_unmarked (l : list Event) :
  has_stop_mark l = false -> after_stop l = [].
Proof.
  induction l as [|e l IH]; [reflexivity|].
  cbn. destruct (is_stop_mark e); [discriminate | exact IH].
Qed.

Lemma after_stop_app_unmarked (l1 l2 : list Event) :
  has_stop_mark l1 = false -> after_stop (l1 ++ l2) = after_stop l2.
Proof.
  induction l1 as [|e l IH]; [reflexivity|].
  cbn. destruct (is_stop_mark e); [discriminate | exact IH].
Qed.

Lemma after_stop_app_marked (l1 l2 : list Event) :
  has_stop_mark l1 = true ->
  after_stop (l1 ++ l2) = (after_stop l1 ++ l2)%list.
Proof.
  induction l1 as [|e l IH]; [discriminate|].
  cbn. destruct (is_stop_mark e); [reflexivity | exact IH].
Qed.

Lemma executions_app (l1 l2 : list Event) :
  executions (l1 ++ l2) = (executions l1 ++ executions l2)%list.
Proof. apply filter_app. Qed.

Lemma advances_refl (w : World) : advances 0 w w.
Proof.
  exists []. rewrite app_nil_r. split; [reflexivity|]. split; intros H.
  - now rewrite H.
  - auto.
Qed.

Lemma advances_mono (e e' : nat) (w w' : World) :
  e <= e' -> advances e w w' -> advances e' w w'.
Proof.
  intros Hle (ext & Hlog & Ha & Hd). exists ext. split; [exact Hlog|]. split.
  - intros H. specialize (Ha H). destruct (isRunning (self w')); [exact Ha|].
    destruct Ha as (? & ? & ?). repeat split; auto. lia.
  - intros H. destruct (Hd H) as (? & ? & ?). repeat split; auto. lia.
Qed.

(** Steps compose, and the executions after the stop add up. *)
Lemma advances_trans (e1 e2 : nat) (w w1 w2 : World) :
  advances e1 w w1 -> advances e2 w1 w2 -> advances (e1 + e2) w w2.
Proof.
  intros (x1 & Hl1 & Ha1 & Hd1) (x2 & Hl2 & Ha2 & Hd2).
  exists (x1 ++ x2)%list. split; [now rewrite Hl2, Hl1, app_assoc|]. split.
  - intros H. specialize (Ha1 H).
    destruct (isRunning (self w1)) eqn:E1.
    + specialize (Ha2 eq_refl).
      destruct (isRunning (self w2)).
      * now rewrite has_stop_mark_app, Ha1, Ha2.
      * destruct Ha2 as (Hm & Hr & He).
        rewrite has_stop_mark_app, Ha1, Hm, after_stop_app_unmarked by exact Ha1.
        repeat split; auto. lia.
    + destruct Ha1 as (Hm & Hr & He).
      destruct (Hd2 eq_refl) as (E2 & Hr2 & He2). rewrite E2.
      rewrite has_stop_mark_app, Hm, after_stop_app_marked by exact Hm.
      rewrite rendered_app, Hr, Hr2, executions_app, length_app.
      repeat split; auto. lia.
  - intros H. destruct (Hd1 H) as (E1 & Hr1 & He1).
    destruct (Hd2 E1) as (E2 & Hr2 & He2).
    rewrite rendered_app, Hr1, Hr2, executions_app, length_app.
    repeat split; auto. lia.
Qed.

(** What was done before a point at which the object is alive does not
    count. *)
Lemma advances_trans_alive (e1 e2 : nat) (w w1 w2 : World) :
  isRunning (self w) = true ->
  isRunning (self w1) = true ->
  advances e1 w w1 -> advances e2 w1 w2 -> advances e2 w w2.
Proof.
  intros H H1 (x1 & Hl1 & Ha1 & _) (x2 & Hl2 & Ha2 & _).
  exists (x1 ++ x2)%list. split; [now rewrite Hl2, Hl1, app_assoc|]. split.
  - intros _. specialize (Ha1 H). rewrite H1 in Ha1. specialize (Ha2 H1).
    destruct (isRunning (self w2)).
    + now rewrite has_stop_mark_app, Ha1, Ha2.
    + destruct Ha2 as (Hm & Hr & He).
      rewrite has_stop_mark_app, Ha1, Hm, after_stop_app_unmarked by exact Ha1.
      auto.
  - intros H'. congruence.
Qed.

(** A step that leaves the log and the flag alone. *)
Lemma advances_fields (w w' : World) :
  log w' = log w -> isRunning (self w') = isRunning (self w) ->
  advances 0 w w'.
Proof.
  intros Hl Hr. exists []. rewrite app_nil_r. split; [exact Hl|]. split; intros H.
  - now rewrite Hr, H.
  - rewrite Hr. auto.
Qed.

Lemma advances_sendMessage (m : Message) (w : World) :
  advances 0 w (sendMessage m w).
Proof.
  destruct (isRunning (self w)) eqn:E.
  - rewrite sendMessage_alive by exact E. exists [Rendered m].
    split; [reflexivity|]. split; intros H; [|congruence].
    cbn [emit self]. now rewrite E.
  - rewrite sendMessage_dead by exact E. apply advances_refl.
Qed.

Lemma advances_shutdown (w : World) : advances 0 w (shutdown w).
Proof.
  exists [ShutdownCalled (isRunning (self w))]. split; [reflexivity|].
  unfold shutdown. cbn [emit self]. split; intros H; rewrite H; cbn; auto.
Qed.

Lemma rendered_repeat_shutdown (b : bool) (n : nat) :
  rendered (repeat (ShutdownCalled b) n) = [].
Proof. induction n as [|n IH]; [reflexivity | exact IH]. Qed.

Lemma executions_repeat_shutdown (b : bool) (n : nat) :
  executions (repeat (ShutdownCalled b) n) = [].
Proof. induction n as [|n IH]; [reflexivity | exact IH]. Qed.

Lemma advances_suspend (w : World) : advances 0 w (suspend env w).
Proof.
  rewrite suspend_eq.
  exists (stopped_log (isRunning (self w)) (stop_requests env (now w))).
  split; [reflexivity|]. cbn [self].
  destruct (stop_requests env (now w)) as [|n]; cbn [stopped_self stopped_log].
  - split; intros H; rewrite H; auto.
  - unfold set_isRunning. cbn [isRunning]. split; intros H; rewrite H.
    + cbn. rewrite rendered_repeat_shutdown, executions_repeat_shutdown. auto.
    + cbn [app]. rewrite rendered_repeat_shutdown, executions_repeat_shutdown.
      auto.
Qed.

(** The start of an execution counts for one. *)
Lemma advances_execution (ev : Event) (w : World) :
  is_execution ev = true -> advances 1 w (emit ev w).
Proof.
  intros Hev. exists [ev]. split; [reflexivity|]. cbn [emit self].
  split; intros H; rewrite H.
  - destruct ev; try discriminate; reflexivity.
  - destruct ev; try discriminate; cbn; auto.
Qed.

Lemma advances_post (url : string) (data : RequestBody) (w : World) :
  advances 1 w (snd (post env url data w)).
Proof.
  unfold post.
  assert (H1 : advances 1 w (suspend env (emit (AxiosPosted url data) w))).
  { apply (advances_trans 1 0 w (emit (AxiosPosted url data) w)).
    - now apply advances_execution.
    - apply advances_suspend. }
  destruct (axios_post env (now w) url data) as [r|e]; cbn [snd]; [exact H1|].
  apply (advances_trans 1 0 w _ _ H1).
  eapply (advances_trans 0 0); [apply advances_shutdown|].
  destruct (isAxiosError e && status_is e 429);
    [apply advances_sendMessage | apply advances_refl].
Qed.

(** In remote mode [executeTask] leaves the world as [post] does. *)
Lemma snd_executeTask_remote (t : string) (w : World) :
  snd (let (res, w') :=
         post env EXECUTE_URL
           {| rb_modelSettings := modelSettings (self w);
              rb_goal := goal (self w); rb_task := t |} w in
       match res with
       | Returned res => (Returned (response (res_data res)), w')
       | Thrown e => (Thrown e, w')
       end) =
  snd (post env EXECUTE_URL
         {| rb_modelSettings := modelSettings (self w);
            rb_goal := goal (self w); rb_task := t |} w).
Proof. now destruct (post env _ _ w) as [[res|e] w']. Qed.

Lemma advances_executeTask (t : string) (w : World) :
  advances 1 w (snd (executeTask env t w)).
Proof.
  unfold executeTask. destruct (shouldRunClientSide (self w)).
  - cbn [snd].
    apply (advances_trans 1 0 w
             (emit (ExecuteTaskAgentCalled (modelSettings (self w))
                                           (goal (self w)) t) w)).
    + now apply advances_execution.
    + apply advances_suspend.
  - rewrite snd_executeTask_remote. apply advances_post.
Qed.

Lemma advances_dispatch (w : World) : advances 0 w (snd (dispatch w)).
Proof.
  unfold dispatch, shift.
  destruct (tasks (self (with_self _ w))) as [|t rest]; cbn [snd];
    (eapply (advances_trans 0 0); [|apply advances_sendMessage]);
    now apply advances_fields.
Qed.

Lemma advances_report (cur : option string) (r : string) (w : World) :
  advances 0 w (report env cur r w).
Proof.
  unfold report.
  eapply (advances_trans 0 0); [apply advances_sendMessage|].
  eapply (advances_trans 0 0); [|apply advances_suspend].
  now apply advances_fields.
Qed.

(** The queue is touched by [dispatch] only. *)
Lemma self_sendMessage (m : Message) (w : World) :
  self (sendMessage m w) = self w.
Proof. unfold sendMessage. now destruct (isRunning (self w)). Qed.

Lemma tasks_suspend (w : World) :
  tasks (self (suspend env w)) = tasks (self w).
Proof.
  rewrite suspend_eq. cbn [self].
  now destruct (stop_requests env (now w)).
Qed.

Lemma tasks_executeTask (t : string) (w : World) :
  tasks (self (snd (executeTask env t w))) = tasks (self w).
Proof.
  unfold executeTask. destruct (shouldRunClientSide (self w)).
  - cbn [snd]. now rewrite tasks_suspend.
  - rewrite snd_executeTask_remote. unfold post.
    destruct (axios_post env (now w) _ _) as [r|e]; cbn [snd].
    + now rewrite tasks_suspend.
    + destruct (isAxiosError e && status_is e 429);
        unfold sendErrorMessage; rewrite ?self_sendMessage;
        unfold shutdown; cbn [emit self]; now rewrite tasks_suspend.
Qed.

Lemma tasks_dispatch (w : World) :
  tasks (self (snd (dispatch w))) = tl (tasks (self w)).
Proof.
  unfold dispatch, shift, with_self, set_completedTasks.
  cbn [self tasks].
  destruct (tasks (self w)) as [|t rest]; cbn [snd];
    unfold sendThinkingMessage; rewrite self_sendMessage; reflexivity.
Qed.

Lemma tasks_report (cur : option string) (r : string) (w : World) :
  tasks (self (report env cur r w)) = tasks (self w).
Proof.
  unfold report. rewrite tasks_suspend. unfold with_self. cbn [self set_runningTasks tasks].
  unfold sendExecutionMessage. now rewrite self_sendMessage.
Qed.

(** A stopped object does nothing in [loop]. *)
Lemma loop_dead (fuel : nat) (w : World) :
  isRunning (self w) = false ->
  loop consts env (S fuel) w = Some (Returned tt, w).
Proof. intros H. cbn [loop]. now rewrite H. Qed.

(** More fuel does not change what [loop] does. *)
Lemma loop_fuel_monotone (fuel : nat) :
  forall (fuel' : nat) (w : World) (r : Outcome unit * World),
    fuel <= fuel' ->
    loop consts env fuel w = Some r ->
    loop consts env fuel' w = Some r.
Proof.
  induction fuel as [|fuel IH]; intros fuel' w r Hle Hr; [discriminate|].
  destruct fuel' as [|fuel']; [lia|].
  cbn [loop] in *.
  destruct (negb (isRunning (self w))); [exact Hr|].
  destruct (List.length (tasks (self w)) =? 0)%nat; [exact Hr|].
  destruct (numLoops _ >? maxLoops consts _)%Z; [exact Hr|].
  destruct (dispatch _) as [cur w3].
  destruct (executeTask env (as_string cur) w3) as [[res|e] w4]; [|exact Hr].
  apply IH; [lia | exact Hr].
Qed.

(** [loop] returns when it has one unit of fuel more than there are tasks
    in the queue, whatever the environment does; nothing reaches the sink
    after a call of [stopAgent], and at most one execution starts after it. *)
Lemma loop_advances (fuel : nat) :
  forall w : World,
    List.length (tasks (self w)) < fuel ->
    exists out w', loop consts env fuel w = Some (out, w') /\ advances 1 w w'.
Proof.
  induction fuel as [|fuel IH]; intros w Hfuel; [inversion Hfuel|].
  destruct (isRunning (self w)) eqn:Hrun.
  2:{ rewrite loop_dead by exact Hrun. do 2 eexists. split; [reflexivity|].
      apply (advances_mono 0); [lia | apply advances_refl]. }
  cbn [loop]. rewrite Hrun. cbn [negb].
  destruct (List.length (tasks (self w)) =? 0)%nat eqn:Hlen.
  { do 2 eexists. split; [reflexivity|]. apply (advances_mono 0); [lia|].
    eapply (advances_trans 0 0);
      [apply advances_sendMessage | apply advances_shutdown]. }
  set (w1 := with_self (fun a => set_numLoops (numLoops a + 1)%Z a) w).
  assert (H1 : advances 0 w w1) by now apply advances_fields.
  destruct (numLoops (self w1) >? maxLoops consts (self w1))%Z.
  { do 2 eexists. split; [reflexivity|]. apply (advances_mono 0); [lia|].
    eapply (advances_trans 0 0); [exact H1|].
    eapply (advances_trans 0 0);
      [apply advances_sendMessage | apply advances_shutdown]. }
  pose proof (advances_suspend w1) as H2.
  pose proof (advances_dispatch (suspend env w1)) as H3.
  pose proof (tasks_dispatch (suspend env w1)) as T3.
  destruct (dispatch (suspend env w1)) as [cur w3]. cbn [snd] in H3, T3.
  pose proof (advances_executeTask (as_string cur) w3) as H4.
  pose proof (tasks_executeTask (as_string cur) w3) as T4.
  destruct (executeTask env (as_string cur) w3) as [[r|e] w4]; cbn [snd] in H4, T4.
  - pose proof (advances_report cur r w4) as H5.
    pose proof (tasks_report cur r w4) as T5.
    assert (H15 : advances 1 w (report env cur r w4)).
    { apply (advances_trans 0 1 w w1 _ H1).
      apply (advances_trans 0 1 _ _ _ H2).
      apply (advances_trans 0 1 _ _ _ H3).
      apply (advances_trans 1 0 _ _ _ H4 H5). }
    destruct (IH (report env cur r w4)) as (out & w' & Hl & Hw).
    { rewrite T5, T4, T3, tasks_suspend. unfold w1, with_self.
      cbn [self set_numLoops tasks].
      destruct (tasks (self w)); cbn [List.length tl] in *; [discriminate | lia]. }
    exists out, w'. split; [exact Hl|].
    destruct (isRunning (self (report env cur r w4))) eqn:E5.
    + apply (advances_trans_alive 1 1 w _ w' Hrun E5 H15 Hw).
    + destruct fuel as [|fuel]; [discriminate|].
      rewrite loop_dead in Hl by exact E5. injection Hl as _ <-. exact H15.
  - do 2 eexists. split; [reflexivity|].
    apply (advances_trans 0 1 w w1 _ H1).
    apply (advances_trans 0 1 _ _ _ H2).
    apply (advances_trans 0 1 _ _ _ H3). exact H4.
Qed.

Lemma announce_advances (ts : list string) :
  forall w : World,
    let w' := fold_left (fun w task => sendTaskMessage task (suspend env w)) ts w in
    advances 0 w w' /\ tasks (self w') = tasks (self w).
Proof.
  induction ts as [|t rest IH]; intros w.
  - split; [apply advances_refl | reflexivity].
  - cbn [fold_left]. destruct (IH (sendTaskMessage t (suspend env w))) as [Ha Ht].
    split.
    + eapply (advances_trans 0 0); [|exact Ha].
      eapply (advances_trans 0 0); [apply advances_suspend|].
      apply advances_sendMessage.
    + rewrite Ht. unfold sendTaskMessage. rewrite self_sendMessage.
      apply tasks_suspend.
Qed.

(** The [try] block of [run] returns normally, with the queue filled. *)
Lemma run_try_returns (ts : list string) (w : World) :
  exists w', run_try env ts w = (Returned tt, w') /\
             tasks (self w') = ts /\
             advances 0 w w'.
Proof.
  unfold run_try. eexists. split; [reflexivity|].
  set (w1 := with_self (set_tasks ts) w).
  destruct (announce_advances (tasks (self w1)) w1) as [Ha Ht].
  split; [now rewrite Ht|].
  eapply (advances_trans 0 0); [|exact Ha]. now apply advances_fields.
Qed.

(** [run_from] returns, whatever the environment does; nothing reaches the
    sink after a call of [stopAgent], and at most one execution starts after
    it. *)
Lemma run_from_advances (ts : list string) (fuel : nat) (w : World) :
  List.length ts < fuel ->
  exists out w',
    run_from consts env ts fuel w = Some (out, w') /\ advances 1 w w'.
Proof.
  intros Hfuel. unfold run_from, sendGoalMessage, sendThinkingMessage.
  set (w1 := sendMessage (goalMessage (goal (self w))) w).
  set (w2 := sendMessage thinkingMessage w1).
  assert (H2 : advances 0 w w2).
  { eapply (advances_trans 0 0); apply advances_sendMessage. }
  destruct (run_try_returns ts w2) as (w3 & Htry & Ht & H3). rewrite Htry.
  destruct (loop_advances fuel w3) as (out & w' & Hl & Hw);
    [now rewrite Ht|].
  exists out, w'. split; [exact Hl|].
  apply (advances_trans 0 1 w w2 w' H2).
  apply (advances_trans 0 1 w2 w3 w' H3 Hw).
Qed.

Lemma advances_from_start (e : nat) (w w' : World) :
  isRunning (self w) = true ->
  log w = [] ->
  advances e w w' ->
  has_stop_mark (log w') = negb (isRunning (self w')) /\
  rendered (after_stop (log w')) = [] /\
  List.length (executions (after_stop (log w'))) <= e.
Proof.
  intros Hrun Hlog (ext & Hl & Ha & _). specialize (Ha Hrun).
  rewrite Hl, Hlog. cbn [app].
  destruct (isRunning (self w')).
  - rewrite after_stop_unmarked by exact Ha.
    split; [exact Ha|]. split; [reflexivity | cbn; lia].
  - destruct Ha as (Hm & Hr & He). auto.
Qed.

Lemma report_dead (cur : option string) (r : string) (w : World) :
  isRunning (self w) = false ->
  isRunning (self (report env cur r w)) = false /\
  rendered (log (report env cur r w)) = rendered (log w).
Proof.
  intros H. destruct (advances_report cur r w) as (ext & Hl & _ & Hd).
  destruct (Hd H) as (Hr & Hs & _). split; [exact Hr|].
  now rewrite Hl, rendered_app, Hs, app_nil_r.
Qed.

(** C4, as the code has it.  Whatever the environment does, [run] returns,
    and in its log nothing is delivered to the sink after the first call of
    [stopAgent] (the part of the log after the first call of the shutdown
    hook that reads [isRunning] as false, which exists exactly when the
    object ends stopped): [sendMessage] does nothing on a stopped object, so
    the action message of an execution that was in flight is dropped, and a
    tick that begins on a stopped object does nothing at all.  An execution
    can still start after the stop, in the tick that was waiting in its
    first pacing delay, but no more than one. *)
Theorem sink_silent_after_stop (ts : list string) (nm g : string)
    (settings : ModelSettings) (ss : option Session) (id : string)
    (fuel : nat) :
  List.length ts < fuel ->
  (exists out w',
     run_from consts env ts fuel (new_world (new_agent nm g settings ss id))
       = Some (out, w') /\
     has_stop_mark (log w') = negb (isRunning (self w')) /\
     rendered (after_stop (log w')) = [] /\
     List.length (executions (after_stop (log w'))) <= 1) /\
  (forall (m : Message) (w : World),
     isRunning (self w) = false -> sendMessage m w = w) /\
  (forall (cur : option string) (r : string) (w : World),
     isRunning (self w) = false ->
     isRunning (self (report env cur r w)) = false /\
     rendered (log (report env cur r w)) = rendered (log w)) /\
  (forall (fuel' : nat) (w : World),
     isRunning (self w) = false ->
     loop consts env (S fuel') w = Some (Returned tt, w)).
Proof.
  intros Hfuel. split; [|split; [|split]].
  - destruct (run_from_advances ts fuel
                (new_world (new_agent nm g settings ss id)) Hfuel)
      as (out & w' & Hrun & Ha).
    exists out, w'. split; [exact Hrun|].
    now apply (advances_from_start 1 (new_world (new_agent nm g settings ss id))).
  - intros m w. apply sendMessage_dead.
  - intros cur r w. apply report_dead.
  - intros fuel' w. apply loop_dead.
Qed.

(** ** A call of [stopAgent] before the first action message *)

Lemma manual_notices_app (l1 l2 : list Event) :
  manual_notices (l1 ++ l2) = manual_notices l1 + manual_notices l2.
Proof.
  unfold manual_notices, count_system_text.
  now rewrite rendered_app, filter_app, length_app.
Qed.

Lemma stopped_early_fields (k : nat) (w w' : World) :
  log w' = log w -> isRunning (self w') = isRunning (self w) ->
  now w' = now w ->
  stopped_early k w -> stopped_early k w'.
Proof.
  intros Hl Hr Hn (Ha & Hm & Hk). unfold stopped_early.
  now rewrite Hl, Hr, Hn.
Qed.

(** Events other than an action message or the manual notice. *)
Lemma stopped_early_emit (k : nat) (ev : Event) (w : World) :
  actions [ev] = [] -> manual_notices [ev] = 0 ->
  stopped_early k w -> stopped_early k (emit ev w).
Proof.
  intros Hea Hem (Ha & Hm & Hk). unfold stopped_early, emit. cbn [self log now].
  rewrite actions_app, manual_notices_app, Ha, Hea, Hem, Hm, Nat.add_0_r. auto.
Qed.

Lemma stopped_early_sendMessage (k : nat) (m : Message) (w : World) :
  (isRunning (self w) = true ->
   is_action m = false /\ is_system_text MANUAL_SHUTDOWN_TEXT m = false) ->
  stopped_early k w -> stopped_early k (sendMessage m w).
Proof.
  intros Hm Hw. destruct (isRunning (self w)) eqn:E.
  - rewrite sendMessage_alive by exact E. destruct (Hm eq_refl) as [H1 H2].
    apply stopped_early_emit; [| |exact Hw].
    + unfold actions. cbn. now rewrite H1.
    + unfold manual_notices, count_system_text. cbn. now rewrite H2.
  - now rewrite sendMessage_dead.
Qed.

Lemma stopped_early_shutdown (k : nat) (w : World) :
  stopped_early k w -> stopped_early k (shutdown w).
Proof. intros Hw. now apply stopped_early_emit. Qed.

Lemma manual_notices_repeat_shutdown (b : bool) (n : nat) :
  manual_notices (repeat (ShutdownCalled b) n) = 0.
Proof.
  unfold manual_notices, count_system_text.
  now rewrite rendered_repeat_shutdown.
Qed.

Lemma actions_repeat_shutdown (b : bool) (n : nat) :
  actions (repeat (ShutdownCalled b) n) = [].
Proof. unfold actions. now rewrite rendered_repeat_shutdown. Qed.

Lemma now_suspend (w : World) : now (suspend env w) = S (now w).
Proof. now rewrite suspend_eq. Qed.

Lemma stopped_early_suspend (k : nat) (w : World) :
  1 <= stop_requests env k ->
  stopped_early k w -> stopped_early k (suspend env w).
Proof.
  intros Hk (Ha & Hm & Hd). rewrite suspend_eq. unfold stopped_early.
  cbn [self log now].
  destruct (stop_requests env (now w)) as [|n] eqn:En;
    cbn [stopped_self stopped_log].
  - rewrite app_nil_r. repeat split; auto.
    intros Hlt. apply Hd.
    destruct (Nat.eq_dec k (now w)) as [->|]; lia.
  - unfold set_isRunning. cbn [isRunning].
    rewrite actions_app, manual_notices_app, Ha, Hm.
    destruct (isRunning (self w)).
    + rewrite actions_app, manual_notices_app, actions_repeat_shutdown,
        manual_notices_repeat_shutdown. auto.
    + cbn [app]. rewrite actions_repeat_shutdown, manual_notices_repeat_shutdown.
      auto.
Qed.

Lemma now_sendMessage (m : Message) (w : World) :
  now (sendMessage m w) = now w.
Proof. unfold sendMessage. now destruct (isRunning (self w)). Qed.

Lemma now_executeTask (t : string) (w : World) :
  now (snd (executeTask env t w)) = S (now w).
Proof.
  unfold executeTask. destruct (shouldRunClientSide (self w)).
  - cbn [snd]. now rewrite now_suspend.
  - rewrite snd_executeTask_remote. unfold post.
    destruct (axios_post env (now w) _ _) as [r|e]; cbn [snd].
    + now rewrite now_suspend.
    + destruct (isAxiosError e && status_is e 429);
        unfold sendErrorMessage; rewrite ?now_sendMessage;
        unfold shutdown; cbn [emit now]; now rewrite now_suspend.
Qed.

Lemma stopped_early_executeTask (k : nat) (t : string) (w : World) :
  1 <= stop_requests env k ->
  stopped_early k w -> stopped_early k (snd (executeTask env t w)).
Proof.
  intros Hk Hw. unfold executeTask.
  destruct (shouldRunClientSide (self w)).
  - cbn [snd]. apply stopped_early_suspend; [exact Hk|].
    now apply stopped_early_emit.
  - rewrite snd_executeTask_remote. unfold post.
    assert (H1 : stopped_early k
              (suspend env
                 (emit (AxiosPosted EXECUTE_URL
                          {| rb_modelSettings := modelSettings (self w);
                             rb_goal := goal (self w); rb_task := t |}) w))).
    { apply stopped_early_suspend; [exact Hk|]. now apply stopped_early_emit. }
    destruct (axios_post env (now w) _ _) as [r|e]; cbn [snd]; [exact H1|].
    apply stopped_early_shutdown in H1.
    destruct (isAxiosError e && status_is e 429); [|exact H1].
    apply stopped_early_sendMessage; [|exact H1]. intros _. split; reflexivity.
Qed.

Lemma stopped_early_dispatch (k : nat) (w : World) :
  stopped_early k w ->
  stopped_early k (snd (dispatch w)) /\ now (snd (dispatch w)) = now w.
Proof.
  intros Hw. unfold dispatch, shift.
  destruct (tasks (self (with_self _ w))) as [|t rest]; cbn [snd];
    unfold sendThinkingMessage; rewrite now_sendMessage; (split; [|reflexivity]);
    (apply stopped_early_sendMessage; [intros _; split; reflexivity|]);
    revert Hw; now apply stopped_early_fields.
Qed.

(** The report of an execution that ends after point [k]. *)
Lemma stopped_early_report (k : nat) (cur : option string) (r : string)
    (w : World) :
  1 <= stop_requests env k ->
  k < now w ->
  stopped_early k w ->
  stopped_early k (report env cur r w) /\
  isRunning (self (report env cur r w)) = false.
Proof.
  intros Hk Hlt Hw. pose proof Hw as (_ & _ & Hd). specialize (Hd Hlt).
  split; [|now apply report_dead].
  unfold report, sendExecutionMessage. rewrite sendMessage_dead by exact Hd.
  apply stopped_early_suspend; [exact Hk|].
  revert Hw. now apply stopped_early_fields.
Qed.

Lemma set_isRunning_same (a : AutonomousAgent) :
  set_isRunning (isRunning a) a = a.
Proof. now destruct a. Qed.

Lemma set_isRunning_twice (b b' : bool) (a : AutonomousAgent) :
  set_isRunning b (set_isRunning b' a) = set_isRunning b a.
Proof. reflexivity. Qed.

(** A suspension changes nothing of the object but the flag. *)
Lemma self_suspend (w : World) :
  self (suspend env w) =
  set_isRunning (isRunning (self (suspend env w))) (self w).
Proof.
  rewrite suspend_eq. cbn [self].
  destruct (stop_requests env (now w)); cbn [stopped_self].
  - now rewrite set_isRunning_same.
  - reflexivity.
Qed.

Lemma announce_stopped_early (k : nat) (ts : list string) :
  1 <= stop_requests env k ->
  forall w : World,
    stopped_early k w ->
    let w' := fold_left (fun w task => sendTaskMessage task (suspend env w)) ts w in
    stopped_early k w' /\
    now w' = List.length ts + now w /\
    self w' = set_isRunning (isRunning (self w')) (self w).
Proof.
  intros Hk. induction ts as [|t rest IH]; intros w Hw.
  - cbn. now rewrite set_isRunning_same.
  - cbn [fold_left].
    assert (H1 : stopped_early k (sendTaskMessage t (suspend env w))).
    { apply stopped_early_sendMessage; [intros _; split; reflexivity|].
      now apply stopped_early_suspend. }
    destruct (IH _ H1) as (Hq & Hn & Hs). split; [exact Hq|]. split.
    + rewrite Hn. unfold sendTaskMessage.
      rewrite now_sendMessage, now_suspend. cbn [List.length]. lia.
    + rewrite Hs at 1. unfold sendTaskMessage.
      rewrite self_sendMessage, self_suspend. apply set_isRunning_twice.
Qed.

(** The cap depends on the settings and the session only. *)
Lemma maxLoops_frame (a b : AutonomousAgent) :
  modelSettings a = modelSettings b -> session a = session b ->
  maxLoops consts a = maxLoops consts b.
Proof. intros Hm Hs. unfold maxLoops. now rewrite Hm, Hs. Qed.

(** A tick that executes a task. *)
Lemma loop_tick (fuel : nat) (w : World) :
  isRunning (self w) = true ->
  tasks (self w) <> [] ->
  (numLoops (self w) + 1 <= maxLoops consts (self w))%Z ->
  loop consts env (S fuel) w =
  let (cur, w3) :=
    dispatch (suspend env
                (with_self (fun a => set_numLoops (numLoops a + 1)%Z a) w)) in
  match executeTask env (as_string cur) w3 with
  | (Thrown e, w4) => Some (Thrown e, w4)
  | (Returned r, w4) => loop consts env fuel (report env cur r w4)
  end.
Proof.
  intros Hrun Hts Hcap. cbn [loop]. rewrite Hrun. cbn [negb].
  destruct (tasks (self w)) as [|t rest] eqn:Et; [contradiction|].
  cbn [List.length Nat.eqb].
  assert (Hgt : (numLoops (self (with_self
                    (fun a => set_numLoops (numLoops a + 1)%Z a) w)) >?
                 maxLoops consts (self (with_self
                    (fun a => set_numLoops (numLoops a + 1)%Z a) w)))%Z = false).
  { rewrite Z.gtb_ltb. apply Z.ltb_ge.
    rewrite (maxLoops_frame _ (self w)) by reflexivity.
    unfold with_self, set_numLoops. cbn [self numLoops]. exact Hcap. }
  rewrite Hgt. reflexivity.
Qed.

(** C5.  [stopAgent] sends the notice of the manual shutdown (delivered
    if the object was alive: the flag is still set when it is sent), then
    clears [isRunning], then calls the shutdown hook (which reads the flag as
    false).  And when the environment calls [stopAgent]
    at a suspension point [k] that lies before the end of the first
    execution (the pacing delays of the announcements are the points below
    the number [N] of tasks, the first pacing delay of [loop] is point [N],
    the first execution point [N + 1]; the last two are reached when there
    is a task and the cap allows one iteration), [run] returns with no
    action message delivered and exactly one notice of the manual shutdown,
    however many calls of [stopAgent] there are and whatever the execution
    capability does. *)
Theorem stopAgent_before_first_action (ts : list string) (nm g : string)
    (settings : ModelSettings) (ss : option Session) (id : string)
    (k fuel : nat) :
  2 <= fuel ->
  1 <= stop_requests env k ->
  (k < List.length ts \/
   (k <= S (List.length ts) /\ ts <> [] /\
    (1 <= maxLoops consts (new_agent nm g settings ss id))%Z)) ->
  (forall w : World,
     stopAgent w =
     {| self := set_isRunning false (self w);
        log := log w
               ++ (if isRunning (self w)
                   then [Rendered (systemMessage MANUAL_SHUTDOWN_TEXT)] else [])
               ++ [ShutdownCalled false];
        now := now w |}) /\
  exists out w',
    run_from consts env ts fuel (new_world (new_agent nm g settings ss id))
      = Some (out, w') /\
    actions (log w') = [] /\
    manual_notices (log w') = 1 /\
    isRunning (self w') = false.
Proof.
  intros Hfuel Hk Hcase. split.
  { intros w. rewrite stopAgent_eq. reflexivity. }
  set (a0 := new_agent nm g settings ss id) in *.
  unfold run_from, sendGoalMessage, sendThinkingMessage, run_try.
  set (w2 := sendMessage thinkingMessage
               (sendMessage (goalMessage (goal (self (new_world a0))))
                  (new_world a0))).
  assert (H2 : stopped_early k w2 /\ self w2 = a0 /\ now w2 = 0).
  { unfold w2. rewrite !self_sendMessage, !now_sendMessage.
    split; [|split; reflexivity].
    do 2 (apply stopped_early_sendMessage; [intros _; split; reflexivity|]).
    repeat split. cbn. lia. }
  destruct H2 as (Q2 & S2 & N2).
  set (w3 := with_self (set_tasks ts) w2).
  assert (Q3 : stopped_early k w3) by (revert Q2; now apply stopped_early_fields).
  destruct (announce_stopped_early k (tasks (self w3)) Hk w3 Q3) as (Q4 & N4 & S4).
  set (w4 := fold_left _ (tasks (self w3)) w3) in *.
  assert (T3 : tasks (self w3) = ts) by reflexivity.
  rewrite T3 in N4. change (now w3) with (now w2) in N4. rewrite N2 in N4.
  change (self w3) with (set_tasks ts (self w2)) in S4. rewrite S2 in S4.
  destruct fuel as [|fuel]; [lia|].
  destruct (isRunning (self w4)) eqn:E4.
  2:{ rewrite loop_dead by exact E4. exists (Returned tt), w4.
      destruct Q4 as (Ha & Hm & _). rewrite E4 in Hm. auto. }
  assert (Hlate : ~ k < List.length ts).
  { intros Hlt. destruct Q4 as (_ & _ & Hd). rewrite Hd in E4 by lia. discriminate. }
  destruct Hcase as [Hlt | (Hle & Hne & Hcap)]; [contradiction|].
  rewrite loop_tick; [| exact E4 | now rewrite S4 | ].
  2:{ rewrite S4. rewrite (maxLoops_frame _ a0) by reflexivity.
      cbn [set_isRunning set_tasks numLoops]. unfold a0 at 1. cbn [new_agent numLoops].
      lia. }
  set (w5 := with_self (fun a => set_numLoops (numLoops a + 1)%Z a) w4).
  assert (Q5 : stopped_early k w5) by (revert Q4; now apply stopped_early_fields).
  assert (N5 : now w5 = List.length ts) by (unfold w5; cbn [with_self now]; lia).
  apply (stopped_early_suspend k _ Hk) in Q5.
  pose proof (now_suspend w5) as N6. rewrite N5 in N6.
  destruct (stopped_early_dispatch k _ Q5) as [Q7 N7]. rewrite N6 in N7.
  destruct (dispatch (suspend env w5)) as [cur w7]. cbn [snd] in Q7, N7.
  pose proof (stopped_early_executeTask k (as_string cur) w7 Hk Q7) as Q8.
  pose proof (now_executeTask (as_string cur) w7) as N8. rewrite N7 in N8.
  destruct (executeTask env (as_string cur) w7) as [[r|e] w8]; cbn [snd] in Q8, N8.
  - assert (Hlt : k < now w8) by lia.
    destruct (stopped_early_report k cur r w8 Hk Hlt Q8) as [Q9 E9].
    destruct fuel as [|fuel]; [lia|].
    rewrite loop_dead by exact E9. do 2 eexists. split; [reflexivity|].
    destruct Q9 as (Ha & Hm & _). rewrite E9 in Hm. auto.
  - do 2 eexists. split; [reflexivity|].
    destruct Q8 as (Ha & Hm & Hd).
    assert (E8 : isRunning (self w8) = false) by (apply Hd; lia).
    rewrite E8 in Hm. auto.
Qed.

(** C10.  A second call of [stopAgent] calls the shutdown hook once more
    and delivers nothing to the sink: [sendMessage] finds [isRunning] false.
    The same holds of any call on a stopped object. *)
Theorem stopAgent_twice (w : World) :
  log (stopAgent (stopAgent w)) =
    (log (stopAgent w) ++ [ShutdownCalled false])%list /\
  rendered (log (stopAgent (stopAgent w))) = rendered (log (stopAgent w)) /\
  manual_notices (log (stopAgent (stopAgent w))) =
    manual_notices (log (stopAgent w)) /\
  count_shutdown (log (stopAgent (stopAgent w))) =
    S (count_shutdown (log (stopAgent w))) /\
  isRunning (self (stopAgent (stopAgent w))) = false /\
  self (stopAgent (stopAgent w)) = self (stopAgent w).
Proof.
  set (w1 := stopAgent w). rewrite (stopAgent_eq w1).
  assert (E1 : isRunning (self w1) = false) by (unfold w1; now rewrite stopAgent_eq).
  rewrite E1. cbn [self log stopped_log repeat app].
  split; [reflexivity|].
  split; [now rewrite rendered_app, app_nil_r|].
  split; [now rewrite manual_notices_app, Nat.add_0_r|].
  split; [rewrite count_shutdown_app; cbn; lia|].
  split; [reflexivity|].
  rewrite <- E1. apply set_isRunning_same.
Qed.

Lemma filter_task_messages (f : Message -> bool) (ts : list string) :
  (forall t, f (taskMessage t) = false) ->
  filter f (map taskMessage ts) = [].
Proof.
  intros Hf. induction ts as [|t rest IH]; [reflexivity|].
  cbn [map filter]. now rewrite Hf.
Qed.

(** ** Failures of the remote call *)

(** [post] on a failure, when nobody calls [stopAgent] meanwhile. *)
Lemma post_failure (url : string) (data : RequestBody) (e : JsError) (w : World) :
  axios_post env (now w) url data = Thrown e ->
  post env url data w =
  (Thrown e,
   let w1 := shutdown (suspend env (emit (AxiosPosted url data) w)) in
   if isAxiosError e && status_is e 429
   then sendErrorMessage RATE_LIMIT_TEXT w1 else w1).
Proof. intros H. unfold post. now rewrite H. Qed.

(** C6.  In remote mode (no custom key), when every request is answered
    with status 429, nobody calls [stopAgent], there is a task and the cap
    allows one iteration, [run] ends by throwing that failure again: it has
    announced the tasks, sent the first request, called the shutdown hook
    once and then delivered the rate-limit notice, the only system message;
    no action message was delivered. *)
Theorem rate_limited_run (ts : list string) (nm g : string)
    (settings : ModelSettings) (ss : option Session) (id : string)
    (fuel : nat) :
  truthy_string (customApiKey settings) = false ->
  always_rate_limited env ->
  undisturbed_from env 0 ->
  ts <> [] ->
  (1 <= maxLoops consts (new_agent nm g settings ss id))%Z ->
  1 <= fuel ->
  exists w',
    run_from consts env ts fuel (new_world (new_agent nm g settings ss id))
      = Some (Thrown (AxiosError (Some 429%Z)), w') /\
    log w' =
      ([Rendered (goalMessage g); Rendered thinkingMessage]
       ++ map (fun t => Rendered (taskMessage t)) ts
       ++ [Rendered thinkingMessage;
           AxiosPosted EXECUTE_URL
             {| rb_modelSettings := settings; rb_goal := g;
                rb_task := hd EmptyString ts |};
           ShutdownCalled true;
           Rendered (systemMessage RATE_LIMIT_TEXT)])%list /\
    count_shutdown (log w') = 1 /\
    system_messages (log w') = [systemMessage RATE_LIMIT_TEXT] /\
    count_system_text RATE_LIMIT_TEXT (log w') = 1 /\
    actions (log w') = [].
Proof.
  intros Hkey Hrate Hq Hne Hcap Hfuel.
  destruct ts as [|t rest]; [contradiction|].
  destruct fuel as [|fuel]; [lia|].
  set (a0 := new_agent nm g settings ss id) in *.
  unfold run_from, sendGoalMessage, sendThinkingMessage.
  rewrite !sendMessage_alive by reflexivity.
  rewrite run_try_undisturbed by (try reflexivity; intros j _; apply Hq; lia).
  rewrite loop_tick; [| reflexivity | discriminate | ].
  2:{ cbn [self emit new_world]. rewrite (maxLoops_frame _ a0) by reflexivity.
      cbn. lia. }
  rewrite suspend_quiet by (apply Hq; lia).
  unfold dispatch, shift, with_self, tick_clock, emit, first_task,
    set_completedTasks, set_numLoops, set_tasks, new_world.
  cbn [self log now tasks a0 new_agent name goal completedTasks runningTasks
       modelSettings isRunning numLoops session _id].
  unfold sendThinkingMessage. rewrite sendMessage_alive by reflexivity.
  unfold executeTask, shouldRunClientSide, emit.
  cbn [self log now modelSettings goal as_string]. rewrite Hkey.
  rewrite (post_failure _ _ (AxiosError (Some 429%Z))) by apply Hrate.
  cbn [isAxiosError status_is Z.eqb Pos.eqb andb].
  rewrite suspend_quiet by (apply Hq; lia).
  unfold shutdown, sendErrorMessage, emit, tick_clock. cbn [self log now isRunning].
  rewrite sendMessage_alive by reflexivity.
  eexists. split; [reflexivity|].
  unfold emit. cbn [log hd].
  split; [now rewrite <- !app_assoc|].
  split; [rewrite !count_shutdown_app, count_shutdown_tasks; reflexivity|].
  unfold system_messages, count_system_text, actions.
  rewrite !rendered_app, rendered_tasks, !filter_app, !filter_task_messages
    by reflexivity.
  repeat split; reflexivity.
Qed.

(** C7.  A failure of the remote call that is not an axios error with
    status 429: [post] calls the shutdown hook, sends nothing, and throws
    the same failure; [executeTask] and [loop] hand it on, so a tick that
    executes a task in remote mode ends by throwing it, having delivered the
    thinking message only and called the hook once. *)
Theorem failure_other_than_429 (e : JsError) :
  isAxiosError e && status_is e 429 = false ->
  (forall (url : string) (data : RequestBody) (w : World),
     axios_post env (now w) url data = Thrown e ->
     post env url data w =
     (Thrown e, shutdown (suspend env (emit (AxiosPosted url data) w)))) /\
  (forall (fuel : nat) (w : World),
     isRunning (self w) = true ->
     tasks (self w) <> [] ->
     (numLoops (self w) + 1 <= maxLoops consts (self w))%Z ->
     shouldRunClientSide (self w) = false ->
     stop_requests env (now w) = 0 ->
     stop_requests env (S (now w)) = 0 ->
     (forall u d, axios_post env (S (now w)) u d = Thrown e) ->
     exists w',
       loop consts env (S fuel) w = Some (Thrown e, w') /\
       log w' =
         (log w ++
          [Rendered thinkingMessage;
           AxiosPosted EXECUTE_URL
             {| rb_modelSettings := modelSettings (self w);
                rb_goal := goal (self w);
                rb_task := hd EmptyString (tasks (self w)) |};
           ShutdownCalled true])%list /\
       system_messages (log w') = system_messages (log w) /\
       count_shutdown (log w') = S (count_shutdown (log w))).
Proof.
  intros He. split.
  - intros url data w Ha. rewrite (post_failure _ _ e) by exact Ha.
    cbv zeta. now rewrite He.
  - intros fuel w Hrun Hts Hcap Hremote Hq0 Hq1 Hfail.
    rewrite loop_tick by assumption.
    destruct w as [[nm g ts cts rts ms running n ss id] l k].
    unfold shouldRunClientSide in Hremote.
    cbn [self isRunning tasks now modelSettings] in *. subst running.
    destruct ts as [|t rest]; [contradiction|].
    rewrite suspend_quiet by exact Hq0.
    unfold dispatch, shift, with_self, tick_clock, first_task,
      set_completedTasks, set_numLoops, set_tasks.
    cbn [self log now tasks name goal completedTasks runningTasks
         modelSettings isRunning numLoops session _id].
    unfold sendThinkingMessage. rewrite sendMessage_alive by reflexivity.
    unfold executeTask, shouldRunClientSide, emit.
    cbn [self log now modelSettings goal as_string]. rewrite Hremote.
    rewrite (post_failure _ _ e) by apply Hfail. cbv zeta. rewrite He.
    rewrite suspend_quiet by exact Hq1.
    unfold shutdown, emit, tick_clock. cbn [self log now isRunning].
    eexists. split; [reflexivity|]. cbn [log hd].
    split; [now rewrite <- !app_assoc|].
    unfold system_messages.
    rewrite !count_shutdown_app, !rendered_app, !filter_app. cbn.
    rewrite !app_nil_r. split; [reflexivity | lia].
Qed.

(** ** The bookkeeping of a tick *)

(** C8, as the code has it.  In a tick that executes a task [t] (the
    object is alive, [t] is at the front of the queue, the cap is not
    reached; nobody calls [stopAgent] during the tick and the capability
    answers [r]): when [executeTask] is called, [t] has been appended to
    [completedTasks] and taken off the queue and the thinking message has
    been delivered, but [runningTasks] is as it was; the call is made; then
    the action message with the task and [r] is delivered, and only then is
    [t] appended to [runningTasks]. *)
Theorem tick_bookkeeping (fuel : nat) (w : World) (t : string)
    (rest : list string) (r : string) :
  isRunning (self w) = true ->
  tasks (self w) = t :: rest ->
  (numLoops (self w) + 1 <= maxLoops consts (self w))%Z ->
  stop_requests env (now w) = 0 ->
  stop_requests env (S (now w)) = 0 ->
  stop_requests env (S (S (now w))) = 0 ->
  execution_answer env (modelSettings (self w)) (goal (self w)) (S (now w)) t
    = Returned r ->
  task_at_call env w = Some t /\
  completedTasks (self (world_at_call env w)) =
    (completedTasks (self w) ++ [t])%list /\
  tasks (self (world_at_call env w)) = rest /\
  runningTasks (self (world_at_call env w)) = runningTasks (self w) /\
  log (world_at_call env w) = (log w ++ [Rendered thinkingMessage])%list /\
  exists after_call,
    executeTask env t (world_at_call env w) = (Returned r, after_call) /\
    log after_call =
      (log (world_at_call env w)
       ++ [execution_event (modelSettings (self w)) (goal (self w)) t])%list /\
    runningTasks (self after_call) = runningTasks (self w) /\
    log (report env (Some t) r after_call) =
      (log after_call ++ [Rendered (executionMessage t r)])%list /\
    runningTasks (self (report env (Some t) r after_call)) =
      (runningTasks (self w) ++ [t])%list /\
    completedTasks (self (report env (Some t) r after_call)) =
      (completedTasks (self w) ++ [t])%list /\
    tasks (self (report env (Some t) r after_call)) = rest /\
    loop consts env (S fuel) w =
      loop consts env fuel (report env (Some t) r after_call).
Proof.
  intros Hrun Hts Hcap Hq0 Hq1 Hq2 Hans.
  assert (Htick := loop_tick fuel w Hrun).
  rewrite Hts in Htick. specialize (Htick ltac:(discriminate) Hcap).
  revert Htick. unfold task_at_call, world_at_call.
  destruct w as [[nm g ts cts rts ms running n ss id] l k].
  cbn [self isRunning tasks now modelSettings goal completedTasks
       runningTasks log] in *. subst running ts.
  rewrite suspend_quiet by exact Hq0.
  unfold dispatch, shift, with_self, tick_clock, first_task,
    set_completedTasks, set_numLoops, set_tasks.
  cbn [self log now tasks name goal completedTasks runningTasks
       modelSettings isRunning numLoops session _id].
  rewrite string_or_empty.
  unfold sendThinkingMessage. rewrite sendMessage_alive by reflexivity.
  unfold emit. cbn [self log now fst snd as_string].
  rewrite (executeTask_quiet t _ r) by (cbn [self now modelSettings goal]; auto).
  unfold emit, tick_clock. cbn [self log now modelSettings goal].
  intros Htick.
  do 5 (split; [reflexivity|]).
  eexists. split; [reflexivity|]. cbn [self log now runningTasks].
  do 2 (split; [reflexivity|]).
  refine (conj _ (conj _ (conj _ (conj _ Htick))));
    unfold report, sendExecutionMessage; cbn [as_string];
    rewrite sendMessage_alive by reflexivity;
    unfold emit, with_self, set_runningTasks; cbn [self log now runningTasks];
    rewrite suspend_quiet by (cbn [now]; exact Hq2);
    reflexivity.
Qed.

(** ** The cap *)

(** C3, as the code has it.  The cap is a function of the settings and of
    the session: without a custom key it is the free constant, or the paid
    one for a paying identity; with a custom key it is the override when
    there is one and it is not zero, and the default of custom keys when
    there is none or when it is zero. *)
Theorem maxLoops_resolution (a : AutonomousAgent) :
  (has_custom_key a = false -> paid_identity a = false ->
   maxLoops consts a = DEFAULT_MAX_LOOPS_FREE consts) /\
  (has_custom_key a = false -> paid_identity a = true ->
   maxLoops consts a = DEFAULT_MAX_LOOPS_PAID consts) /\
  (has_custom_key a = true -> customMaxLoops (modelSettings a) = None ->
   maxLoops consts a = DEFAULT_MAX_LOOPS_CUSTOM_API_KEY consts) /\
  (has_custom_key a = true -> customMaxLoops (modelSettings a) = Some 0%Z ->
   maxLoops consts a = DEFAULT_MAX_LOOPS_CUSTOM_API_KEY consts) /\
  (forall K : Z,
     has_custom_key a = true -> customMaxLoops (modelSettings a) = Some K ->
     K <> 0%Z -> maxLoops consts a = K) /\
  (forall b : AutonomousAgent,
     modelSettings b = modelSettings a -> session b = session a ->
     maxLoops consts b = maxLoops consts a).
Proof.
  unfold has_custom_key, paid_identity, maxLoops.
  repeat split.
  - intros Hk Hp. now rewrite Hk, Hp.
  - intros Hk Hp. now rewrite Hk, Hp.
  - intros Hk Ho. now rewrite Hk, Ho.
  - intros Hk Ho. now rewrite Hk, Ho.
  - intros K Hk Ho HK. rewrite Hk, Ho. unfold number_or, truthy_number.
    destruct (Z.eqb_spec K 0); [contradiction | reflexivity].
  - intros b Hm Hs. now rewrite Hm, Hs.
Qed.

(** ** The anatomy of a tick, in every environment *)

Lemma suspend_world (w : World) :
  suspend env w =
  {| self := set_isRunning (survives env (now w) (isRunning (self w))) (self w);
     log := log w ++ stopped_log (isRunning (self w)) (stop_requests env (now w));
     now := S (now w) |}.
Proof.
  rewrite suspend_eq. unfold survives.
  destruct (stop_requests env (now w)) as [|n]; cbn [stopped_self Nat.eqb].
  - now rewrite andb_true_r, set_isRunning_same.
  - now rewrite andb_false_r.
Qed.

Lemma sendMessage_world (m : Message) (w : World) :
  sendMessage m w =
  {| self := self w;
     log := log w ++ (if isRunning (self w) then [Rendered m] else []);
     now := now w |}.
Proof.
  unfold sendMessage, emit. destruct w as [a l k]; cbn [self log now].
  destruct (isRunning a); [reflexivity | now rewrite app_nil_r].
Qed.

(** The world in which [executeTask] is called, for a non-empty queue. *)
Lemma world_at_call_eq (w : World) (t : string) (rest : list string) :
  tasks (self w) = t :: rest ->
  task_at_call env w = Some t /\
  world_at_call env w =
  {| self :=
       set_tasks rest
         (set_completedTasks (completedTasks (self w) ++ [t])
            (set_numLoops (numLoops (self w) + 1)%Z
               (set_isRunning (survives env (now w) (isRunning (self w)))
                  (self w))));
     log := log w
            ++ stopped_log (isRunning (self w)) (stop_requests env (now w))
            ++ (if survives env (now w) (isRunning (self w))
                then [Rendered thinkingMessage] else []);
     now := S (now w) |}.
Proof.
  intros Ht. unfold task_at_call, world_at_call.
  rewrite suspend_world. destruct w as [a l k].
  unfold dispatch, shift, with_self, first_task, sendThinkingMessage.
  cbn [self log now] in *. destruct a as [nm g ts cts rts ms running n ss id].
  cbn [tasks] in Ht. subst ts.
  unfold set_numLoops, set_isRunning, set_completedTasks, set_tasks.
  cbn [self log now name goal tasks completedTasks runningTasks modelSettings
       isRunning numLoops session _id fst snd].
  rewrite string_or_empty, sendMessage_world. cbn [self log now isRunning fst snd].
  split; [reflexivity|]. now rewrite <- app_assoc.
Qed.

(** [executeTask], whatever the environment does. *)
Lemma executeTask_eq (t : string) (w : World) :
  let o := execution_answer env (modelSettings (self w)) (goal (self w)) (now w) t in
  let alive := survives env (now w) (isRunning (self w)) in
  executeTask env t w =
  (o,
   {| self := set_isRunning alive (self w);
      log := log w
             ++ [execution_event (modelSettings (self w)) (goal (self w)) t]
             ++ stopped_log (isRunning (self w)) (stop_requests env (now w))
             ++ failure_events (self w) alive o;
      now := S (now w) |}).
Proof.
  cbv zeta. unfold executeTask, execution_answer, execution_event, failure_events,
    shouldRunClientSide, post.
  destruct (truthy_string (customApiKey (modelSettings (self w)))).
  - rewrite suspend_world. unfold emit. cbn [self log now].
    f_equal. f_equal. rewrite <- !app_assoc. f_equal. f_equal.
    destruct (executeTaskAgent env _ _ _ _); now rewrite app_nil_r.
  - rewrite suspend_world. unfold emit. cbn [self log now].
    destruct (axios_post env (now w) _ _) as [res|e].
    + f_equal. f_equal. rewrite <- !app_assoc. cbn [app]. now rewrite app_nil_r.
    + unfold shutdown, sendErrorMessage. rewrite sendMessage_world.
      unfold emit. cbn [self log now isRunning set_isRunning].
      f_equal. f_equal. rewrite <- !app_assoc. cbn [app]. do 3 f_equal.
      destruct (survives env (now w) (isRunning (self w)));
        destruct (isAxiosError e && status_is e 429); reflexivity.
Qed.

(** The rest of the tick after an answer [r]. *)
Lemma report_eq (t r : string) (w : World) :
  report env (Some t) r w =
  {| self :=
       set_isRunning (survives env (now w) (isRunning (self w)))
         (set_runningTasks (runningTasks (self w) ++ [t]) (self w));
     log := log w
            ++ (if isRunning (self w) then [Rendered (executionMessage t r)] else [])
            ++ stopped_log (isRunning (self w)) (stop_requests env (now w));
     now := S (now w) |}.
Proof.
  unfold report, sendExecutionMessage. cbn [as_string].
  rewrite suspend_world, sendMessage_world. unfold with_self.
  cbn [self log now set_runningTasks isRunning]. now rewrite <- app_assoc.
Qed.

Lemma completed_world (w : World) :
  shutdown (sendCompletedMessage w) =
  {| self := self w;
     log := log w
            ++ (if isRunning (self w)
                then [Rendered (systemMessage COMPLETED_TEXT)] else [])
            ++ [ShutdownCalled (isRunning (self w))];
     now := now w |}.
Proof.
  unfold shutdown, sendCompletedMessage. rewrite sendMessage_world.
  unfold emit. cbn [self log now]. now rewrite <- app_assoc.
Qed.

Lemma capped_world (w : World) :
  shutdown (sendLoopMessage (counted w)) =
  {| self := set_numLoops (numLoops (self w) + 1)%Z (self w);
     log := log w
            ++ (if isRunning (self w)
                then [Rendered (systemMessage
                                  (loopMessageText (modelSettings (self w))))]
                else [])
            ++ [ShutdownCalled (isRunning (self w))];
     now := now w |}.
Proof.
  unfold shutdown, sendLoopMessage, counted, with_self.
  rewrite sendMessage_world. unfold emit. cbn [self log now].
  now rewrite <- app_assoc.
Qed.

(** The cases of [loop]: a property [R] of (start, outcome, end) that holds of
    the four ways a call ends at once, and is carried back over a tick that
    goes on, holds of every call that returns. *)
Lemma loop_cases (R : World -> Outcome unit -> World -> Prop) :
  (forall w, isRunning (self w) = false -> R w (Returned tt) w) ->
  (forall w,
     isRunning (self w) = true -> tasks (self w) = [] ->
     R w (Returned tt) (shutdown (sendCompletedMessage w))) ->
  (forall w t rest,
     isRunning (self w) = true -> tasks (self w) = t :: rest ->
     (maxLoops consts (self w) < numLoops (self w) + 1)%Z ->
     R w (Returned tt) (shutdown (sendLoopMessage (counted w)))) ->
  (forall w t rest e,
     isRunning (self w) = true -> tasks (self w) = t :: rest ->
     (numLoops (self w) + 1 <= maxLoops consts (self w))%Z ->
     fst (executeTask env t (world_at_call env w)) = Thrown e ->
     R w (Thrown e) (snd (executeTask env t (world_at_call env w)))) ->
  (forall w t rest r out w',
     isRunning (self w) = true -> tasks (self w) = t :: rest ->
     (numLoops (self w) + 1 <= maxLoops consts (self w))%Z ->
     fst (executeTask env t (world_at_call env w)) = Returned r ->
     R (report env (Some t) r (snd (executeTask env t (world_at_call env w))))
       out w' ->
     R w out w') ->
  forall fuel w out w',
    loop consts env fuel w = Some (out, w') -> R w out w'.
Proof.
  intros Hdead Hdone Hcap Hfail Hstep.
  induction fuel as [|fuel IH]; intros w out w' Hl; [discriminate|].
  destruct (isRunning (self w)) eqn:Hrun.
  2:{ rewrite loop_dead in Hl by exact Hrun. injection Hl as <- <-. now apply Hdead. }
  destruct (tasks (self w)) as [|t rest] eqn:Ht.
  { cbn [loop] in Hl. rewrite Hrun, Ht in Hl. cbn in Hl.
    injection Hl as <- <-. now apply Hdone. }
  destruct (Z.ltb_spec (maxLoops consts (self w)) (numLoops (self w) + 1)) as [Hc|Hc].
  { cbn [loop] in Hl. rewrite Hrun, Ht in Hl. cbn [negb List.length Nat.eqb] in Hl.
    rewrite (maxLoops_frame _ (self w)) in Hl by reflexivity.
    assert (Hgt : (numLoops (self (with_self
                      (fun a => set_numLoops (numLoops a + 1)%Z a) w)) >?
                   maxLoops consts (self w))%Z = true).
    { unfold with_self, set_numLoops. cbn [self numLoops]. apply Z.gtb_lt. lia. }
    rewrite Hgt in Hl. injection Hl as <- <-. now apply (Hcap w t rest). }
  rewrite loop_tick in Hl; [| exact Hrun | rewrite Ht; discriminate | exact Hc].
  destruct (world_at_call_eq w t rest Ht) as [Hcur _].
  assert (Hd : dispatch (suspend env
                 (with_self (fun a => set_numLoops (numLoops a + 1)%Z a) w))
               = (Some t, world_at_call env w)).
  { unfold task_at_call in Hcur. unfold world_at_call.
    destruct (dispatch _) as [cur w3]. cbn [fst snd] in *. now subst cur. }
  rewrite Hd in Hl. cbn [as_string] in Hl.
  destruct (executeTask env t (world_at_call env w)) as [[r|e] w4] eqn:He.
  - apply (Hstep w t rest r out w' Hrun Ht Hc).
    + now rewrite He.
    + rewrite He. cbn [snd]. now apply IH.
  - injection Hl as <- <-.
    replace w4 with (snd (executeTask env t (world_at_call env w)))
      by now rewrite He.
    apply (Hfail w t rest e Hrun Ht Hc). now rewrite He.
Qed.

(** A tick whose execution fails, in closed form. *)
Lemma tick_failed (w : World) (t : string) (rest : list string) (e : JsError) :
  isRunning (self w) = true ->
  tasks (self w) = t :: rest ->
  fst (executeTask env t (world_at_call env w)) = Thrown e ->
  execution_answer env (modelSettings (self w)) (goal (self w)) (S (now w)) t
    = Thrown e /\
  snd (executeTask env t (world_at_call env w)) =
  {| self := tick_self (self w) t rest false
               (survives env (S (now w)) (survives env (now w) true));
     log := log w ++ tick_log env (self w) (now w) t;
     now := S (S (now w)) |}.
Proof.
  intros Hrun Ht. destruct (world_at_call_eq w t rest Ht) as [_ ->].
  rewrite executeTask_eq. cbv zeta. rewrite Hrun.
  cbn [fst snd self log now set_tasks set_completedTasks set_numLoops
       set_isRunning modelSettings goal isRunning].
  intros He. split; [exact He|].
  unfold tick_log, tick_self. rewrite He.
  cbn [set_isRunning name goal tasks completedTasks runningTasks modelSettings
       numLoops session _id].
  f_equal. rewrite <- !app_assoc. do 4 f_equal.
  unfold failure_events, shouldRunClientSide. cbn [modelSettings].
  now rewrite app_nil_r.
Qed.

(** A tick whose execution returns, in closed form. *)
Lemma tick_reported (w : World) (t : string) (rest : list string) (r : string) :
  isRunning (self w) = true ->
  tasks (self w) = t :: rest ->
  fst (executeTask env t (world_at_call env w)) = Returned r ->
  execution_answer env (modelSettings (self w)) (goal (self w)) (S (now w)) t
    = Returned r /\
  report env (Some t) r (snd (executeTask env t (world_at_call env w))) =
  {| self := tick_self (self w) t rest true
               (survives env (S (S (now w)))
                  (survives env (S (now w)) (survives env (now w) true)));
     log := log w ++ tick_log env (self w) (now w) t;
     now := S (S (S (now w))) |}.
Proof.
  intros Hrun Ht. destruct (world_at_call_eq w t rest Ht) as [_ ->].
  rewrite executeTask_eq. cbv zeta. rewrite Hrun.
  cbn [fst snd self log now set_tasks set_completedTasks set_numLoops
       set_isRunning modelSettings goal isRunning].
  intros He. split; [exact He|].
  rewrite report_eq. unfold tick_log, tick_self. rewrite He.
  cbn [self log now set_isRunning set_runningTasks name goal tasks
       completedTasks runningTasks modelSettings isRunning numLoops session _id].
  f_equal. now rewrite <- !app_assoc.
Qed.

(** Invariants of [loop]: a property [I] of the world at the start of a tick
    that the executing tick keeps gives the property [J] of the outcome and
    the last world, when [J] follows from [I] in the four ways a call ends. *)
Lemma loop_invariant (I : World -> Prop) (J : Outcome unit -> World -> Prop) :
  (forall w, isRunning (self w) = false -> I w -> J (Returned tt) w) ->
  (forall w,
     isRunning (self w) = true -> tasks (self w) = [] -> I w ->
     J (Returned tt)
       {| self := self w;
          log := log w ++ [Rendered (systemMessage COMPLETED_TEXT);
                           ShutdownCalled true];
          now := now w |}) ->
  (forall w t rest,
     isRunning (self w) = true -> tasks (self w) = t :: rest ->
     (maxLoops consts (self w) < numLoops (self w) + 1)%Z -> I w ->
     J (Returned tt)
       {| self := set_numLoops (numLoops (self w) + 1)%Z (self w);
          log := log w
                 ++ [Rendered (systemMessage
                                 (loopMessageText (modelSettings (self w))));
                     ShutdownCalled true];
          now := now w |}) ->
  (forall w t rest e,
     isRunning (self w) = true -> tasks (self w) = t :: rest ->
     (numLoops (self w) + 1 <= maxLoops consts (self w))%Z ->
     execution_answer env (modelSettings (self w)) (goal (self w)) (S (now w)) t
       = Thrown e ->
     I w ->
     J (Thrown e)
       {| self := tick_self (self w) t rest false
                    (survives env (S (now w)) (survives env (now w) true));
          log := log w ++ tick_log env (self w) (now w) t;
          now := S (S (now w)) |}) ->
  (forall w t rest r,
     isRunning (self w) = true -> tasks (self w) = t :: rest ->
     (numLoops (self w) + 1 <= maxLoops consts (self w))%Z ->
     execution_answer env (modelSettings (self w)) (goal (self w)) (S (now w)) t
       = Returned r ->
     I w ->
     I {| self := tick_self (self w) t rest true
                    (survives env (S (S (now w)))
                       (survives env (S (now w)) (survives env (now w) true)));
          log := log w ++ tick_log env (self w) (now w) t;
          now := S (S (S (now w))) |}) ->
  forall fuel w out w',
    loop consts env fuel w = Some (out, w') -> I w -> J out w'.
Proof.
  intros Hdead Hdone Hcap Hfail Hstep fuel w out w' Hl.
  revert fuel w out w' Hl.
  apply (loop_cases (fun w out w' => I w -> J out w')).
  - exact Hdead.
  - intros w Hrun Ht Hi. rewrite completed_world, Hrun. now apply Hdone.
  - intros w t rest Hrun Ht Hc Hi. rewrite capped_world, Hrun.
    now apply (Hcap w t rest).
  - intros w t rest e Hrun Ht Hc He Hi.
    destruct (tick_failed w t rest e Hrun Ht He) as [Ha ->].
    now apply (Hfail w t rest e).
  - intros w t rest r out w' Hrun Ht Hc He Hrec Hi.
    destruct (tick_reported w t rest r Hrun Ht He) as [Ha Hw].
    rewrite Hw in Hrec. apply Hrec. now apply (Hstep w t rest r).
Qed.

(** ** The run up to [loop], in every environment *)

Lemma announce_world (ts : list string) :
  forall w : World,
    fold_left (fun w task => sendTaskMessage task (suspend env w)) ts w =
    {| self := set_isRunning
                 (survives_all env (now w) (isRunning (self w)) (List.length ts))
                 (self w);
       log := log w ++ announce_log env (now w) (isRunning (self w)) ts;
       now := List.length ts + now w |}.
Proof.
  induction ts as [|t rest IH]; intros w.
  - destruct w as [a l k]. cbn. now rewrite app_nil_r, set_isRunning_same.
  - cbn [fold_left]. rewrite IH. unfold sendTaskMessage.
    rewrite sendMessage_world, suspend_world.
    cbn [self log now isRunning set_isRunning announce_log survives_all List.length].
    f_equal.
    + now rewrite <- !app_assoc.
    + lia.
Qed.

Lemma run_from_entry (ts : list string) (fuel : nat) (w : World) :
  run_from consts env ts fuel w = loop consts env fuel (entry_world env ts w).
Proof. reflexivity. Qed.

Lemma entry_world_eq (ts : list string) (w : World) :
  entry_world env ts w =
  {| self := set_isRunning
               (survives_all env (now w) (isRunning (self w)) (List.length ts))
               (set_tasks ts (self w));
     log := log w
            ++ (if isRunning (self w)
                then [Rendered (goalMessage (goal (self w)));
                      Rendered thinkingMessage]
                else [])
            ++ announce_log env (now w) (isRunning (self w)) ts;
     now := List.length ts + now w |}.
Proof.
  unfold entry_world, run_try, sendThinkingMessage, sendGoalMessage.
  cbn [snd]. rewrite announce_world, !sendMessage_world.
  unfold with_self. cbn [self log now set_tasks tasks isRunning].
  f_equal. rewrite <- !app_assoc. f_equal.
  destruct (isRunning (self w)); reflexivity.
Qed.

(** The flag and the calls of [stopAgent]. *)
Lemma survives_stops (k : nat) :
  survives env k (stops_before env k =? 0)%nat = (stops_before env (S k) =? 0)%nat.
Proof.
  unfold survives. cbn [stops_before].
  destruct (stops_before env k), (stop_requests env k); reflexivity.
Qed.

Lemma survives_all_stops (n : nat) :
  forall k : nat,
    survives_all env k (stops_before env k =? 0)%nat n
    = (stops_before env (n + k) =? 0)%nat.
Proof.
  induction n as [|n IH]; intros k; [reflexivity|].
  cbn [survives_all]. rewrite survives_stops, IH. f_equal. f_equal. lia.
Qed.

Lemma survives_dead (k : nat) : survives env k false = false.
Proof. reflexivity. Qed.

Lemma survives_all_dead (n : nat) :
  forall k : nat, survives_all env k false n = false.
Proof. induction n as [|n IH]; intros k; [reflexivity | apply IH]. Qed.

(** ** The bookkeeping and the executions *)

Lemma executed_tasks_app (l1 l2 : list Event) :
  executed_tasks (l1 ++ l2) = (executed_tasks l1 ++ executed_tasks l2)%list.
Proof. apply flat_map_app. Qed.

Lemma executed_tasks_stopped_log (b : bool) (n : nat) :
  executed_tasks (stopped_log b n) = [].
Proof.
  destruct n as [|n]; [reflexivity|]. unfold stopped_log.
  rewrite executed_tasks_app. destruct b; cbn [executed_tasks flat_map app executed_task];
    induction n as [|n IH]; cbn; auto.
Qed.

Lemma executed_tasks_failure_events (a : AutonomousAgent) (b : bool)
    (o : Outcome string) :
  executed_tasks (failure_events a b o) = [].
Proof.
  unfold failure_events. destruct o as [r|e]; [reflexivity|].
  destruct (shouldRunClientSide a); [reflexivity|].
  destruct (b && _); reflexivity.
Qed.

Lemma executed_tasks_execution_event (s : ModelSettings) (g t : string) :
  executed_tasks [execution_event s g t] = [t].
Proof. unfold execution_event. now destruct (truthy_string _). Qed.

Lemma executed_tasks_tick_log (a : AutonomousAgent) (k : nat) (t : string) :
  executed_tasks (tick_log env a k t) = [t].
Proof.
  unfold tick_log.
  rewrite !executed_tasks_app, !executed_tasks_stopped_log,
    executed_tasks_execution_event, executed_tasks_failure_events.
  destruct (survives env k true); cbn [executed_tasks flat_map app];
    destruct (execution_answer env _ _ _ _) as [r|e]; try reflexivity;
    rewrite executed_tasks_app, executed_tasks_stopped_log;
    destruct (survives env (S k) _); reflexivity.
Qed.

Lemma executed_tasks_announce_log (ts : list string) :
  forall (k : nat) (b : bool), executed_tasks (announce_log env k b ts) = [].
Proof.
  induction ts as [|t rest IH]; intros k b; [reflexivity|].
  cbn [announce_log]. rewrite !executed_tasks_app, executed_tasks_stopped_log, IH.
  destruct (survives env k b); reflexivity.
Qed.

(** What [loop] keeps of the bookkeeping, from a tick boundary at which every
    completed task has been reported. *)
Lemma loop_books (ts : list string) (cap : Z) (fuel : nat)
    (w : World) (out : Outcome unit) (w' : World) :
  loop consts env fuel w = Some (out, w') ->
  (maxLoops consts (self w) = cap /\
   (completedTasks (self w) ++ tasks (self w))%list = ts /\
   runningTasks (self w) = completedTasks (self w) /\
   numLoops (self w) = Z.of_nat (List.length (completedTasks (self w))) /\
   executed_tasks (log w) = completedTasks (self w) /\
   (Z.of_nat (List.length (completedTasks (self w))) <= Z.max 0 cap)%Z) ->
  (completedTasks (self w') ++ tasks (self w'))%list = ts /\
  executed_tasks (log w') = completedTasks (self w') /\
  (Z.of_nat (List.length (completedTasks (self w'))) <= Z.max 0 cap)%Z /\
  match out with
  | Returned _ => runningTasks (self w') = completedTasks (self w')
  | Thrown _ =>
      exists t, completedTasks (self w') = (runningTasks (self w') ++ [t])%list
  end /\
  (numLoops (self w') = Z.of_nat (List.length (completedTasks (self w'))) \/
   (numLoops (self w') = Z.of_nat (List.length (completedTasks (self w'))) + 1 /\
    cap < numLoops (self w') /\ tasks (self w') <> [] /\ out = Returned tt))%Z.
Proof.
  apply (loop_invariant
           (fun w =>
              maxLoops consts (self w) = cap /\
              (completedTasks (self w) ++ tasks (self w))%list = ts /\
              runningTasks (self w) = completedTasks (self w) /\
              numLoops (self w) = Z.of_nat (List.length (completedTasks (self w))) /\
              executed_tasks (log w) = completedTasks (self w) /\
              (Z.of_nat (List.length (completedTasks (self w))) <= Z.max 0 cap)%Z)
           (fun out w' =>
              (completedTasks (self w') ++ tasks (self w'))%list = ts /\
              executed_tasks (log w') = completedTasks (self w') /\
              (Z.of_nat (List.length (completedTasks (self w'))) <= Z.max 0 cap)%Z /\
              match out with
              | Returned _ => runningTasks (self w') = completedTasks (self w')
              | Thrown _ =>
                  exists t,
                    completedTasks (self w') = (runningTasks (self w') ++ [t])%list
              end /\
              (numLoops (self w') = Z.of_nat (List.length (completedTasks (self w'))) \/
               (numLoops (self w') = Z.of_nat (List.length (completedTasks (self w'))) + 1 /\
                cap < numLoops (self w') /\ tasks (self w') <> [] /\
                out = Returned tt))%Z)).
  - intros w0 _ (Hc & Hq & Hr & Hn & He & Hb). auto 10.
  - intros w0 _ _ (Hc & Hq & Hr & Hn & He & Hb). cbn [self log].
    rewrite executed_tasks_app, app_nil_r. auto 10.
  - intros w0 t rest _ Ht Hlt (Hc & Hq & Hr & Hn & He & Hb).
    cbn [self log set_numLoops completedTasks tasks runningTasks numLoops].
    rewrite executed_tasks_app, app_nil_r.
    repeat split; auto. right. rewrite Ht. repeat split; try lia; discriminate.
  - intros w0 t rest e _ Ht Hle _ (Hc & Hq & Hr & Hn & He & Hb).
    cbn [self log tick_self completedTasks tasks runningTasks numLoops].
    rewrite executed_tasks_app, executed_tasks_tick_log, He, Ht in *.
    rewrite length_app. cbn [List.length].
    repeat split.
    + now rewrite <- app_assoc.
    + lia.
    + exists t. now rewrite Hr.
    + left. lia.
  - intros w0 t rest r _ Ht Hle _ (Hc & Hq & Hr & Hn & He & Hb).
    cbn [self log tick_self completedTasks tasks runningTasks numLoops].
    rewrite executed_tasks_app, executed_tasks_tick_log, He, Ht in *.
    rewrite length_app. cbn [List.length].
    repeat split.
    + rewrite (maxLoops_frame _ (self w0)); [exact Hc | reflexivity | reflexivity].
    + now rewrite <- app_assoc.
    + now rewrite Hr.
    + lia.
    + lia.
Qed.

(** The world in which [run] enters [loop], for a fresh object. *)
Lemma entry_fresh (ts : list string) (nm g : string) (settings : ModelSettings)
    (ss : option Session) (id : string) :
  entry_world env ts (new_world (new_agent nm g settings ss id)) =
  {| self := set_isRunning (stops_before env (List.length ts) =? 0)%nat
               (set_tasks ts (new_agent nm g settings ss id));
     log := [Rendered (goalMessage g); Rendered thinkingMessage]
            ++ announce_log env 0 true ts;
     now := List.length ts |}.
Proof.
  rewrite entry_world_eq. unfold new_world, new_agent.
  cbn [self log now isRunning goal app].
  change true with (stops_before env 0 =? 0)%nat at 1.
  rewrite survives_all_stops, !Nat.add_0_r. reflexivity.
Qed.

(** [run] returns, and keeps the books, whatever the environment does. *)
Lemma run_books (ts : list string) (nm g : string) (settings : ModelSettings)
    (ss : option Session) (id : string) (fuel : nat) :
  List.length ts < fuel ->
  exists out w',
    run_from consts env ts fuel (new_world (new_agent nm g settings ss id))
      = Some (out, w') /\
    (completedTasks (self w') ++ tasks (self w'))%list = ts /\
    executed_tasks (log w') = completedTasks (self w') /\
    (Z.of_nat (List.length (completedTasks (self w')))
     <= Z.max 0 (maxLoops consts (new_agent nm g settings ss id)))%Z /\
    match out with
    | Returned _ => runningTasks (self w') = completedTasks (self w')
    | Thrown _ =>
        exists t, completedTasks (self w') = (runningTasks (self w') ++ [t])%list
    end /\
    (numLoops (self w') = Z.of_nat (List.length (completedTasks (self w'))) \/
     (numLoops (self w') = Z.of_nat (List.length (completedTasks (self w'))) + 1 /\
      maxLoops consts (new_agent nm g settings ss id) < numLoops (self w') /\
      tasks (self w') <> [] /\ out = Returned tt))%Z.
Proof.
  intros Hfuel. rewrite run_from_entry.
  destruct (loop_advances fuel
              (entry_world env ts (new_world (new_agent nm g settings ss id))))
    as (out & w' & Hl & _).
  { rewrite entry_fresh. exact Hfuel. }
  exists out, w'. split; [exact Hl|].
  apply (loop_books ts (maxLoops consts (new_agent nm g settings ss id))
           fuel _ out w' Hl).
  rewrite entry_fresh.
  cbn [self log set_isRunning set_tasks new_agent completedTasks tasks
       runningTasks numLoops].
  rewrite executed_tasks_app, executed_tasks_announce_log.
  repeat split; try reflexivity. cbn. lia.
Qed.

(** ** The action messages *)

Lemma actions_stopped_log (b : bool) (n : nat) : actions (stopped_log b n) = [].
Proof.
  destruct n as [|n]; [reflexivity|]. unfold stopped_log.
  rewrite actions_app, actions_repeat_shutdown. now destruct b.
Qed.

Lemma actions_failure_events (a : AutonomousAgent) (b : bool)
    (o : Outcome string) :
  actions (failure_events a b o) = [].
Proof.
  unfold failure_events. destruct o as [r|e]; [reflexivity|].
  destruct (shouldRunClientSide a); [reflexivity|].
  destruct (b && _); reflexivity.
Qed.

Lemma actions_announce_log (ts : list string) :
  forall (k : nat) (b : bool), actions (announce_log env k b ts) = [].
Proof.
  induction ts as [|t rest IH]; intros k b; [reflexivity|].
  cbn [announce_log]. rewrite !actions_app, actions_stopped_log, IH.
  destruct (survives env k b); reflexivity.
Qed.

(** The action message of a tick is delivered when the object is still alive
    as the execution returns. *)
Lemma actions_tick_log (a : AutonomousAgent) (k : nat) (t : string) :
  actions (tick_log env a k t) =
  match execution_answer env (modelSettings a) (goal a) (S k) t with
  | Returned r =>
      if survives env (S k) (survives env k true)
      then [executionMessage t r] else []
  | Thrown _ => []
  end.
Proof.
  unfold tick_log.
  rewrite !actions_app, !actions_stopped_log, actions_execution_event,
    actions_failure_events.
  destruct (execution_answer env _ _ _ _) as [r|e].
  - rewrite actions_app, actions_stopped_log, app_nil_r.
    destruct (survives env k true); cbn [app];
      destruct (survives env (S k) _); reflexivity.
  - destruct (survives env k true); reflexivity.
Qed.

(** The action messages delivered are those of the first tasks reported, and
    of all of them while the object is alive. *)
Lemma loop_actions (fuel : nat) (w : World) (out : Outcome unit) (w' : World) :
  loop consts env fuel w = Some (out, w') ->
  (exists n,
     n <= List.length (runningTasks (self w)) /\
     map info (actions (log w)) = map label (firstn n (runningTasks (self w))) /\
     (isRunning (self w) = true -> n = List.length (runningTasks (self w)))) ->
  exists n,
    n <= List.length (runningTasks (self w')) /\
    map info (actions (log w')) = map label (firstn n (runningTasks (self w'))).
Proof.
  apply (loop_invariant
           (fun w =>
              exists n,
                n <= List.length (runningTasks (self w)) /\
                map info (actions (log w))
                  = map label (firstn n (runningTasks (self w))) /\
                (isRunning (self w) = true ->
                 n = List.length (runningTasks (self w))))
           (fun _ w' =>
              exists n,
                n <= List.length (runningTasks (self w')) /\
                map info (actions (log w'))
                  = map label (firstn n (runningTasks (self w'))))).
  - intros w0 _ (n & Hn & Ha & _). now exists n.
  - intros w0 _ _ (n & Hn & Ha & _). exists n. cbn [self log].
    now rewrite actions_app, actions_notice, app_nil_r.
  - intros w0 t rest _ _ _ (n & Hn & Ha & _). exists n.
    cbn [self log set_numLoops runningTasks].
    now rewrite actions_app, actions_notice, app_nil_r.
  - intros w0 t rest e _ _ _ He (n & Hn & Ha & _). exists n.
    cbn [self log tick_self runningTasks].
    now rewrite actions_app, actions_tick_log, He, app_nil_r.
  - intros w0 t rest r Hrun _ _ He (n & Hn & Ha & Hall).
    specialize (Hall Hrun). subst n.
    cbn [self log tick_self runningTasks isRunning].
    rewrite actions_app, actions_tick_log, He, map_app, Ha, firstn_all.
    destruct (survives env (S (now w0)) (survives env (now w0) true)) eqn:E1.
    + exists (S (List.length (runningTasks (self w0)))).
      rewrite length_app. cbn [List.length]. split; [lia|]. split.
      * replace (S (List.length (runningTasks (self w0))))
          with (List.length (runningTasks (self w0) ++ [t])%list)
          by (rewrite length_app; cbn; lia).
        rewrite firstn_all, map_app. reflexivity.
      * intros _. lia.
    + exists (List.length (runningTasks (self w0))).
      rewrite length_app. cbn [List.length map]. split; [lia|]. split.
      * rewrite firstn_app, Nat.sub_diag, firstn_all. cbn [firstn].
        now rewrite !app_nil_r.
      * unfold survives at 1. cbn [andb]. discriminate.
Qed.

(** ** The calls of the shutdown hook, and the flag *)

Lemma count_shutdown_repeat (b : bool) (n : nat) :
  count_shutdown (repeat (ShutdownCalled b) n) = n.
Proof.
  induction n as [|n IH]; [reflexivity|].
  unfold count_shutdown in *. cbn. now rewrite IH.
Qed.

(** Every call of [stopAgent] calls the hook once. *)
Lemma count_shutdown_stopped_log (b : bool) (n : nat) :
  count_shutdown (stopped_log b n) = n.
Proof.
  destruct n as [|n]; [reflexivity|]. unfold stopped_log.
  rewrite count_shutdown_app, count_shutdown_repeat. now destruct b.
Qed.

Lemma count_shutdown_failure_events (a : AutonomousAgent) (b : bool)
    (o : Outcome string) :
  count_shutdown (failure_events a b o) =
  match o with
  | Returned _ => 0
  | Thrown _ => if shouldRunClientSide a then 0 else 1
  end.
Proof.
  unfold failure_events. destruct o as [r|e]; [reflexivity|].
  destruct (shouldRunClientSide a); [reflexivity|].
  destruct (b && _); reflexivity.
Qed.

Lemma count_shutdown_announce_log (ts : list string) :
  forall (k : nat) (b : bool),
    stops_before env k + count_shutdown (announce_log env k b ts)
    = stops_before env (List.length ts + k).
Proof.
  induction ts as [|t rest IH]; intros k b.
  - cbn. lia.
  - cbn [announce_log List.length].
    rewrite !count_shutdown_app, count_shutdown_stopped_log.
    replace (S (List.length rest) + k) with (List.length rest + S k) by lia.
    rewrite <- (IH (S k) (survives env k b)). cbn [stops_before].
    destruct (survives env k b); cbn; lia.
Qed.

Lemma count_shutdown_tick_log (a : AutonomousAgent) (k : nat) (t : string) :
  stops_before env k + count_shutdown (tick_log env a k t) =
  match execution_answer env (modelSettings a) (goal a) (S k) t with
  | Returned _ => stops_before env (S (S (S k)))
  | Thrown _ =>
      stops_before env (S (S k)) + (if shouldRunClientSide a then 0 else 1)
  end.
Proof.
  unfold tick_log.
  rewrite !count_shutdown_app, !count_shutdown_stopped_log,
    count_shutdown_failure_events.
  cbn [stops_before].
  destruct (execution_answer env _ _ _ _) as [r|e].
  - rewrite count_shutdown_app, count_shutdown_stopped_log.
    destruct (survives env k true); destruct (survives env (S k) _);
      unfold execution_event; destruct (truthy_string _); cbn; lia.
  - destruct (survives env k true);
      unfold execution_event, shouldRunClientSide;
      destruct (truthy_string _); cbn; lia.
Qed.

(** The hook is called once for every call of [stopAgent], and once more by
    the run itself when it ends on the completion, on the cap or on a failure
    of the remote call; the flag is set exactly while no call of [stopAgent]
    has arrived. *)
Lemma loop_shutdowns (fuel : nat) (w : World) (out : Outcome unit) (w' : World) :
  loop consts env fuel w = Some (out, w') ->
  (count_shutdown (log w) = stops_before env (now w) /\
   isRunning (self w) = (stops_before env (now w) =? 0)%nat) ->
  count_shutdown (log w') = stops_before env (now w') + own_shutdown out w' /\
  isRunning (self w') = (stops_before env (now w') =? 0)%nat.
Proof.
  apply (loop_invariant
           (fun w =>
              count_shutdown (log w) = stops_before env (now w) /\
              isRunning (self w) = (stops_before env (now w) =? 0)%nat)
           (fun out w' =>
              count_shutdown (log w')
                = stops_before env (now w') + own_shutdown out w' /\
              isRunning (self w') = (stops_before env (now w') =? 0)%nat)).
  - intros w0 Hrun [Hc Hf]. unfold own_shutdown. rewrite Hrun. split; [lia | congruence].
  - intros w0 Hrun _ [Hc Hf]. unfold own_shutdown. cbn [self log now].
    rewrite Hrun, count_shutdown_app, Hc. split; [reflexivity | congruence].
  - intros w0 t rest Hrun _ _ [Hc Hf]. unfold own_shutdown.
    cbn [self log now set_numLoops isRunning].
    rewrite Hrun, count_shutdown_app, Hc. split; [reflexivity | congruence].
  - intros w0 t rest e Hrun _ _ He [Hc Hf].
    unfold own_shutdown, shouldRunClientSide.
    cbn [self log now tick_self isRunning modelSettings].
    rewrite count_shutdown_app, Hc, count_shutdown_tick_log, He.
    split; [reflexivity|].
    rewrite Hrun in Hf. rewrite Hf at 1. now rewrite !survives_stops.
  - intros w0 t rest r Hrun _ _ He [Hc Hf].
    cbn [self log now tick_self isRunning].
    rewrite count_shutdown_app, Hc, count_shutdown_tick_log, He.
    split; [reflexivity|].
    rewrite Hrun in Hf. rewrite Hf at 1. now rewrite !survives_stops.
Qed.

(** ** The system messages *)

Lemma system_messages_app (l1 l2 : list Event) :
  system_messages (l1 ++ l2) = (system_messages l1 ++ system_messages l2)%list.
Proof. unfold system_messages. now rewrite rendered_app, filter_app. Qed.

Lemma only_notices_app (s : ModelSettings) (l1 l2 : list Event) :
  only_notices s l1 -> only_notices s l2 -> only_notices s (l1 ++ l2).
Proof.
  unfold only_notices. intros H1 H2. rewrite system_messages_app.
  apply Forall_app. now split.
Qed.

Lemma only_notices_nil (s : ModelSettings) : only_notices s [].
Proof. constructor. Qed.

Lemma only_notices_system (s : ModelSettings) (text : string) :
  In text (notices s) -> only_notices s [Rendered (systemMessage text)].
Proof.
  intros H. unfold only_notices.
  change (system_messages [Rendered (systemMessage text)])
    with [systemMessage text].
  constructor; [exact H | constructor].
Qed.

Lemma only_notices_silent (s : ModelSettings) (l : list Event) :
  system_messages l = [] -> only_notices s l.
Proof. intros H. unfold only_notices. rewrite H. constructor. Qed.

Lemma in_notices_completed (s : ModelSettings) : In COMPLETED_TEXT (notices s).
Proof. left. reflexivity. Qed.

Lemma in_notices_loop (s : ModelSettings) : In (loopMessageText s) (notices s).
Proof. right. left. reflexivity. Qed.

Lemma in_notices_manual (s : ModelSettings) :
  In MANUAL_SHUTDOWN_TEXT (notices s).
Proof. right. right. left. reflexivity. Qed.

Lemma in_notices_rate_limit (s : ModelSettings) : In RATE_LIMIT_TEXT (notices s).
Proof. right. right. right. left. reflexivity. Qed.

Lemma system_messages_repeat_shutdown (b : bool) (n : nat) :
  system_messages (repeat (ShutdownCalled b) n) = [].
Proof. unfold system_messages. now rewrite rendered_repeat_shutdown. Qed.

Lemma only_notices_stopped_log (s : ModelSettings) (b : bool) (n : nat) :
  only_notices s (stopped_log b n).
Proof.
  destruct n as [|n]; [constructor|]. unfold stopped_log.
  apply only_notices_app.
  - destruct b; [|constructor].
    apply only_notices_system, in_notices_manual.
  - apply only_notices_silent, system_messages_repeat_shutdown.
Qed.

Lemma only_notices_failure_events (s : ModelSettings) (a : AutonomousAgent)
    (b : bool) (o : Outcome string) :
  only_notices s (failure_events a b o).
Proof.
  unfold failure_events. destruct o as [r|e]; [constructor|].
  destruct (shouldRunClientSide a); [constructor|].
  apply (only_notices_app s [ShutdownCalled b]); [now apply only_notices_silent|].
  destruct (b && _); [|constructor].
  apply only_notices_system, in_notices_rate_limit.
Qed.

Lemma only_notices_tick_log (s : ModelSettings) (a : AutonomousAgent) (k : nat)
    (t : string) :
  only_notices s (tick_log env a k t).
Proof.
  unfold tick_log. repeat apply only_notices_app;
    try apply only_notices_stopped_log; try apply only_notices_failure_events.
  - apply only_notices_silent. now destruct (survives env k true).
  - apply only_notices_silent. unfold execution_event.
    now destruct (truthy_string _).
  - destruct (execution_answer env _ _ _ _) as [r|e]; [|constructor].
    apply only_notices_app; [|apply only_notices_stopped_log].
    apply only_notices_silent. now destruct (survives env (S k) _).
Qed.

Lemma only_notices_announce_log (s : ModelSettings) (ts : list string) :
  forall (k : nat) (b : bool), only_notices s (announce_log env k b ts).
Proof.
  induction ts as [|t rest IH]; intros k b; [constructor|].
  cbn [announce_log]. repeat apply only_notices_app;
    [apply only_notices_stopped_log | | apply IH].
  apply only_notices_silent. now destruct (survives env k b).
Qed.

(** [loop] sends no system message but its notices. *)
Lemma loop_notices (s : ModelSettings) (fuel : nat) (w : World)
    (out : Outcome unit) (w' : World) :
  loop consts env fuel w = Some (out, w') ->
  (modelSettings (self w) = s /\ only_notices s (log w)) ->
  only_notices s (log w').
Proof.
  apply (loop_invariant
           (fun w => modelSettings (self w) = s /\ only_notices s (log w))
           (fun _ w' => only_notices s (log w'))).
  - intros w0 _ [_ H]. exact H.
  - intros w0 _ _ [_ H]. cbn [log]. apply only_notices_app; [exact H|].
    apply (only_notices_app s [Rendered (systemMessage COMPLETED_TEXT)]);
      [apply only_notices_system, in_notices_completed
      | now apply only_notices_silent].
  - intros w0 t rest _ _ _ [Hs H]. cbn [log]. apply only_notices_app; [exact H|].
    rewrite Hs.
    apply (only_notices_app s [Rendered (systemMessage (loopMessageText s))]);
      [apply only_notices_system, in_notices_loop
      | now apply only_notices_silent].
  - intros w0 t rest e _ _ _ _ [_ H]. cbn [log].
    apply only_notices_app; [exact H | apply only_notices_tick_log].
  - intros w0 t rest r _ _ _ _ [Hs H]. cbn [self log tick_self modelSettings].
    split; [exact Hs|].
    apply only_notices_app; [exact H | apply only_notices_tick_log].
Qed.

(** The texts of [getMessageFromError] are not among the notices. *)
Lemma getMessageFromError_not_notice (s : ModelSettings) (e : JsError) :
  ~ In (getMessageFromError e) (notices s).
Proof.
  unfold notices, loopMessageText, getMessageFromError.
  destruct (isAxiosError e), (status_is e 429), (status_is e 404),
    (truthy_string (customApiKey s)); cbn [In];
    intros [H|[H|[H|[H|[]]]]]; discriminate H.
Qed.

(** ** The task window of the page *)








(** ** Every run, whatever the environment does *)

Lemma loop_settings (fuel : nat) (w : World) (out : Outcome unit) (w' : World) :
  loop consts env fuel w = Some (out, w') ->
  modelSettings (self w') = modelSettings (self w).
Proof.
  intros Hl.
  apply (loop_invariant
           (fun w0 => modelSettings (self w0) = modelSettings (self w))
           (fun _ w0 => modelSettings (self w0) = modelSettings (self w))
           ) with (fuel := fuel) (w := w) (out := out);
    try exact Hl; try reflexivity; auto.
Qed.

(** [run] returns when it has more fuel than there are tasks. *)
Lemma run_returns (ts : list string) (nm g : string) (settings : ModelSettings)
    (ss : option Session) (id : string) (fuel : nat) :
  List.length ts < fuel ->
  exists out w',
    run_from consts env ts fuel (new_world (new_agent nm g settings ss id))
      = Some (out, w') /\
    loop consts env fuel
      {| self := set_isRunning (stops_before env (List.length ts) =? 0)%nat
                   (set_tasks ts (new_agent nm g settings ss id));
         log := [Rendered (goalMessage g); Rendered thinkingMessage]
                ++ announce_log env 0 true ts;
         now := List.length ts |}
      = Some (out, w').
Proof.
  intros Hfuel. rewrite run_from_entry, entry_fresh.
  match goal with
  | |- exists out w', loop _ _ _ ?w0 = _ /\ _ =>
      destruct (loop_advances fuel w0) as (out & w' & Hl & _); [exact Hfuel|]
  end.
  now exists out, w'.
Qed.

Lemma firstn_prefix {A : Type} (p q : list A) (n : nat) :
  n <= List.length p -> firstn n (p ++ q) = firstn n p.
Proof.
  intros Hn. rewrite firstn_app.
  replace (n - List.length p) with 0 by lia. cbn [firstn]. apply app_nil_r.
Qed.

Lemma executed_tasks_length (l : list Event) :
  List.length (executed_tasks l) = List.length (executions l).
Proof.
  induction l as [|e l IH]; [reflexivity|].
  destruct e; cbn; auto.
Qed.

(** X1.  Whatever the environment does (calls of [stopAgent] at any
    suspension point, failures of the capability), [run] returns, and then
    [completedTasks] followed by the queue is the decomposed list: no task is
    lost, repeated or reordered, and [completedTasks] is a prefix of the
    list. *)
Theorem queue_is_conserved (ts : list string) (nm g : string)
    (settings : ModelSettings) (ss : option Session) (id : string)
    (fuel : nat) :
  List.length ts < fuel ->
  exists out w',
    run_from consts env ts fuel (new_world (new_agent nm g settings ss id))
      = Some (out, w') /\
    (completedTasks (self w') ++ tasks (self w'))%list = ts /\
    completedTasks (self w')
      = firstn (List.length (completedTasks (self w'))) ts /\
    tasks (self w') = skipn (List.length (completedTasks (self w'))) ts.
Proof.
  intros Hfuel.
  destruct (run_books ts nm g settings ss id fuel Hfuel)
    as (out & w' & Hrun & Hq & _).
  exists out, w'. split; [exact Hrun|]. split; [exact Hq|].
  rewrite <- Hq. split.
  - now rewrite firstn_app, Nat.sub_diag, firstn_all, app_nil_r.
  - now rewrite skipn_app, Nat.sub_diag, skipn_all.
Qed.

(** X2.  Whatever the environment does, the execution capability has been
    called, by the end of [run], exactly once for each task of
    [completedTasks], in that order, and for nothing else; and the number of
    these calls never exceeds the cap (none is made under a cap below 1). *)
Theorem executions_match_completedTasks (ts : list string) (nm g : string)
    (settings : ModelSettings) (ss : option Session) (id : string)
    (fuel : nat) :
  List.length ts < fuel ->
  exists out w',
    run_from consts env ts fuel (new_world (new_agent nm g settings ss id))
      = Some (out, w') /\
    executed_tasks (log w') = completedTasks (self w') /\
    (Z.of_nat (List.length (executions (log w')))
     <= Z.max 0 (maxLoops consts (new_agent nm g settings ss id)))%Z.
Proof.
  intros Hfuel.
  destruct (run_books ts nm g settings ss id fuel Hfuel)
    as (out & w' & Hrun & _ & He & Hb & _).
  exists out, w'. split; [exact Hrun|]. split; [exact He|].
  now rewrite <- executed_tasks_length, He.
Qed.

(** X3.  Whatever the environment does: when [run] returns normally,
    [runningTasks] equals [completedTasks]; when it ends by throwing the
    failure of an execution, [completedTasks] is [runningTasks] followed by
    the task whose execution failed, the last one the capability was called
    for. *)
Theorem runningTasks_trail_completedTasks (ts : list string) (nm g : string)
    (settings : ModelSettings) (ss : option Session) (id : string)
    (fuel : nat) :
  List.length ts < fuel ->
  exists out w',
    run_from consts env ts fuel (new_world (new_agent nm g settings ss id))
      = Some (out, w') /\
    match out with
    | Returned _ => runningTasks (self w') = completedTasks (self w')
    | Thrown _ =>
        exists t,
          completedTasks (self w') = (runningTasks (self w') ++ [t])%list /\
          executed_tasks (log w') = (runningTasks (self w') ++ [t])%list
    end.
Proof.
  intros Hfuel.
  destruct (run_books ts nm g settings ss id fuel Hfuel)
    as (out & w' & Hrun & _ & He & _ & Hr & _).
  exists out, w'. split; [exact Hrun|].
  destruct out as [u|e]; [exact Hr|].
  destruct Hr as [t Ht]. exists t. split; [exact Ht | now rewrite He].
Qed.

(** X4.  Whatever the environment does, at the end of [run] the counter
    [numLoops] is the number of executions started, or one more; it is one
    more exactly in the way of ending on the cap: the run returned normally
    with tasks left and the counter above the cap. *)
Theorem numLoops_counts_executions (ts : list string) (nm g : string)
    (settings : ModelSettings) (ss : option Session) (id : string)
    (fuel : nat) :
  List.length ts < fuel ->
  exists out w',
    run_from consts env ts fuel (new_world (new_agent nm g settings ss id))
      = Some (out, w') /\
    (numLoops (self w') = Z.of_nat (List.length (executions (log w'))) \/
     (numLoops (self w') = Z.of_nat (List.length (executions (log w'))) + 1 /\
      maxLoops consts (new_agent nm g settings ss id) < numLoops (self w') /\
      tasks (self w') <> [] /\ out = Returned tt))%Z.
Proof.
  intros Hfuel.
  destruct (run_books ts nm g settings ss id fuel Hfuel)
    as (out & w' & Hrun & _ & He & _ & _ & Hn).
  exists out, w'. split; [exact Hrun|].
  now rewrite <- executed_tasks_length, He.
Qed.

(** X5.  Whatever the environment does, the action messages the sink has
    received by the end of [run] are those of the first [n] tasks of the
    decomposed list, in the order of the list, for some [n] that is at most
    the number of tasks reported in [runningTasks]. *)
Theorem actions_follow_task_order (ts : list string) (nm g : string)
    (settings : ModelSettings) (ss : option Session) (id : string)
    (fuel : nat) :
  List.length ts < fuel ->
  exists out w' n,
    run_from consts env ts fuel (new_world (new_agent nm g settings ss id))
      = Some (out, w') /\
    n <= List.length (runningTasks (self w')) /\
    map info (actions (log w')) = map label (firstn n ts).
Proof.
  intros Hfuel.
  destruct (run_returns ts nm g settings ss id fuel Hfuel)
    as (out & w' & Hrun & Hl).
  destruct (loop_actions fuel _ out w' Hl) as (n & Hn & Ha).
  { exists 0. cbn [self log set_isRunning set_tasks new_agent runningTasks
                   List.length firstn map].
    rewrite actions_app, actions_announce_log. repeat split; auto. }
  destruct (loop_books ts (maxLoops consts (new_agent nm g settings ss id))
              fuel _ out w' Hl) as (Hq & _ & _ & Hr & _).
  { cbn [self log set_isRunning set_tasks new_agent completedTasks tasks
         runningTasks numLoops].
    rewrite executed_tasks_app, executed_tasks_announce_log.
    repeat split; try reflexivity. cbn. lia. }
  exists out, w', n. split; [exact Hrun|]. split; [exact Hn|].
  rewrite Ha. f_equal. rewrite <- Hq.
  destruct out as [u|e].
  - rewrite <- Hr. symmetry. now apply firstn_prefix.
  - destruct Hr as [t ->]. rewrite <- app_assoc. symmetry. now apply firstn_prefix.
Qed.

(** X6.  Whatever the environment does, by the end of [run] the shutdown
    hook has been called once for every call of [stopAgent] that arrived,
    and at most once more, by the run itself: once more when the run ends on
    the completion or on the cap (it returns with the flag still set) or on a
    failure of the remote call; not when it returns because it was stopped,
    nor when it throws the failure of an execution in process (custom key). *)
Theorem shutdown_accounting (ts : list string) (nm g : string)
    (settings : ModelSettings) (ss : option Session) (id : string)
    (fuel : nat) :
  List.length ts < fuel ->
  exists out w',
    run_from consts env ts fuel (new_world (new_agent nm g settings ss id))
      = Some (out, w') /\
    count_shutdown (log w') =
      stops_before env (now w')
      + match out with
        | Returned _ => if isRunning (self w') then 1 else 0
        | Thrown _ => if truthy_string (customApiKey settings) then 0 else 1
        end.
Proof.
  intros Hfuel.
  destruct (run_returns ts nm g settings ss id fuel Hfuel)
    as (out & w' & Hrun & Hl).
  exists out, w'. split; [exact Hrun|].
  destruct (loop_shutdowns fuel _ out w' Hl) as [Hc _].
  { cbn [self log now set_isRunning isRunning].
    pose proof (count_shutdown_announce_log ts 0 true) as Hc.
    rewrite Nat.add_0_r in Hc. cbn [stops_before] in Hc.
    rewrite count_shutdown_app, <- Hc. split; reflexivity. }
  rewrite Hc. f_equal. unfold own_shutdown, shouldRunClientSide.
  now rewrite (loop_settings fuel _ out w' Hl).
Qed.

(** X7.  The flag [isRunning] is cleared by [stopAgent] only: whatever the
    environment does, at the end of [run] it is set exactly when no call of
    [stopAgent] arrived at any suspension point the run went through.  In
    particular it is still set after the completion, the cap or a failure. *)
Theorem isRunning_iff_never_stopped (ts : list string) (nm g : string)
    (settings : ModelSettings) (ss : option Session) (id : string)
    (fuel : nat) :
  List.length ts < fuel ->
  exists out w',
    run_from consts env ts fuel (new_world (new_agent nm g settings ss id))
      = Some (out, w') /\
    isRunning (self w') = (stops_before env (now w') =? 0)%nat /\
    (undisturbed_from env 0 -> isRunning (self w') = true).
Proof.
  intros Hfuel.
  destruct (run_returns ts nm g settings ss id fuel Hfuel)
    as (out & w' & Hrun & Hl).
  exists out, w'. split; [exact Hrun|].
  destruct (loop_shutdowns fuel _ out w' Hl) as [_ Hf].
  { cbn [self log now set_isRunning isRunning].
    pose proof (count_shutdown_announce_log ts 0 true) as Hc.
    rewrite Nat.add_0_r in Hc. cbn [stops_before] in Hc.
    rewrite count_shutdown_app, <- Hc. split; reflexivity. }
  split; [exact Hf|]. intros Hq. rewrite Hf.
  assert (H0 : forall n, stops_before env n = 0).
  { induction n as [|n IH]; [reflexivity|]. cbn [stops_before].
    rewrite IH, Hq by lia. reflexivity. }
  now rewrite H0.
Qed.


(** X10.  With a custom key the execution runs in process and has no failure
    handler: when it fails (nobody calling [stopAgent], a task to execute and
    a cap of at least 1), [run] ends by throwing the failure without calling
    the shutdown hook and without any system message; the flag stays set. *)
Theorem local_failure_skips_shutdown (ts : list string) (nm g : string)
    (settings : ModelSettings) (ss : option Session) (id : string)
    (fuel : nat) (e : JsError) :
  truthy_string (customApiKey settings) = true ->
  (forall s g' t, executeTaskAgent env (S (List.length ts)) s g' t = Thrown e) ->
  undisturbed_from env 0 ->
  ts <> [] ->
  (1 <= maxLoops consts (new_agent nm g settings ss id))%Z ->
  1 <= fuel ->
  exists w',
    run_from consts env ts fuel (new_world (new_agent nm g settings ss id))
      = Some (Thrown e, w') /\
    log w' =
      ([Rendered (goalMessage g); Rendered thinkingMessage]
       ++ map (fun t => Rendered (taskMessage t)) ts
       ++ [Rendered thinkingMessage;
           ExecuteTaskAgentCalled settings g (hd EmptyString ts)])%list /\
    count_shutdown (log w') = 0 /\
    system_messages (log w') = [] /\
    isRunning (self w') = true.
Proof.
  intros Hkey Hfail Hq Hne Hcap Hfuel.
  destruct ts as [|t rest]; [contradiction|].
  destruct fuel as [|fuel]; [lia|].
  set (a0 := new_agent nm g settings ss id) in *.
  unfold run_from, sendGoalMessage, sendThinkingMessage.
  rewrite !sendMessage_alive by reflexivity.
  rewrite run_try_undisturbed by (try reflexivity; intros j _; apply Hq; lia).
  rewrite loop_tick; [| reflexivity | discriminate | ].
  2:{ cbn [self emit new_world]. rewrite (maxLoops_frame _ a0) by reflexivity.
      cbn. lia. }
  rewrite suspend_quiet by (apply Hq; lia).
  unfold dispatch, shift, with_self, tick_clock, emit, first_task,
    set_completedTasks, set_numLoops, set_tasks, new_world.
  cbn [self log now tasks a0 new_agent name goal completedTasks runningTasks
       modelSettings isRunning numLoops session _id].
  unfold sendThinkingMessage. rewrite sendMessage_alive by reflexivity.
  unfold executeTask, shouldRunClientSide, emit.
  cbn [self log now modelSettings goal as_string]. rewrite Hkey.
  rewrite suspend_quiet by (apply Hq; lia).
  cbn [List.length] in Hfail. rewrite Nat.add_0_r, Hfail.
  unfold tick_clock. cbn [self log now isRunning].
  eexists. split; [reflexivity|]. cbn [self log hd isRunning].
  split; [now rewrite <- !app_assoc|].
  split; [rewrite !count_shutdown_app, count_shutdown_tasks; reflexivity|].
  split; [|reflexivity].
  unfold system_messages.
  rewrite !rendered_app, rendered_tasks, !filter_app, !filter_task_messages
    by reflexivity.
  reflexivity.
Qed.

Lemma rendered_announce_dead (ts : list string) :
  forall k : nat,
    rendered (announce_log env k false ts) = [] /\
    executions (announce_log env k false ts) = [].
Proof.
  induction ts as [|t rest IH]; intros k; [split; reflexivity|].
  cbn [announce_log survives andb app].
  destruct (IH (S k)) as [Hr He].
  rewrite rendered_app, executions_app, Hr, He.
  destruct (stop_requests env k) as [|n]; [split; reflexivity|].
  unfold stopped_log. cbn [app].
  now rewrite rendered_repeat_shutdown, executions_repeat_shutdown.
Qed.

(** X11.  [run] on an object that [stopAgent] has already stopped stores
    the task list, still waits the pacing delay of every announcement (a call
    of [stopAgent] that arrives meanwhile still calls the shutdown hook), and
    then returns from the first test of [loop]: nothing is handed to the sink,
    no execution is started, no task is completed. *)
Theorem run_on_stopped_object (ts : list string) (fuel : nat) (w : World) :
  isRunning (self w) = false ->
  exists w',
    run_from consts env ts (S fuel) w = Some (Returned tt, w') /\
    rendered (log w') = rendered (log w) /\
    executions (log w') = executions (log w) /\
    tasks (self w') = ts /\
    completedTasks (self w') = completedTasks (self w) /\
    isRunning (self w') = false /\
    now w' = List.length ts + now w /\
    stops_before env (now w) + count_shutdown (log w')
      = count_shutdown (log w) + stops_before env (List.length ts + now w).
Proof.
  intros Hdead. rewrite run_from_entry, entry_world_eq, Hdead.
  rewrite survives_all_dead. cbn [app].
  rewrite loop_dead by reflexivity.
  eexists. split; [reflexivity|]. cbn [self log now].
  destruct (rendered_announce_dead ts (now w)) as [Hr He].
  rewrite rendered_app, executions_app, Hr, He, !app_nil_r.
  rewrite count_shutdown_app.
  pose proof (count_shutdown_announce_log ts (now w) false) as Hc.
  repeat split. lia.
Qed.

(** X12.  [post], when a call of [stopAgent] arrives while the request is in
    flight and the request then fails, with status 429 or not: the notice of
    the manual shutdown is the only message delivered (the rate-limit notice
    is dropped), and the shutdown hook is called by every call of [stopAgent]
    and once more by the failure handler. *)
Theorem stop_in_flight_drops_rate_limit (url : string) (data : RequestBody)
    (e : JsError) (w : World) :
  isRunning (self w) = true ->
  1 <= stop_requests env (now w) ->
  axios_post env (now w) url data = Thrown e ->
  exists w',
    post env url data w = (Thrown e, w') /\
    rendered (log w')
      = (rendered (log w) ++ [systemMessage MANUAL_SHUTDOWN_TEXT])%list /\
    count_shutdown (log w')
      = count_shutdown (log w) + stop_requests env (now w) + 1 /\
    isRunning (self w') = false.
Proof.
  intros Hrun Hstop Hfail. unfold post. rewrite Hfail.
  rewrite suspend_world. unfold emit. cbn [self log now].
  unfold survives. rewrite Hrun.
  destruct (stop_requests env (now w)) as [|n] eqn:En; [lia|].
  cbn [andb Nat.eqb]. unfold shutdown, sendErrorMessage.
  rewrite !sendMessage_dead by reflexivity.
  destruct (isAxiosError e && status_is e 429);
    (eexists; split; [reflexivity|]);
    unfold emit; cbn [self log now set_isRunning isRunning];
    rewrite !rendered_app, !count_shutdown_app, count_shutdown_stopped_log;
    unfold stopped_log; rewrite rendered_app, rendered_repeat_shutdown;
    cbn; rewrite ?app_nil_r; repeat split; lia.
Qed.

(** ** The decomposition, and a sink that may throw *)

Lemma sink_sendMessage_quiet (sink : list Event -> Message -> option JsError)
    (m : Message) (w : World) :
  quiet_sink sink ->
  Sink.sendMessage sink m w = (Returned tt, sendMessage m w).
Proof.
  intros Hq. unfold Sink.sendMessage, sendMessage.
  destruct (isRunning (self w)); [now rewrite Hq | reflexivity].
Qed.

Lemma sink_stopAgent_quiet (sink : list Event -> Message -> option JsError)
    (w : World) :
  quiet_sink sink -> Sink.stopAgent sink w = stopAgent w.
Proof.
  intros Hq. unfold Sink.stopAgent. now rewrite sink_sendMessage_quiet.
Qed.

Lemma iter_ext {A : Type} (f g : A -> A) :
  (forall x, f x = g x) ->
  forall (n : nat) (x : A), Nat.iter n f x = Nat.iter n g x.
Proof.
  intros H n x. induction n as [|n IH]; [reflexivity|].
  change (f (Nat.iter n f x) = g (Nat.iter n g x)). now rewrite IH, H.
Qed.

Lemma sink_suspend_quiet (sink : list Event -> Message -> option JsError)
    (w : World) :
  quiet_sink sink -> Sink.suspend env sink w = suspend env w.
Proof.
  intros Hq. unfold Sink.suspend, suspend. f_equal.
  apply iter_ext. intros x. now apply sink_stopAgent_quiet.
Qed.

Lemma sink_announce_quiet (sink : list Event -> Message -> option JsError)
    (ts : list string) :
  quiet_sink sink ->
  forall w : World,
    Sink.announce env sink ts w =
    (Returned tt,
     fold_left (fun w task => sendTaskMessage task (suspend env w)) ts w).
Proof.
  intros Hq. induction ts as [|t rest IH]; intros w; [reflexivity|].
  cbn [Sink.announce fold_left].
  rewrite sink_suspend_quiet, sink_sendMessage_quiet by exact Hq.
  now rewrite IH.
Qed.

(** With a sink that does not throw, [run] gets to [loop] as described by the
    methods above. *)
Lemma sink_run_until_loop_quiet
    (sink : list Event -> Message -> option JsError) (ts : list string)
    (w : World) :
  quiet_sink sink ->
  Sink.run_try env sink ts w = run_try env ts w /\
  Sink.run_until_loop env sink ts w = Sink.EntersLoop (entry_world env ts w).
Proof.
  intros Hq. split.
  - unfold Sink.run_try, run_try. now rewrite sink_announce_quiet.
  - unfold Sink.run_until_loop, Sink.run_try, entry_world, run_try,
      sendThinkingMessage, sendGoalMessage.
    rewrite !sink_sendMessage_quiet by exact Hq.
    now rewrite sink_announce_quiet.
Qed.

(** The queue is not touched by the announcements. *)
Lemma sink_stopAgent_tasks (sink : list Event -> Message -> option JsError)
    (w : World) :
  tasks (self (Sink.stopAgent sink w)) = tasks (self w).
Proof.
  unfold Sink.stopAgent, Sink.sendMessage.
  destruct (isRunning (self w)); [destruct (sink (log w) _)|]; reflexivity.
Qed.

Lemma sink_suspend_tasks (sink : list Event -> Message -> option JsError)
    (w : World) :
  tasks (self (Sink.suspend env sink w)) = tasks (self w).
Proof.
  unfold Sink.suspend. cbn [tick_clock self].
  induction (stop_requests env (now w)) as [|n IH]; [reflexivity|].
  change (Nat.iter (S n) (Sink.stopAgent sink) w)
    with (Sink.stopAgent sink (Nat.iter n (Sink.stopAgent sink) w)).
  now rewrite sink_stopAgent_tasks.
Qed.

Lemma sink_sendMessage_self (sink : list Event -> Message -> option JsError)
    (m : Message) (w : World) :
  self (snd (Sink.sendMessage sink m w)) = self w.
Proof.
  unfold Sink.sendMessage.
  destruct (isRunning (self w)); [destruct (sink (log w) m)|]; reflexivity.
Qed.

(** The [for] loop throws only what the sink throws on the announcement of
    one of the tasks. *)
Lemma sink_announce_spec (sink : list Event -> Message -> option JsError)
    (ts : list string) :
  forall (w : World) (o : Outcome unit) (w' : World),
    Sink.announce env sink ts w = (o, w') ->
    tasks (self w') = tasks (self w) /\
    match o with
    | Returned _ => True
    | Thrown e =>
        exists h t, In t ts /\ sink h (taskMessage t) = Some e
    end.
Proof.
  induction ts as [|t rest IH]; intros w o w' H.
  - injection H as <- <-. auto.
  - cbn [Sink.announce] in H.
    pose proof (sink_sendMessage_self sink (taskMessage t)
                  (Sink.suspend env sink w)) as Hs.
    unfold Sink.sendMessage in *.
    destruct (isRunning (self (Sink.suspend env sink w))).
    + destruct (sink (log (Sink.suspend env sink w)) (taskMessage t)) as [e|] eqn:E.
      * injection H as <- <-. cbn [snd] in Hs. rewrite Hs, sink_suspend_tasks.
        split; [reflexivity|]. exists (log (Sink.suspend env sink w)), t.
        split; [now left | exact E].
      * destruct (IH _ _ _ H) as [Ht Ho]. cbn [snd] in Hs.
        rewrite Ht, Hs, sink_suspend_tasks. split; [reflexivity|].
        destruct o as [u|e]; [exact I|].
        destruct Ho as (h & t' & Hin & Hthrow). exists h, t'.
        split; [now right | exact Hthrow].
    + destruct (IH _ _ _ H) as [Ht Ho]. rewrite Ht, sink_suspend_tasks.
      split; [reflexivity|].
      destruct o as [u|e]; [exact I|].
      destruct Ho as (h & t' & Hin & Hthrow). exists h, t'.
      split; [now right | exact Hthrow].
Qed.

(** C9, as the code has it.  Whatever the goal, the settings, the
    environment and the sink, the [try] block of [run] leaves the same eight
    tasks in the queue, from "Introduction" to "Specific details to
    consider": the decomposition itself does not fail.  The block throws only
    what the sink ([renderMessage]) throws on the announcement of one of
    these tasks, so the handler of a failed decomposition (an error message
    and the shutdown hook, without the loop) is entered only then; with a
    sink that does not throw, [run] always goes on to [loop]. *)
Theorem decomposition_is_fixed
    (sink : list Event -> Message -> option JsError) (w : World) :
  (forall (o : Outcome unit) (w' : World),
     Sink.run_try env sink INITIAL_TASKS w = (o, w') ->
     tasks (self w') = INITIAL_TASKS) /\
  (forall (e : JsError) (w' : World),
     Sink.run_try env sink INITIAL_TASKS w = (Thrown e, w') ->
     exists h t, In t INITIAL_TASKS /\ sink h (taskMessage t) = Some e) /\
  (forall w' : World,
     Sink.run_until_loop env sink INITIAL_TASKS w = Sink.Handled w' ->
     exists h t e, In t INITIAL_TASKS /\ sink h (taskMessage t) = Some e) /\
  (quiet_sink sink ->
   Sink.run_until_loop env sink INITIAL_TASKS w
     = Sink.EntersLoop (entry_world env INITIAL_TASKS w) /\
   forall fuel : nat,
     run consts env fuel w
     = loop consts env fuel (entry_world env INITIAL_TASKS w)) /\
  List.length INITIAL_TASKS = 8 /\
  hd_error INITIAL_TASKS = Some "Introduction" /\
  last INITIAL_TASKS EmptyString = "Specific details to consider".
Proof.
  split; [|split; [|split; [|split; [|repeat split]]]].
  - intros o w' H. unfold Sink.run_try in H.
    now destruct (sink_announce_spec sink _ _ _ _ H) as [-> _].
  - intros e w' H. unfold Sink.run_try in H.
    now destruct (sink_announce_spec sink _ _ _ _ H) as [_ Hthrow].
  - intros w' H. unfold Sink.run_until_loop in H.
    destruct (Sink.sendMessage sink (goalMessage _) w) as [[u|e0] w1];
      [|discriminate].
    destruct (Sink.sendMessage sink thinkingMessage w1) as [[u'|e1] w2];
      [|discriminate].
    destruct (Sink.run_try env sink INITIAL_TASKS w2) as [[u''|e] w3] eqn:Htry;
      [discriminate|].
    unfold Sink.run_try in Htry.
    destruct (sink_announce_spec sink _ _ _ _ Htry) as [_ (h & t & Hin & Hthrow)].
    now exists h, t, e.
  - intros Hq. split; [now apply sink_run_until_loop_quiet | reflexivity].
Qed.

(** X8.  When the sink does not throw, [run] gets to [loop], and whatever
    the environment does the only system messages it hands to the sink are
    its four notices (completion, cap, manual shutdown, rate limit): none of
    the texts of [getMessageFromError] is delivered as a system message.
    (The handler that sends them runs only on a throw of the sink, see
    [decomposition_is_fixed].) *)
Theorem only_notices_are_sent (ts : list string) (nm g : string)
    (settings : ModelSettings) (ss : option Session) (id : string)
    (fuel : nat) (sink : list Event -> Message -> option JsError) :
  quiet_sink sink ->
  List.length ts < fuel ->
  exists out w',
    Sink.run_until_loop env sink ts (new_world (new_agent nm g settings ss id))
      = Sink.EntersLoop
          (entry_world env ts (new_world (new_agent nm g settings ss id))) /\
    run_from consts env ts fuel (new_world (new_agent nm g settings ss id))
      = Some (out, w') /\
    only_notices settings (log w') /\
    forall e : JsError,
      ~ In (systemMessage (getMessageFromError e)) (rendered (log w')).
Proof.
  intros Hquiet Hfuel.
  destruct (run_returns ts nm g settings ss id fuel Hfuel)
    as (out & w' & Hrun & Hl).
  exists out, w'.
  split; [now apply sink_run_until_loop_quiet|].
  split; [exact Hrun|].
  assert (Hn : only_notices settings (log w')).
  { apply (loop_notices settings fuel _ out w' Hl). split; [reflexivity|].
    cbn [log]. apply only_notices_app; [now apply only_notices_silent|].
    apply only_notices_announce_log. }
  split; [exact Hn|]. intros e Hin.
  apply (getMessageFromError_not_notice settings e).
  unfold only_notices in Hn. rewrite Forall_forall in Hn.
  apply (Hn (systemMessage (getMessageFromError e))).
  unfold system_messages. apply filter_In. split; [exact Hin | reflexivity].
Qed.

End Facts.


(** * The properties at sample inputs *)

Lemma calm_env_undisturbed : undisturbed_from calm_env 0.
Proof. intros j _. reflexivity. Qed.

Lemma calm_env_never_fails : never_fails calm_env.
Proof. split; intros; eexists; reflexivity. Qed.

(** C1 at the eight tasks of [run], with a custom key (cap 50). *)
Lemma run_completes_all_tasks_witness :
  exists w' body,
    run sample_constants calm_env 9
      (new_world (sample_agent (key_settings None) None))
      = Some (Returned tt, w') /\
    log w' = (body ++ [Rendered (systemMessage COMPLETED_TEXT);
                       ShutdownCalled true])%list /\
    actions body = actions (log w') /\
    actions (log w') =
      expected_actions calm_env (key_settings None)
        "a marketplace for clothes" 8 INITIAL_TASKS /\
    List.length (actions (log w')) = 8 /\
    map info (actions (log w')) =
      map (fun t => Some ("Executing " ++ quote ++ t ++ quote)) INITIAL_TASKS /\
    count_shutdown (log w') = 1 /\
    tasks (self w') = [] /\
    completedTasks (self w') = INITIAL_TASKS.
Proof.
  apply (run_completes_all_tasks sample_constants calm_env INITIAL_TASKS
           "startright-agent" "a marketplace for clothes" (key_settings None)
           None "id-1" 9).
  - discriminate.
  - exact calm_env_undisturbed.
  - exact calm_env_never_fails.
  - vm_compute. discriminate.
  - cbn. lia.
Defined.

(** C2 at the eight tasks of [run], without a key (cap 4). *)
Lemma run_stops_at_cap_witness :
  exists w' body,
    run sample_constants calm_env 9
      (new_world (sample_agent demo_settings None))
      = Some (Returned tt, w') /\
    log w' = (body ++ [Rendered (systemMessage LOOP_TEXT_DEMO);
                       ShutdownCalled true])%list /\
    actions body = actions (log w') /\
    actions (log w') =
      expected_actions calm_env demo_settings "a marketplace for clothes" 8
        ["Introduction"; "Concept"; "Problem it aims to solve"; "Target audience"] /\
    Z.of_nat (List.length (actions (log w'))) = 4%Z /\
    count_shutdown (log w') = 1 /\
    completedTasks (self w') =
      ["Introduction"; "Concept"; "Problem it aims to solve"; "Target audience"] /\
    Z.of_nat (List.length (completedTasks (self w'))) = 4%Z.
Proof.
  apply (run_stops_at_cap sample_constants calm_env INITIAL_TASKS
           "startright-agent" "a marketplace for clothes" demo_settings
           None "id-1" 9 4%Z).
  - reflexivity.
  - exact calm_env_undisturbed.
  - exact calm_env_never_fails.
  - cbn. lia.
  - cbn. lia.
Defined.

(** C3 at the four kinds of caller. *)
Lemma maxLoops_resolution_witness :
  maxLoops sample_constants (sample_agent demo_settings None)
    = DEFAULT_MAX_LOOPS_FREE sample_constants /\
  maxLoops sample_constants (sample_agent demo_settings (Some paid_session))
    = DEFAULT_MAX_LOOPS_PAID sample_constants /\
  maxLoops sample_constants (sample_agent (key_settings None) (Some paid_session))
    = DEFAULT_MAX_LOOPS_CUSTOM_API_KEY sample_constants /\
  maxLoops sample_constants (sample_agent (key_settings (Some 7%Z)) None) = 7%Z.
Proof.
  destruct (maxLoops_resolution sample_constants
              (sample_agent demo_settings None)) as (Hfree & _).
  destruct (maxLoops_resolution sample_constants
              (sample_agent demo_settings (Some paid_session)))
    as (_ & Hpaid & _).
  destruct (maxLoops_resolution sample_constants
              (sample_agent (key_settings None) (Some paid_session)))
    as (_ & _ & Hkey & _).
  destruct (maxLoops_resolution sample_constants
              (sample_agent (key_settings (Some 7%Z)) None))
    as (_ & _ & _ & _ & Hoverride & _).
  split; [apply Hfree; reflexivity|].
  split; [apply Hpaid; reflexivity|].
  split; [apply Hkey; reflexivity|].
  apply (Hoverride 7%Z); [reflexivity | reflexivity | discriminate].
Defined.

(** C3 as stated fails at the override 0: the cap is the default of custom
    keys, not the override. *)
Lemma maxLoops_override_zero :
  has_custom_key (sample_agent (key_settings (Some 0%Z)) None) = true /\
  customMaxLoops (modelSettings (sample_agent (key_settings (Some 0%Z)) None))
    = Some 0%Z /\
  maxLoops sample_constants (sample_agent (key_settings (Some 0%Z)) None)
    = DEFAULT_MAX_LOOPS_CUSTOM_API_KEY sample_constants /\
  maxLoops sample_constants (sample_agent (key_settings (Some 0%Z)) None) <> 0%Z.
Proof. vm_compute. repeat split. discriminate. Qed.

(** C4 when [stopAgent] is called during the first execution. *)
Lemma sink_silent_after_stop_witness :
  exists out w',
    run sample_constants (stop_env 9 1) 9
      (new_world (sample_agent demo_settings None)) = Some (out, w') /\
    has_stop_mark (log w') = negb (isRunning (self w')) /\
    rendered (after_stop (log w')) = [] /\
    List.length (executions (after_stop (log w'))) <= 1.
Proof.
  apply (sink_silent_after_stop sample_constants (stop_env 9 1) INITIAL_TASKS
           "startright-agent" "a marketplace for clothes" demo_settings
           None "id-1" 9).
  cbn. lia.
Defined.

(** C4 as stated fails when [stopAgent] is called during the first pacing
    delay of a tick (point 8, after the eight announcements): the tick goes on
    and starts the execution of its task on the stopped object.  The cap is
    the override 3, whatever the constants. *)
Lemma execution_starts_after_stop :
  ending (run sample_constants (stop_env 8 1) 9
            (new_world (sample_agent (key_settings (Some 3%Z)) None)))
    = Some (Returned tt) /\
  observe (fun w => isRunning (self w))
    (run sample_constants (stop_env 8 1) 9
       (new_world (sample_agent (key_settings (Some 3%Z)) None)))
    = Some false /\
  observe (fun w => executions (after_stop (log w)))
    (run sample_constants (stop_env 8 1) 9
       (new_world (sample_agent (key_settings (Some 3%Z)) None)))
    = Some [ExecuteTaskAgentCalled (key_settings (Some 3%Z))
              "a marketplace for clothes" "Introduction"] /\
  observe (fun w => rendered (after_stop (log w)))
    (run sample_constants (stop_env 8 1) 9
       (new_world (sample_agent (key_settings (Some 3%Z)) None)))
    = Some [].
Proof. vm_compute. repeat split. Qed.

(** C5 when [stopAgent] is called twice during the fourth announcement. *)
Lemma stopAgent_before_first_action_witness :
  exists out w',
    run sample_constants (stop_env 3 2) 9
      (new_world (sample_agent demo_settings None)) = Some (out, w') /\
    actions (log w') = [] /\
    manual_notices (log w') = 1 /\
    isRunning (self w') = false.
Proof.
  apply (stopAgent_before_first_action sample_constants (stop_env 3 2)
           INITIAL_TASKS "startright-agent" "a marketplace for clothes"
           demo_settings None "id-1" 3 9).
  - lia.
  - cbn. lia.
  - left. cbn. lia.
Defined.

(** C6 at the eight tasks of [run]. *)
Lemma rate_limited_run_witness :
  exists w',
    run sample_constants (failing_env (AxiosError (Some 429%Z))) 9
      (new_world (sample_agent demo_settings None))
      = Some (Thrown (AxiosError (Some 429%Z)), w') /\
    log w' =
      ([Rendered (goalMessage "a marketplace for clothes");
        Rendered thinkingMessage]
       ++ map (fun t => Rendered (taskMessage t)) INITIAL_TASKS
       ++ [Rendered thinkingMessage;
           AxiosPosted EXECUTE_URL
             {| rb_modelSettings := demo_settings;
                rb_goal := "a marketplace for clothes";
                rb_task := "Introduction" |};
           ShutdownCalled true;
           Rendered (systemMessage RATE_LIMIT_TEXT)])%list /\
    count_shutdown (log w') = 1 /\
    system_messages (log w') = [systemMessage RATE_LIMIT_TEXT] /\
    count_system_text RATE_LIMIT_TEXT (log w') = 1 /\
    actions (log w') = [].
Proof.
  apply (rate_limited_run sample_constants
           (failing_env (AxiosError (Some 429%Z))) INITIAL_TASKS
           "startright-agent" "a marketplace for clothes" demo_settings
           None "id-1" 9).
  - reflexivity.
  - intros k u d. reflexivity.
  - intros j _. reflexivity.
  - discriminate.
  - vm_compute. discriminate.
  - lia.
Defined.

(** C7 at a failure with status 500, in [post] and in the first tick. *)
Lemma failure_other_than_429_witness :
  post (failing_env (AxiosError (Some 500%Z))) EXECUTE_URL
    {| rb_modelSettings := demo_settings;
       rb_goal := "a marketplace for clothes";
       rb_task := "Introduction" |}
    (queued_world demo_settings INITIAL_TASKS) =
  (Thrown (AxiosError (Some 500%Z)),
   shutdown
     (suspend (failing_env (AxiosError (Some 500%Z)))
        (emit (AxiosPosted EXECUTE_URL
                 {| rb_modelSettings := demo_settings;
                    rb_goal := "a marketplace for clothes";
                    rb_task := "Introduction" |})
           (queued_world demo_settings INITIAL_TASKS)))) /\
  exists w',
    loop sample_constants (failing_env (AxiosError (Some 500%Z))) 9
      (queued_world demo_settings INITIAL_TASKS)
      = Some (Thrown (AxiosError (Some 500%Z)), w') /\
    log w' =
      [Rendered thinkingMessage;
       AxiosPosted EXECUTE_URL
         {| rb_modelSettings := demo_settings;
            rb_goal := "a marketplace for clothes";
            rb_task := "Introduction" |};
       ShutdownCalled true] /\
    system_messages (log w') = [] /\
    count_shutdown (log w') = 1.
Proof.
  destruct (failure_other_than_429 sample_constants
              (failing_env (AxiosError (Some 500%Z))) (AxiosError (Some 500%Z)))
    as [Hpost Hloop].
  - reflexivity.
  - split.
    + apply Hpost. reflexivity.
    + apply (Hloop 8 (queued_world demo_settings INITIAL_TASKS)).
      * reflexivity.
      * discriminate.
      * vm_compute. discriminate.
      * reflexivity.
      * reflexivity.
      * reflexivity.
      * intros u d. reflexivity.
Defined.

(** C8 at a queue of two tasks. *)
Lemma tick_bookkeeping_witness :
  task_at_call calm_env (queued_world (key_settings None) ["Introduction"; "Concept"])
    = Some "Introduction" /\
  completedTasks (self (world_at_call calm_env
      (queued_world (key_settings None) ["Introduction"; "Concept"])))
    = ["Introduction"] /\
  tasks (self (world_at_call calm_env
      (queued_world (key_settings None) ["Introduction"; "Concept"])))
    = ["Concept"] /\
  runningTasks (self (world_at_call calm_env
      (queued_world (key_settings None) ["Introduction"; "Concept"])))
    = [] /\
  log (world_at_call calm_env
      (queued_world (key_settings None) ["Introduction"; "Concept"]))
    = [Rendered thinkingMessage] /\
  exists after_call,
    executeTask calm_env "Introduction"
      (world_at_call calm_env
         (queued_world (key_settings None) ["Introduction"; "Concept"]))
      = (Returned "local: Introduction", after_call) /\
    log after_call =
      [Rendered thinkingMessage;
       execution_event (key_settings None) "a marketplace for clothes"
         "Introduction"] /\
    runningTasks (self after_call) = [] /\
    log (report calm_env (Some "Introduction") "local: Introduction" after_call) =
      (log after_call
       ++ [Rendered (executionMessage "Introduction" "local: Introduction")])%list /\
    runningTasks
      (self (report calm_env (Some "Introduction") "local: Introduction" after_call))
      = ["Introduction"] /\
    completedTasks
      (self (report calm_env (Some "Introduction") "local: Introduction" after_call))
      = ["Introduction"] /\
    tasks
      (self (report calm_env (Some "Introduction") "local: Introduction" after_call))
      = ["Concept"] /\
    loop sample_constants calm_env 3
      (queued_world (key_settings None) ["Introduction"; "Concept"]) =
    loop sample_constants calm_env 2
      (report calm_env (Some "Introduction") "local: Introduction" after_call).
Proof.
  apply (tick_bookkeeping sample_constants calm_env 2
           (queued_world (key_settings None) ["Introduction"; "Concept"])
           "Introduction" ["Concept"] "local: Introduction").
  - reflexivity.
  - reflexivity.
  - vm_compute. discriminate.
  - reflexivity.
  - reflexivity.
  - reflexivity.
  - reflexivity.
Defined.

(** C8 as stated fails: when the capability is called for "Introduction",
    the task is in [completedTasks] and off the queue but not in
    [runningTasks]; and when the call fails, it never gets there, though the
    call was made.  The cap is the override 3, whatever the constants. *)
Lemma runningTasks_lags_behind :
  task_at_call calm_env (queued_world (key_settings (Some 3%Z)) INITIAL_TASKS)
    = Some "Introduction" /\
  completedTasks (self (world_at_call calm_env
      (queued_world (key_settings (Some 3%Z)) INITIAL_TASKS)))
    = ["Introduction"] /\
  hd_error (tasks (self (world_at_call calm_env
      (queued_world (key_settings (Some 3%Z)) INITIAL_TASKS))))
    = Some "Concept" /\
  runningTasks (self (world_at_call calm_env
      (queued_world (key_settings (Some 3%Z)) INITIAL_TASKS)))
    = [] /\
  ending (run sample_constants (failing_env (OtherError "network")) 9
            (new_world (sample_agent (key_settings (Some 3%Z)) None)))
    = Some (Thrown (OtherError "network")) /\
  observe (fun w => executions (log w))
    (run sample_constants (failing_env (OtherError "network")) 9
       (new_world (sample_agent (key_settings (Some 3%Z)) None)))
    = Some [ExecuteTaskAgentCalled (key_settings (Some 3%Z))
              "a marketplace for clothes" "Introduction"] /\
  observe (fun w => completedTasks (self w))
    (run sample_constants (failing_env (OtherError "network")) 9
       (new_world (sample_agent (key_settings (Some 3%Z)) None)))
    = Some ["Introduction"] /\
  observe (fun w => runningTasks (self w))
    (run sample_constants (failing_env (OtherError "network")) 9
       (new_world (sample_agent (key_settings (Some 3%Z)) None)))
    = Some [].
Proof. vm_compute. repeat split. Qed.

(** C9 with a sink that does not throw. *)
Lemma decomposition_is_fixed_witness :
  Sink.run_until_loop calm_env patient_sink INITIAL_TASKS
    (new_world (sample_agent demo_settings None))
  = Sink.EntersLoop
      (entry_world calm_env INITIAL_TASKS
         (new_world (sample_agent demo_settings None))) /\
  forall fuel : nat,
    run sample_constants calm_env fuel
      (new_world (sample_agent demo_settings None))
    = loop sample_constants calm_env fuel
        (entry_world calm_env INITIAL_TASKS
           (new_world (sample_agent demo_settings None))).
Proof.
  destruct (decomposition_is_fixed sample_constants calm_env patient_sink
              (new_world (sample_agent demo_settings None)))
    as (_ & _ & _ & Hquiet & _).
  apply Hquiet. intros h m. reflexivity.
Defined.

(** C9 as stated fails with a sink that throws on the announcement of
    "Concept": the handler of the [try] block runs, the sink receives the
    error message of [getMessageFromError], the shutdown hook is called and
    [run] returns without entering [loop]. *)
Lemma decomposition_handler_is_entered :
  Sink.is_handled
    (Sink.run_until_loop calm_env picky_sink INITIAL_TASKS
       (new_world (sample_agent demo_settings None))) = true /\
  rendered (log (Sink.world_of
    (Sink.run_until_loop calm_env picky_sink INITIAL_TASKS
       (new_world (sample_agent demo_settings None)))))
  = [goalMessage "a marketplace for clothes"; thinkingMessage;
     taskMessage "Introduction"; taskMessage "Concept";
     systemMessage
       "ERROR retrieving initial tasks array. Retry, make your goal more clear, or revise your goal such that it is within our model's policies to run. Shutting Down."] /\
  count_shutdown (log (Sink.world_of
    (Sink.run_until_loop calm_env picky_sink INITIAL_TASKS
       (new_world (sample_agent demo_settings None))))) = 1 /\
  executions (log (Sink.world_of
    (Sink.run_until_loop calm_env picky_sink INITIAL_TASKS
       (new_world (sample_agent demo_settings None))))) = [].
Proof. vm_compute. repeat split. Qed.

(** * The further properties at sample inputs *)

(** X1 when [stopAgent] is called during the second execution (point 12). *)
Lemma queue_is_conserved_witness :
  exists out w',
    run sample_constants (stop_env 12 1) 9
      (new_world (sample_agent demo_settings None)) = Some (out, w') /\
    (completedTasks (self w') ++ tasks (self w'))%list = INITIAL_TASKS /\
    completedTasks (self w')
      = firstn (List.length (completedTasks (self w'))) INITIAL_TASKS /\
    tasks (self w')
      = skipn (List.length (completedTasks (self w'))) INITIAL_TASKS.
Proof.
  apply (queue_is_conserved sample_constants (stop_env 12 1) INITIAL_TASKS
           "startright-agent" "a marketplace for clothes" demo_settings
           None "id-1" 9).
  cbn. lia.
Defined.

(** X2 without a key (cap 4). *)
Lemma executions_match_completedTasks_witness :
  exists out w',
    run sample_constants calm_env 9
      (new_world (sample_agent demo_settings None)) = Some (out, w') /\
    executed_tasks (log w') = completedTasks (self w') /\
    (Z.of_nat (List.length (executions (log w')))
     <= Z.max 0 (maxLoops sample_constants (sample_agent demo_settings None)))%Z.
Proof.
  apply (executions_match_completedTasks sample_constants calm_env INITIAL_TASKS
           "startright-agent" "a marketplace for clothes" demo_settings
           None "id-1" 9).
  cbn. lia.
Defined.

(** X3 when every execution fails. *)
Lemma runningTasks_trail_completedTasks_witness :
  exists out w',
    run sample_constants (failing_env (OtherError "network")) 9
      (new_world (sample_agent (key_settings None) None)) = Some (out, w') /\
    match out with
    | Returned _ => runningTasks (self w') = completedTasks (self w')
    | Thrown _ =>
        exists t,
          completedTasks (self w') = (runningTasks (self w') ++ [t])%list /\
          executed_tasks (log w') = (runningTasks (self w') ++ [t])%list
    end.
Proof.
  apply (runningTasks_trail_completedTasks sample_constants
           (failing_env (OtherError "network")) INITIAL_TASKS
           "startright-agent" "a marketplace for clothes" (key_settings None)
           None "id-1" 9).
  cbn. lia.
Defined.

(** X4 without a key (the run ends on the cap). *)
Lemma numLoops_counts_executions_witness :
  exists out w',
    run sample_constants calm_env 9
      (new_world (sample_agent demo_settings None)) = Some (out, w') /\
    (numLoops (self w') = Z.of_nat (List.length (executions (log w'))) \/
     (numLoops (self w') = Z.of_nat (List.length (executions (log w'))) + 1 /\
      maxLoops sample_constants (sample_agent demo_settings None)
        < numLoops (self w') /\
      tasks (self w') <> [] /\ out = Returned tt))%Z.
Proof.
  apply (numLoops_counts_executions sample_constants calm_env INITIAL_TASKS
           "startright-agent" "a marketplace for clothes" demo_settings
           None "id-1" 9).
  cbn. lia.
Defined.

(** X5 when [stopAgent] is called during the second execution. *)
Lemma actions_follow_task_order_witness :
  exists out w' n,
    run sample_constants (stop_env 12 1) 9
      (new_world (sample_agent demo_settings None)) = Some (out, w') /\
    n <= List.length (runningTasks (self w')) /\
    map info (actions (log w')) = map label (firstn n INITIAL_TASKS).
Proof.
  apply (actions_follow_task_order sample_constants (stop_env 12 1)
           INITIAL_TASKS "startright-agent" "a marketplace for clothes"
           demo_settings None "id-1" 9).
  cbn. lia.
Defined.

(** X6 when the request fails after two calls of [stopAgent]. *)
Lemma shutdown_accounting_witness :
  exists out w',
    run sample_constants (harsh_env (AxiosError (Some 429%Z)) 9 2) 9
      (new_world (sample_agent demo_settings None)) = Some (out, w') /\
    count_shutdown (log w') =
      stops_before (harsh_env (AxiosError (Some 429%Z)) 9 2) (now w')
      + match out with
        | Returned _ => if isRunning (self w') then 1 else 0
        | Thrown _ => if truthy_string (customApiKey demo_settings) then 0 else 1
        end.
Proof.
  apply (shutdown_accounting sample_constants
           (harsh_env (AxiosError (Some 429%Z)) 9 2) INITIAL_TASKS
           "startright-agent" "a marketplace for clothes" demo_settings
           None "id-1" 9).
  cbn. lia.
Defined.

(** X7 in a run that ends on the cap. *)
Lemma isRunning_iff_never_stopped_witness :
  exists out w',
    run sample_constants calm_env 9
      (new_world (sample_agent demo_settings None)) = Some (out, w') /\
    isRunning (self w') = (stops_before calm_env (now w') =? 0)%nat /\
    (undisturbed_from calm_env 0 -> isRunning (self w') = true).
Proof.
  apply (isRunning_iff_never_stopped sample_constants calm_env INITIAL_TASKS
           "startright-agent" "a marketplace for clothes" demo_settings
           None "id-1" 9).
  cbn. lia.
Defined.

(** X8 when every request is answered with status 429. *)
Lemma only_notices_are_sent_witness :
  exists out w',
    Sink.run_until_loop (failing_env (AxiosError (Some 429%Z))) patient_sink
      INITIAL_TASKS (new_world (sample_agent demo_settings None))
      = Sink.EntersLoop
          (entry_world (failing_env (AxiosError (Some 429%Z))) INITIAL_TASKS
             (new_world (sample_agent demo_settings None))) /\
    run sample_constants (failing_env (AxiosError (Some 429%Z))) 9
      (new_world (sample_agent demo_settings None)) = Some (out, w') /\
    only_notices demo_settings (log w') /\
    forall e : JsError,
      ~ In (systemMessage (getMessageFromError e)) (rendered (log w')).
Proof.
  apply (only_notices_are_sent sample_constants
           (failing_env (AxiosError (Some 429%Z))) INITIAL_TASKS
           "startright-agent" "a marketplace for clothes" demo_settings
           None "id-1" 9 patient_sink).
  - intros h m. reflexivity.
  - cbn. lia.
Defined.


(** X10 with a custom key, when the execution in process fails. *)
Lemma local_failure_skips_shutdown_witness :
  exists w',
    run sample_constants (failing_env (OtherError "network")) 9
      (new_world (sample_agent (key_settings None) None))
      = Some (Thrown (OtherError "network"), w') /\
    log w' =
      ([Rendered (goalMessage "a marketplace for clothes");
        Rendered thinkingMessage]
       ++ map (fun t => Rendered (taskMessage t)) INITIAL_TASKS
       ++ [Rendered thinkingMessage;
           ExecuteTaskAgentCalled (key_settings None)
             "a marketplace for clothes" "Introduction"])%list /\
    count_shutdown (log w') = 0 /\
    system_messages (log w') = [] /\
    isRunning (self w') = true.
Proof.
  apply (local_failure_skips_shutdown sample_constants
           (failing_env (OtherError "network")) INITIAL_TASKS
           "startright-agent" "a marketplace for clothes" (key_settings None)
           None "id-1" 9 (OtherError "network")).
  - reflexivity.
  - intros s g' t. reflexivity.
  - intros j _. reflexivity.
  - discriminate.
  - vm_compute. discriminate.
  - lia.
Defined.

(** X11 on an object stopped before [run], with one more call of
    [stopAgent] during the third announcement. *)
Lemma run_on_stopped_object_witness :
  exists w',
    run sample_constants (stop_env 2 1) 1
      (stopAgent (new_world (sample_agent demo_settings None)))
      = Some (Returned tt, w') /\
    rendered (log w')
      = rendered (log (stopAgent (new_world (sample_agent demo_settings None)))) /\
    executions (log w')
      = executions (log (stopAgent (new_world (sample_agent demo_settings None)))) /\
    tasks (self w') = INITIAL_TASKS /\
    completedTasks (self w') = [] /\
    isRunning (self w') = false /\
    now w' = 8 /\
    stops_before (stop_env 2 1) 0 + count_shutdown (log w')
      = 1 + stops_before (stop_env 2 1) 8.
Proof.
  apply (run_on_stopped_object sample_constants (stop_env 2 1) INITIAL_TASKS 0
           (stopAgent (new_world (sample_agent demo_settings None)))).
  reflexivity.
Defined.

(** X12 for a request that fails with status 429 after one call of
    [stopAgent]. *)
Lemma stop_in_flight_drops_rate_limit_witness :
  exists w',
    post (harsh_env (AxiosError (Some 429%Z)) 0 1) EXECUTE_URL
      {| rb_modelSettings := demo_settings;
         rb_goal := "a marketplace for clothes";
         rb_task := "Introduction" |}
      (queued_world demo_settings INITIAL_TASKS)
      = (Thrown (AxiosError (Some 429%Z)), w') /\
    rendered (log w') = [systemMessage MANUAL_SHUTDOWN_TEXT] /\
    count_shutdown (log w') = 2 /\
    isRunning (self w') = false.
Proof.
  apply (stop_in_flight_drops_rate_limit
           (harsh_env (AxiosError (Some 429%Z)) 0 1) EXECUTE_URL
           {| rb_modelSettings := demo_settings;
              rb_goal := "a marketplace for clothes";
              rb_task := "Introduction" |}
           (AxiosError (Some 429%Z))
           (queued_world demo_settings INITIAL_TASKS)).
  - reflexivity.
  - cbn. lia.
  - reflexivity.
Defined.
